(** * Driver-app: fare computation and proximity dispatch

    A shallow embedding of
      - [services/FareCalculationService.ts] (module [FareCalculationService]),
      - the driver-api edge function with its notify-drivers, accept-ride
        and update-ride-status endpoints (module [DriverApi]; module
        [AcceptRace] runs two accept-ride requests side by side),
      - [supabase/functions/find-nearby-drivers/index.ts]
        (module [FindNearbyDrivers]),
      - the operations of the app on a ride and on its driver
        ([contexts/RideContext.tsx], modules [RideContext] and
        [AuthContext]) and the clean-up of expired requests in the
        migrations (module [Migrations]),
    over an explicit model of the record store, followed by the
    properties of the fare engine and of the dispatch path.

    A handler is a function from the store it finds to its answer and
    the store it leaves. Where a property depends on what other
    requests write while a handler waits for the store, the handler is
    also given one store operation at a time: [AcceptRace] for
    accept-ride, [NotifyRun] for notify-drivers, each proved to agree
    with the handler when nothing interleaves.

    Conventions of the model.
      - A JavaScript number is an exact rational ([Q]); [NaN] and
        [undefined] are kept as separate values because the fare code
        tests for them. Binary rounding of doubles is not modelled.
      - A timestamp is its epoch time in milliseconds ([Z]); a reading of
        the clock is an argument of the function that takes it.
      - A table is the list of its rows and a query is a filter over that
        list. A request to the store can fail; which requests do is
        given by a [Faults] plan. Where two requests of one call to the
        same table can fare differently, the call takes one plan for
        each ([RideContext.completeRideAcross]).
      - The body of a request is given as read ([Payload]): its fields,
        or what reading it throws.
      - The great-circle distance (Haversine, built from sin, cos and
        atan2) is a parameter [calculateDistance] of the development.
      - Console output, and queries whose result only feeds it, are left
        out. *)

From Stdlib Require Import QArith Qround Qabs ZArith List String Ascii Bool Lia Sorted.
Import ListNotations.

Local Open Scope string_scope.
Local Open Scope Q_scope.

(* ================================================================== *)
(** ** JavaScript values that occur in the fare arithmetic *)

Inductive value : Type :=
  | Undefined
  | NaN
  | Num (q : Q).

(** [+], [-], [*] after ToNumber: [undefined] and [NaN] give [NaN]. *)
Definition vadd (a b : value) : value :=
  match a, b with Num x, Num y => Num (x + y) | _, _ => NaN end.

Definition vsub (a b : value) : value :=
  match a, b with Num x, Num y => Num (x - y) | _, _ => NaN end.

Definition vmul (a b : value) : value :=
  match a, b with Num x, Num y => Num (x * y) | _, _ => NaN end.

(** [isNaN(v)] *)
Definition isNaN (v : value) : bool :=
  match v with Num _ => false | _ => true end.

(** ToBoolean on these values: [0], [NaN] and [undefined] are falsy. *)
Definition truthy (v : value) : bool :=
  match v with Num q => negb (Qeq_bool q 0) | _ => false end.

(** [a || b] *)
Definition jsOr (a b : value) : value := if truthy a then a else b.

(** [Number(x)] and [parseFloat(x)] of a numeric cell. *)
Definition Number (q : Q) : value := Num q.
Definition parseFloat (q : Q) : value := Num q.

(** [Number(v)] of a value already held in a local. *)
Definition toNumber (v : value) : value :=
  match v with Undefined => NaN | _ => v end.

(** [Math.max(a, b)] *)
Definition Qmax (a b : Q) : Q := if Qle_bool a b then b else a.

Definition vmax (a b : value) : value :=
  match a, b with Num x, Num y => Num (Qmax x y) | _, _ => NaN end.

(** [Math.round(x)]: the nearest integer, halves upwards. *)
Definition Math_round (x : Q) : Z := Qfloor (x + (1 # 2)).

(** [Math.ceil(x)] *)
Definition Math_ceil (x : Q) : Z := Qceiling x.

(** Equality of values up to the representation of a fraction. *)
Definition veq (a b : value) : Prop :=
  match a, b with
  | Num x, Num y => x == y
  | NaN, NaN => True
  | Undefined, Undefined => True
  | _, _ => False
  end.

(** What [JSON.stringify] sends for a number: [NaN] becomes [null]. *)
Definition jsonNumber (v : value) : option Q :=
  match v with Num q => Some q | _ => None end.

(* ================================================================== *)
(** ** Strings: [toLowerCase] and [includes] *)

Definition lower_ascii (c : ascii) : ascii :=
  let n := nat_of_ascii c in
  if andb (Nat.leb 65 n) (Nat.leb n 90) then ascii_of_nat (n + 32) else c.

Fixpoint toLowerCase (s : string) : string :=
  match s with
  | EmptyString => EmptyString
  | String c t => String (lower_ascii c) (toLowerCase t)
  end.

Fixpoint includes (s sub : string) : bool :=
  if String.prefix sub s then true
  else match s with
       | EmptyString => false
       | String _ t => includes t sub
       end.

(** A non-empty string is truthy. *)
Definition nonEmpty (s : string) : bool :=
  match s with EmptyString => false | _ => true end.

(* ================================================================== *)
(** ** Sorting

    [Array.prototype.sort] and the store's [order] clause are stable
    sorts; both are modelled by insertion. *)

Section Sort.
Context {A : Type}.
Variable leb : A -> A -> bool.

Fixpoint insert (x : A) (l : list A) : list A :=
  match l with
  | [] => [x]
  | y :: t => if leb x y then x :: y :: t else y :: insert x t
  end.

Fixpoint sort (l : list A) : list A :=
  match l with
  | [] => []
  | x :: t => insert x (sort t)
  end.
End Sort.

(** [.order(key, { ascending: false })] on an integer-valued column. *)
Definition order_desc {A : Type} (key : A -> Z) (rows : list A) : list A :=
  sort (fun a b => Z.leb (key b) (key a)) rows.

(** [.order(key, { ascending: true })] on an integer-valued column. *)
Definition order_asc {A : Type} (key : A -> Z) (rows : list A) : list A :=
  sort (fun a b => Z.leb (key a) (key b)) rows.

(** [.limit(n)] *)
Definition limit {A : Type} (n : nat) (rows : list A) : list A := firstn n rows.

(** [Array.prototype.filter]: the callback is called once per element,
    in order; [i] is the position of the element it is called for. *)
Fixpoint filterAt {A : Type} (p : nat -> A -> bool) (i : nat) (l : list A)
  : list A :=
  match l with
  | [] => []
  | x :: t => if p i x then x :: filterAt p (S i) t else filterAt p (S i) t
  end.

(* ================================================================== *)
(** ** Completions of a function body: normal return or a thrown Error *)

Inductive Completion (A : Type) : Type :=
  | Normal (a : A)
  | Throw (message : string).
Arguments Normal {A} a.
Arguments Throw {A} message.

(* ================================================================== *)
(** ** Rows of the record store *)

Module Ride.
Record t : Type := mk {
  id : string;
  driver_id : option string;
  pickup_latitude : Q;
  pickup_longitude : Q;
  booking_type : string;
  vehicle_type : string;
  status : string;
  fare_amount : option Q;
  distance_km : option Q;
  duration_minutes : option Q;
  scheduled_time : option Z;
  selected_hours : option Q
}.
End Ride.

Module Vehicle.
Record t : Type := mk { vehicle_type : string }.
End Vehicle.

(** A driver row as the dispatch queries select it: with the joined
    vehicle ([vehicles!fk_drivers_vehicle]), absent when the driver has
    no vehicle. *)
Module Driver.
Record t : Type := mk {
  id : string;
  user_id : string;
  status : string;
  is_verified : bool;
  vehicles : option Vehicle.t
}.
End Driver.

Module LiveLocation.
Record t : Type := mk {
  user_id : string;
  latitude : Q;
  longitude : Q;
  updated_at : Z
}.
End LiveLocation.

Module Notification.
Record t : Type := mk {
  user_id : string;
  type : string;
  status : string;
  data_ride_id : string;
  data_vehicle_type : string
}.
End Notification.

Module Zone.
Record t : Type := mk {
  name : string;
  center_latitude : Q;
  center_longitude : Q;
  radius_km : Q;
  is_active : bool
}.
End Zone.

Module FareMatrix.
Record t : Type := mk {
  booking_type : string;
  vehicle_type : string;
  base_fare : Q;
  per_km_rate : Q;
  minimum_fare : Q;
  surge_multiplier : Q;
  platform_fee : Q;
  is_active : bool;
  created_at : Z
}.
End FareMatrix.

Module RentalFare.
Record t : Type := mk {
  vehicle_type : string;
  duration_hours : Q;
  package_name : string;
  base_fare : Q;
  km_included : Q;
  extra_km_rate : Q;
  is_popular : bool;
  is_active : bool
}.
End RentalFare.

Module OutstationFare.
Record t : Type := mk {
  vehicle_type : string;
  base_fare : Q;
  per_km_rate : Q;
  driver_allowance_per_day : Q;
  daily_km_limit : Q;
  is_active : bool;
  created_at : Z
}.
End OutstationFare.

Module AirportFare.
Record t : Type := mk {
  vehicle_type : string;
  hosur_to_airport_fare : Q;
  airport_to_hosur_fare : Q;
  is_active : bool;
  created_at : Z
}.
End AirportFare.

(** The [details] sub-record of a breakdown. *)
Module Details.
Record t : Type := mk {
  actual_distance_km : Q;
  actual_duration_minutes : Q;
  base_km_included : option Q;
  extra_km : option Q;
  per_km_rate : value;
  surge_multiplier : option value;
  platform_fee_flat : option value;
  zone_detected : option string;
  is_inner_zone : option bool;
  days_calculated : option Z;
  daily_km_limit : option Q;
  within_allowance : option bool;
  package_name : option string;
  total_km_travelled : option Q;
  km_allowance : option Q;
  direction : option string
}.
End Details.

Module FareBreakdown.
Record t : Type := mk {
  booking_type : string;
  vehicle_type : string;
  base_fare : value;
  distance_fare : value;
  time_fare : value;
  surge_charges : value;
  deadhead_charges : value;
  platform_fee : value;
  gst_on_charges : value;
  gst_on_platform_fee : value;
  extra_km_charges : value;
  driver_allowance : value;
  total_fare : value;
  details : Details.t
}.
End FareBreakdown.

Module TripCompletion.
Record t : Type := mk {
  ride_id : string;
  booking_type : string;
  vehicle_type : string;
  actual_distance_km : Q;
  actual_duration_minutes : Q;
  total_fare : option Q;
  fare_breakdown : FareBreakdown.t
}.
End TripCompletion.

(* ================================================================== *)
(** ** The record store *)

Record Db : Type := mkDb {
  rides : list Ride.t;
  drivers : list Driver.t;
  live_locations : list LiveLocation.t;
  notifications : list Notification.t;
  zones : list Zone.t;
  fare_matrix : list FareMatrix.t;
  rental_fares : list RentalFare.t;
  outstation_fares : list OutstationFare.t;
  airport_fares : list AirportFare.t;
  trip_completions : list TripCompletion.t
}.

Definition with_rides (db : Db) (rs : list Ride.t) : Db :=
  mkDb rs (drivers db) (live_locations db) (notifications db) (zones db)
       (fare_matrix db) (rental_fares db) (outstation_fares db)
       (airport_fares db) (trip_completions db).

Definition with_drivers (db : Db) (ds : list Driver.t) : Db :=
  mkDb (rides db) ds (live_locations db) (notifications db) (zones db)
       (fare_matrix db) (rental_fares db) (outstation_fares db)
       (airport_fares db) (trip_completions db).

Definition with_notifications (db : Db) (ns : list Notification.t) : Db :=
  mkDb (rides db) (drivers db) (live_locations db) ns (zones db)
       (fare_matrix db) (rental_fares db) (outstation_fares db)
       (airport_fares db) (trip_completions db).

Definition with_trip_completions (db : Db) (tc : list TripCompletion.t) : Db :=
  mkDb (rides db) (drivers db) (live_locations db) (notifications db) (zones db)
       (fare_matrix db) (rental_fares db) (outstation_fares db)
       (airport_fares db) tc.

(** Failures of the store that a request can meet: per table for reads
    and updates, per table and row key for inserts (the ride id of a trip
    completion, the recipient of a notification). [None] is success. *)
Record Faults : Type := mkFaults {
  select_error : string -> option string;
  insert_error : string -> string -> option string;
  update_error : string -> option string
}.

Definition no_faults : Faults :=
  mkFaults (fun _ => None) (fun _ _ => None) (fun _ => None).

(** The client's answer [{ data, error }]. *)
Module PostgREST.
Record Reply (A : Type) : Type := mkReply {
  data : option A;
  error : option string
}.
Arguments mkReply {A} data error.
Arguments data {A} r.
Arguments error {A} r.

Definition ok {A : Type} (a : A) : Reply A := mkReply (Some a) None.
Definition failed {A : Type} (e : string) : Reply A := mkReply None (Some e).

(** A filtered read of a table. *)
Definition select {A : Type} (f : Faults) (table : string)
           (rows : list A) (p : A -> bool) : Reply (list A) :=
  match select_error f table with
  | Some e => failed e
  | None => ok (filter p rows)
  end.

(** The message of error PGRST116, which the store raises when a single
    object is requested and the result does not have exactly one row.
    The handlers forward the text and never inspect it. *)
Definition noRows : string :=
  "JSON object requested, multiple (or no) rows returned".

(** [.single()]: the answer is the row when the result has exactly one
    row, and error PGRST116 otherwise, also when the result is empty
    (the login path of the app names that code for "no rows found").
    [.maybeSingle()], which no handler below uses, is the variant that
    answers an empty result with [data: null] and no error. *)
Definition single {A : Type} (r : Reply (list A)) : Reply A :=
  match error r, data r with
  | Some e, _ => failed e
  | None, Some [a] => ok a
  | None, _ => failed noRows
  end.
End PostgREST.
Import PostgREST.

(* ================================================================== *)
(** ** services/FareCalculationService.ts *)

Module FareCalculationService.

(** How a read of a [const] that the function declares further down
    behaves. [BlockScoped] is the language's rule: the binding is in its
    temporal dead zone and the read throws a ReferenceError. [VarHoisted]
    is what a down-levelling build (const compiled to var) executes: the
    read yields [undefined]. *)
Inductive Scoping : Type := BlockScoped | VarHoisted.

(** The bindings of a function body that are initialised so far. *)
Definition Scope : Type := list (string * value).

Definition Body (A : Type) : Type := Scope -> Completion (A * Scope).

Definition ret {A : Type} (a : A) : Body A := fun sc => Normal (a, sc).

Definition bind {A B : Type} (c : Body A) (k : A -> Body B) : Body B :=
  fun sc => match c sc with
            | Normal (a, sc') => k a sc'
            | Throw m => Throw m
            end.

Notation "x <- c ;; k" := (bind c (fun x => k))
  (at level 61, c at next level, right associativity).
Notation "c ;;; k" := (bind c (fun _ => k))
  (at level 61, right associativity).

Fixpoint lookup (x : string) (sc : Scope) : option value :=
  match sc with
  | [] => None
  | (y, v) :: t => if String.eqb x y then Some v else lookup x t
  end.

(** [const x = v;] *)
Definition const (x : string) (v : value) : Body unit :=
  fun sc => Normal (tt, (x, v) :: sc).

(** A read of the local [x]. *)
Definition read (m : Scoping) (x : string) : Body value :=
  fun sc =>
    match lookup x sc with
    | Some v => Normal (v, sc)
    | None =>
        match m with
        | BlockScoped =>
            Throw ("Cannot access '" ++ x ++ "' before initialization")
        | VarHoisted => Normal (Undefined, sc)
        end
    end.

Definition run {A : Type} (c : Body A) : Completion A :=
  match c [] with
  | Normal (a, _) => Normal a
  | Throw m => Throw m
  end.

Record DeadheadResult : Type := mkDeadhead {
  deadheadCharges : value;
  zoneDetected : string;
  isInnerZone : bool
}.

(** The answer of [calculateAndStoreTripFare]. *)
Record TripFareResult : Type := mkResult {
  success : bool;
  fareBreakdown : option FareBreakdown.t;
  error_message : option string
}.

Section WithDistance.

(** [calculateDistance(lat1, lon1, lat2, lon2)], in kilometres. *)
Variable calculateDistance : Q -> Q -> Q -> Q -> Q.

(** The predicate of [zones.find] in [calculateDeadheadCharges]. *)
Definition denotes_inner (zone : Zone.t) : bool :=
  includes (toLowerCase (Zone.name zone)) "inner"
  || includes (toLowerCase (Zone.name zone)) "ring".

Definition calculateDeadheadCharges
           (dropLat dropLng : Q) (perKmRate : value) (zones : list Zone.t)
  : DeadheadResult :=
  match find denotes_inner zones with
  | None => mkDeadhead (Num 0) "Unknown" false
  | Some innerZone =>
      let distanceToInnerCenter :=
        calculateDistance dropLat dropLng
                          (Zone.center_latitude innerZone)
                          (Zone.center_longitude innerZone) in
      if Qle_bool distanceToInnerCenter (Zone.radius_km innerZone) then
        mkDeadhead (Num 0) (Zone.name innerZone) true
      else
        let distanceToInnerBoundary :=
          distanceToInnerCenter - Zone.radius_km innerZone in
        mkDeadhead (vmul (Num (distanceToInnerBoundary / 2)) perKmRate)
                   "Outside Inner Zone" false
  end.

(** The fare-matrix query of [calculateRegularFare]: the active rows for
    regular rides of the vehicle type, most recent first. *)
Definition regular_fare_rows (db : Db) (f : Faults) (vehicleType : string)
  : Reply (list FareMatrix.t) :=
  let r := select f "fare_matrix" (fare_matrix db)
             (fun m => String.eqb (FareMatrix.booking_type m) "regular"
                       && String.eqb (FareMatrix.vehicle_type m) vehicleType
                       && FareMatrix.is_active m) in
  mkReply (option_map (order_desc FareMatrix.created_at) (data r)) (error r).

(** The body of [calculateRegularFare] from the point where the
    fare-matrix row is in hand, statement by statement: the locals that
    hold the fare's numbers are declared by [const] in the order of the
    source, and every use of one is a [read]. *)
Definition regularFareBody (m : Scoping) (fareMatrix : FareMatrix.t)
           (vehicleType : string)
           (actualDistanceKm actualDurationMinutes dropLat dropLng : Q)
           (zones : list Zone.t) : Body FareBreakdown.t :=
  let rawPlatformFee := FareMatrix.platform_fee fareMatrix in
  const "numberConversion" (Number rawPlatformFee) ;;;
  const "parseFloatConversion" (parseFloat rawPlatformFee) ;;;
  const "directAssignment" (Num rawPlatformFee) ;;;
  pf <- read m "parseFloatConversion" ;;
  nc <- read m "numberConversion" ;;
  da <- read m "directAssignment" ;;
  const "platformFee"
        (if negb (isNaN pf) then pf
         else if negb (isNaN nc) then nc
         else if negb (isNaN da) then da
         else Num 10) ;;;
  const "baseFare" (jsOr (Number (FareMatrix.base_fare fareMatrix)) (Num 0)) ;;;
  const "baseKmIncluded" (Num 4) ;;;
  const "perKmRate" (jsOr (Number (FareMatrix.per_km_rate fareMatrix)) (Num 0)) ;;;
  const "surgeMultiplier"
        (jsOr (Number (FareMatrix.surge_multiplier fareMatrix)) (Num 1)) ;;;
  baseKmIncluded <- read m "baseKmIncluded" ;;
  const "extraKm" (vmax (Num 0) (vsub (Num actualDistanceKm) baseKmIncluded)) ;;;
  extraKm <- read m "extraKm" ;;
  perKmRate <- read m "perKmRate" ;;
  const "distanceFare" (vmul extraKm perKmRate) ;;;
  perKmRate <- read m "perKmRate" ;;
  let deadheadResult :=
    calculateDeadheadCharges dropLat dropLng perKmRate zones in
  const "deadheadCharges"
        (jsOr (toNumber (deadheadCharges deadheadResult)) (Num 0)) ;;;
  baseFare <- read m "baseFare" ;;
  distanceFare <- read m "distanceFare" ;;
  deadhead <- read m "deadheadCharges" ;;
  const "subtotalBeforeSurge" (vadd (vadd baseFare distanceFare) deadhead) ;;;
  subtotalBeforeSurge <- read m "subtotalBeforeSurge" ;;
  surgeMultiplier <- read m "surgeMultiplier" ;;
  const "surgeCharges"
        (vmul subtotalBeforeSurge (vsub surgeMultiplier (Num 1))) ;;;
  (* const chargesSubtotal = validBaseFare + validDistanceFare
                             + validDeadheadCharges + validSurgeCharges; *)
  vb <- read m "validBaseFare" ;;
  vd <- read m "validDistanceFare" ;;
  vdh <- read m "validDeadheadCharges" ;;
  vs <- read m "validSurgeCharges" ;;
  const "chargesSubtotal" (vadd (vadd (vadd vb vd) vdh) vs) ;;;
  chargesSubtotal <- read m "chargesSubtotal" ;;
  const "gstOnCharges" (vmul chargesSubtotal (Num (5 # 100))) ;;;
  baseFare <- read m "baseFare" ;;
  const "validBaseFare" (if isNaN baseFare then Num 0 else baseFare) ;;;
  distanceFare <- read m "distanceFare" ;;
  const "validDistanceFare" (if isNaN distanceFare then Num 0 else distanceFare) ;;;
  deadhead <- read m "deadheadCharges" ;;
  const "validDeadheadCharges" (if isNaN deadhead then Num 0 else deadhead) ;;;
  surgeCharges <- read m "surgeCharges" ;;
  const "validSurgeCharges" (if isNaN surgeCharges then Num 0 else surgeCharges) ;;;
  platformFee <- read m "platformFee" ;;
  const "validPlatformFee" (if isNaN platformFee then Num 10 else platformFee) ;;;
  gstOnCharges <- read m "gstOnCharges" ;;
  const "validGstOnCharges" (if isNaN gstOnCharges then Num 0 else gstOnCharges) ;;;
  (* const totalFare = validBaseFare + validDistanceFare + validDeadheadCharges
       + validSurgeCharges + validPlatformFee + validGstOnCharges
       + gstOnPlatformFee; *)
  validBaseFare <- read m "validBaseFare" ;;
  validDistanceFare <- read m "validDistanceFare" ;;
  validDeadheadCharges <- read m "validDeadheadCharges" ;;
  validSurgeCharges <- read m "validSurgeCharges" ;;
  validPlatformFee <- read m "validPlatformFee" ;;
  validGstOnCharges <- read m "validGstOnCharges" ;;
  gstOnPlatformFee0 <- read m "gstOnPlatformFee" ;;
  const "totalFare"
        (vadd (vadd (vadd (vadd (vadd (vadd validBaseFare validDistanceFare)
                                      validDeadheadCharges)
                                validSurgeCharges)
                          validPlatformFee)
                    validGstOnCharges)
              gstOnPlatformFee0) ;;;
  validPlatformFee <- read m "validPlatformFee" ;;
  const "gstOnPlatformFee" (vmul validPlatformFee (Num (18 # 100))) ;;;
  gstOnPlatformFee <- read m "gstOnPlatformFee" ;;
  totalFare <- read m "totalFare" ;;
  perKmRate <- read m "perKmRate" ;;
  surgeMultiplier <- read m "surgeMultiplier" ;;
  ret (FareBreakdown.mk
         "regular" vehicleType
         validBaseFare validDistanceFare (Num 0)
         validSurgeCharges validDeadheadCharges validPlatformFee
         validGstOnCharges gstOnPlatformFee
         (Num 0) (Num 0) totalFare
         (Details.mk actualDistanceKm actualDurationMinutes
            (Some 4) (jsonNumber extraKm)
            (if isNaN perKmRate then Num 0 else perKmRate)
            (Some (if isNaN surgeMultiplier then Num 1 else surgeMultiplier))
            (Some validPlatformFee)
            (Some (zoneDetected deadheadResult))
            (Some (isInnerZone deadheadResult))
            None None None None None None None)).

Definition calculateRegularFare (m : Scoping) (db : Db) (f : Faults)
           (vehicleType : string)
           (actualDistanceKm actualDurationMinutes : Q)
           (pickupLat pickupLng dropLat dropLng : Q)
           (zones : list Zone.t) : Completion FareBreakdown.t :=
  let r := regular_fare_rows db f vehicleType in
  match error r with
  | Some _ => Throw "Fare configuration not found"
  | None =>
      match data r with
      | None | Some [] =>
          Throw "Fare configuration not found for this vehicle type"
      | Some (fareMatrix :: _) =>
          run (regularFareBody m fareMatrix vehicleType actualDistanceKm
                               actualDurationMinutes dropLat dropLng zones)
      end
  end.

(** The package query of [calculateRentalFare]. *)
Definition rental_fare_rows (db : Db) (f : Faults) (vehicleType : string)
           (selectedHours : Q) : Reply (list RentalFare.t) :=
  let r := select f "rental_fares" (rental_fares db)
             (fun p => String.eqb (RentalFare.vehicle_type p) vehicleType
                       && Qeq_bool (RentalFare.duration_hours p) selectedHours
                       && RentalFare.is_active p) in
  mkReply (option_map
             (fun rows =>
                limit 1 (order_desc
                           (fun p => if RentalFare.is_popular p then 1%Z else 0%Z)
                           rows))
             (data r))
          (error r).

Definition calculateRentalFare (db : Db) (f : Faults) (vehicleType : string)
           (actualDistanceKm actualDurationMinutes selectedHours : Q)
  : Completion FareBreakdown.t :=
  let r := rental_fare_rows db f vehicleType selectedHours in
  match error r, data r with
  | None, Some (rentalFare :: _) =>
      let baseFare := RentalFare.base_fare rentalFare in
      let kmIncluded := RentalFare.km_included rentalFare in
      let extraKmRate := RentalFare.extra_km_rate rentalFare in
      let exceeds := negb (Qle_bool actualDistanceKm kmIncluded) in
      let extraKmCharges :=
        if exceeds then (actualDistanceKm - kmIncluded) * extraKmRate else 0 in
      let withinAllowance := negb exceeds in
      let totalFare := baseFare + extraKmCharges in
      Normal (FareBreakdown.mk
                "rental" vehicleType
                (Num baseFare) (Num 0) (Num 0) (Num 0) (Num 0) (Num 0)
                (Num 0) (Num 0) (Num extraKmCharges) (Num 0) (Num totalFare)
                (Details.mk actualDistanceKm actualDurationMinutes
                   (Some kmIncluded)
                   (Some (Qmax 0 (actualDistanceKm - kmIncluded)))
                   (Num extraKmRate) None None None None None None
                   (Some withinAllowance)
                   (Some (RentalFare.package_name rentalFare))
                   None None None))
  | _, _ => Throw "Rental fare configuration not found"
  end.

(** The configuration query of [calculateOutstationFare]. *)
Definition outstation_fare_rows (db : Db) (f : Faults) (vehicleType : string)
  : Reply (list OutstationFare.t) :=
  let r := select f "outstation_fares" (outstation_fares db)
             (fun c => String.eqb (OutstationFare.vehicle_type c) vehicleType
                       && OutstationFare.is_active c) in
  mkReply (option_map
             (fun rows => limit 1 (order_desc OutstationFare.created_at rows))
             (data r))
          (error r).

(** [Math.abs(endTime.getTime() - startTime.getTime()) / (1000 * 60 * 60)] *)
Definition durationHours (startTime endTime : Z) : Q :=
  inject_Z (Z.abs (endTime - startTime)) / inject_Z (1000 * 60 * 60).

(** [Math.max(1, Math.ceil(durationHours / 24))] *)
Definition numberOfDays (startTime endTime : Z) : Z :=
  Z.max 1 (Math_ceil (durationHours startTime endTime / 24)).

(** [calculateOutstationFare]. The function reads the clock twice:
    [startNow] is the reading that stands in for a missing
    [scheduled_time], [endNow] is the later reading of [endTime]. *)
Definition calculateOutstationFare (db : Db) (f : Faults)
           (startNow endNow : Z) (vehicleType : string)
           (actualDistanceKm actualDurationMinutes : Q)
           (scheduledTime : option Z) : Completion FareBreakdown.t :=
  let r := outstation_fare_rows db f vehicleType in
  match error r, data r with
  | None, Some (outstationConfig :: _) =>
      let baseFare := OutstationFare.base_fare outstationConfig in
      let perKmRate := OutstationFare.per_km_rate outstationConfig in
      let driverAllowancePerDay :=
        OutstationFare.driver_allowance_per_day outstationConfig in
      let dailyKmLimit := OutstationFare.daily_km_limit outstationConfig in
      let startTime :=
        match scheduledTime with Some t => t | None => startNow end in
      let endTime := endNow in
      let days := numberOfDays startTime endTime in
      let totalKmTravelled := actualDistanceKm * 2 in
      let totalKmAllowance := dailyKmLimit * inject_Z days in
      let driverAllowance := inject_Z days * driverAllowancePerDay in
      let withinAllowance := Qle_bool totalKmTravelled totalKmAllowance in
      let kmFare :=
        if withinAllowance then dailyKmLimit * inject_Z days * perKmRate
        else totalKmTravelled * perKmRate in
      let totalFare := baseFare + kmFare + driverAllowance in
      Normal (FareBreakdown.mk
                "outstation" vehicleType
                (Num baseFare) (Num kmFare) (Num 0) (Num 0) (Num 0) (Num 0)
                (Num 0) (Num 0) (Num 0) (Num driverAllowance) (Num totalFare)
                (Details.mk actualDistanceKm actualDurationMinutes
                   None None (Num perKmRate) None None None None
                   (Some days) (Some dailyKmLimit) (Some withinAllowance)
                   None (Some totalKmTravelled) (Some totalKmAllowance) None))
  | _, _ => Throw "Outstation fare configuration not found"
  end.

(** The configuration query of [calculateAirportFare]. *)
Definition airport_fare_rows (db : Db) (f : Faults) (vehicleType : string)
  : Reply (list AirportFare.t) :=
  let r := select f "airport_fares" (airport_fares db)
             (fun c => String.eqb (AirportFare.vehicle_type c) vehicleType
                       && AirportFare.is_active c) in
  mkReply (option_map
             (fun rows => limit 1 (order_desc AirportFare.created_at rows))
             (data r))
          (error r).

(** Hosur centre. *)
Definition cityCenter_lat : Q := 127401984 # 10000000.
Definition cityCenter_lng : Q := 77824 # 1000.

Definition calculateAirportFare (db : Db) (f : Faults) (vehicleType : string)
           (pickupLat pickupLng dropLat dropLng : Q)
  : Completion FareBreakdown.t :=
  let r := airport_fare_rows db f vehicleType in
  match error r, data r with
  | None, Some (airportConfig :: _) =>
      let pickupToCenter :=
        calculateDistance pickupLat pickupLng cityCenter_lat cityCenter_lng in
      let dropToCenter :=
        calculateDistance dropLat dropLng cityCenter_lat cityCenter_lng in
      let isHosurToAirport := negb (Qle_bool dropToCenter pickupToCenter) in
      let fare :=
        if isHosurToAirport then AirportFare.hosur_to_airport_fare airportConfig
        else AirportFare.airport_to_hosur_fare airportConfig in
      let direction :=
        if isHosurToAirport then "Hosur to Airport" else "Airport to Hosur" in
      Normal (FareBreakdown.mk
                "airport" vehicleType
                (Num fare) (Num 0) (Num 0) (Num 0) (Num 0) (Num 0)
                (Num 0) (Num 0) (Num 0) (Num 0) (Num fare)
                (Details.mk
                   (calculateDistance pickupLat pickupLng dropLat dropLng) 0
                   None None (Num 0) None None None None None None None None
                   None None (Some direction)))
  | _, _ => Throw "Airport fare configuration not found"
  end.

(** [ride.selected_hours || 4] *)
Definition selected_hours_or_4 (ride : Ride.t) : Q :=
  match Ride.selected_hours ride with
  | Some h => if Qeq_bool h 0 then 4 else h
  | None => 4
  end.

(** The [switch (ride.booking_type)]; [None] is the [default] case. *)
Definition fareForBookingType (m : Scoping) (db : Db) (f : Faults)
           (startNow endNow : Z) (ride : Ride.t)
           (actualDistanceKm actualDurationMinutes : Q)
           (pickupLat pickupLng dropLat dropLng : Q) (zones : list Zone.t)
  : option (Completion FareBreakdown.t) :=
  let bt := Ride.booking_type ride in
  if String.eqb bt "regular" then
    Some (calculateRegularFare m db f (Ride.vehicle_type ride)
            actualDistanceKm actualDurationMinutes
            pickupLat pickupLng dropLat dropLng zones)
  else if String.eqb bt "rental" then
    Some (calculateRentalFare db f (Ride.vehicle_type ride)
            actualDistanceKm actualDurationMinutes (selected_hours_or_4 ride))
  else if String.eqb bt "outstation" then
    Some (calculateOutstationFare db f startNow endNow (Ride.vehicle_type ride)
            actualDistanceKm actualDurationMinutes (Ride.scheduled_time ride))
  else if String.eqb bt "airport" then
    Some (calculateAirportFare db f (Ride.vehicle_type ride)
            pickupLat pickupLng dropLat dropLng)
  else None.

Definition failure (msg : string) : TripFareResult :=
  mkResult false None (Some msg).

(** The row that [calculateAndStoreTripFare] inserts. *)
Definition completionRow (rideId : string) (ride : Ride.t)
           (actualDistanceKm actualDurationMinutes : Q)
           (fb : FareBreakdown.t) : TripCompletion.t :=
  TripCompletion.mk rideId (Ride.booking_type ride) (Ride.vehicle_type ride)
    actualDistanceKm actualDurationMinutes
    (jsonNumber (FareBreakdown.total_fare fb)) fb.

(** [rides.update({ fare_amount, distance_km, duration_minutes })
      .eq('id', rideId)]; the reply is not inspected. *)
Definition updateRideFare (db : Db) (f : Faults) (rideId : string)
           (total : value) (actualDistanceKm actualDurationMinutes : Q) : Db :=
  match update_error f "rides" with
  | Some _ => db
  | None =>
      with_rides db
        (map (fun r =>
                if String.eqb (Ride.id r) rideId then
                  Ride.mk (Ride.id r) (Ride.driver_id r)
                    (Ride.pickup_latitude r) (Ride.pickup_longitude r)
                    (Ride.booking_type r) (Ride.vehicle_type r) (Ride.status r)
                    (jsonNumber total) (Some actualDistanceKm)
                    (Some actualDurationMinutes)
                    (Ride.scheduled_time r) (Ride.selected_hours r)
                else r)
             (rides db))
  end.

(** The [try] block of [calculateAndStoreTripFare]. *)
Definition tripFareTry (m : Scoping) (db : Db) (f : Faults)
           (startNow endNow : Z) (rideId : string)
           (actualDistanceKm actualDurationMinutes : Q)
           (pickupLat pickupLng dropLat dropLng : Q)
  : Completion (TripFareResult * Db) :=
  let rideReply :=
    single (select f "rides" (rides db)
                   (fun r => String.eqb (Ride.id r) rideId)) in
  match error rideReply, data rideReply with
  | None, Some ride =>
      let zonesReply := select f "zones" (zones db) Zone.is_active in
      match error zonesReply, data zonesReply with
      | None, Some zones =>
          match fareForBookingType m db f startNow endNow ride
                  actualDistanceKm actualDurationMinutes
                  pickupLat pickupLng dropLat dropLng zones with
          | None => Normal (failure "Invalid booking type", db)
          | Some (Throw msg) => Throw msg
          | Some (Normal fareBreakdown) =>
              match insert_error f "trip_completions" rideId with
              | Some _ =>
                  Normal (failure "Failed to store trip completion", db)
              | None =>
                  let db1 :=
                    with_trip_completions db
                      (trip_completions db
                       ++ [completionRow rideId ride actualDistanceKm
                             actualDurationMinutes fareBreakdown]) in
                  let db2 :=
                    updateRideFare db1 f rideId
                      (FareBreakdown.total_fare fareBreakdown)
                      actualDistanceKm actualDurationMinutes in
                  Normal (mkResult true (Some fareBreakdown) None, db2)
              end
          end
      | _, _ => Throw "Failed to fetch zone configuration"
      end
  | _, _ => Normal (failure "Ride not found", db)
  end.

(** [calculateAndStoreTripFare]: the [try] block, and the [catch] that
    turns a thrown Error into an unsuccessful result. Nothing is
    written before the last point at which the block can throw, so the
    store the handler leaves behind is the one it found. *)
Definition calculateAndStoreTripFare (m : Scoping) (db : Db) (f : Faults)
           (startNow endNow : Z) (rideId : string)
           (actualDistanceKm actualDurationMinutes : Q)
           (pickupLat pickupLng dropLat dropLng : Q)
  : TripFareResult * Db :=
  match tripFareTry m db f startNow endNow rideId
          actualDistanceKm actualDurationMinutes
          pickupLat pickupLng dropLat dropLng with
  | Normal res => res
  | Throw msg => (failure msg, db)
  end.

End WithDistance.

(** [getTripCompletion]: the completion record of a ride, or [null]
    ([None]) when the query with [.single()] reports an error. *)
Definition getTripCompletion (db : Db) (f : Faults) (rideId : string)
  : option TripCompletion.t :=
  let reply :=
    single (select f "trip_completions" (trip_completions db)
                   (fun c => String.eqb (TripCompletion.ride_id c) rideId)) in
  match error reply with
  | Some _ => None
  | None => data reply
  end.

End FareCalculationService.

(* ================================================================== *)
(** ** Conditional and plain updates of a table *)

(** [table.update(..).<filters>.select().single()]: the rows that pass
    the filters are rewritten and returned; with [.single()] the reply
    is an error unless exactly one row was rewritten, and the store then
    keeps its rows as they were. Row ids are primary keys, so a filter
    on [id] passes at most one row. *)
Definition update_single {A : Type} (f : Faults) (table : string)
           (rows : list A) (p : A -> bool) (upd : A -> A)
  : Reply A * list A :=
  match update_error f table with
  | Some e => (failed e, rows)
  | None =>
      let reply := single (ok (map upd (filter p rows))) in
      match error reply with
      | None => (reply, map (fun r => if p r then upd r else r) rows)
      | Some _ => (reply, rows)
      end
  end.

(** [table.update(..).<filters>] whose reply carries no rows. *)
Definition update_rows {A : Type} (f : Faults) (table : string)
           (rows : list A) (p : A -> bool) (upd : A -> A) : list A :=
  match update_error f table with
  | Some _ => rows
  | None => map (fun r => if p r then upd r else r) rows
  end.

Definition set_ride_status (s : string) (r : Ride.t) : Ride.t :=
  Ride.mk (Ride.id r) (Ride.driver_id r)
    (Ride.pickup_latitude r) (Ride.pickup_longitude r)
    (Ride.booking_type r) (Ride.vehicle_type r) s
    (Ride.fare_amount r) (Ride.distance_km r) (Ride.duration_minutes r)
    (Ride.scheduled_time r) (Ride.selected_hours r).

Definition assign_driver (driver_id : string) (r : Ride.t) : Ride.t :=
  Ride.mk (Ride.id r) (Some driver_id)
    (Ride.pickup_latitude r) (Ride.pickup_longitude r)
    (Ride.booking_type r) (Ride.vehicle_type r) "accepted"
    (Ride.fare_amount r) (Ride.distance_km r) (Ride.duration_minutes r)
    (Ride.scheduled_time r) (Ride.selected_hours r).

Definition set_driver_status (s : string) (d : Driver.t) : Driver.t :=
  Driver.mk (Driver.id d) (Driver.user_id d) s
    (Driver.is_verified d) (Driver.vehicles d).

(** A JavaScript [Map] keyed by user id, in insertion order. *)
Module UserMap.
Definition t (V : Type) : Type := list (string * V).

Fixpoint get {V : Type} (m : t V) (k : string) : option V :=
  match m with
  | [] => None
  | (k', v) :: rest => if String.eqb k k' then Some v else get rest k
  end.

Definition has {V : Type} (m : t V) (k : string) : bool :=
  match get m k with Some _ => true | None => false end.

Fixpoint set {V : Type} (m : t V) (k : string) (v : V) : t V :=
  match m with
  | [] => [(k, v)]
  | (k', v') :: rest =>
      if String.eqb k k' then (k, v) :: rest else (k', v') :: set rest k v
  end.
End UserMap.

(* ================================================================== *)
(** ** The driver-api edge function: notify-drivers, accept-ride,
       update-ride-status *)

Module DriverApi.

(** The JSON body and status of a reply; a field that the handler does
    not write is [None]. *)
Record Response : Type := mkResponse {
  http_status : Z;
  success : option bool;
  message : option string;
  error_text : option string;
  drivers_found : option nat;
  notifications_sent : option nat;
  ride : option Ride.t
}.

(** A driver row extended with [location] (the last [map] of
    [findNearbyDrivers]). *)
Record NearbyDriver : Type := mkNearby {
  driver : Driver.t;
  location : option LiveLocation.t
}.

Definition is_truthy (s : option string) : bool :=
  match s with Some x => nonEmpty x | None => false end.

Section WithDistance.

Variable calculateDistance : Q -> Q -> Q -> Q -> Q.

(** [latestLocations]: a later row replaces the kept one only when its
    [updated_at] is strictly newer. *)
Definition latestLocations (locations : list LiveLocation.t)
  : UserMap.t LiveLocation.t :=
  fold_left
    (fun m loc =>
       match UserMap.get m (LiveLocation.user_id loc) with
       | None => UserMap.set m (LiveLocation.user_id loc) loc
       | Some existingLocation =>
           if Z.ltb (LiveLocation.updated_at existingLocation)
                    (LiveLocation.updated_at loc)
           then UserMap.set m (LiveLocation.user_id loc) loc
           else m
       end)
    locations [].

(** The callback of [drivers.filter] in [findNearbyDrivers]; [now] is
    the reading of [Date.now()] that this call of the callback takes. *)
Definition withinReach (now : Z) (latest : UserMap.t LiveLocation.t)
           (pickupLat pickupLng radiusKm : Q) (d : Driver.t) : bool :=
  match UserMap.get latest (Driver.user_id d) with
  | None => false
  | Some location =>
      let locationAge := (now - LiveLocation.updated_at location)%Z in
      if Z.ltb (30 * 60 * 1000) locationAge then false
      else
        let distance :=
          calculateDistance pickupLat pickupLng
            (LiveLocation.latitude location)
            (LiveLocation.longitude location) in
        Qle_bool distance radiusKm
  end.

(** [findNearbyDrivers]. [vehicleType] is received and logged, and
    takes no part in the selection. [clock i] is the reading of
    [Date.now()] in the callback for the driver at position [i]. *)
Definition findNearbyDrivers (db : Db) (f : Faults) (clock : nat -> Z)
           (pickupLat pickupLng : Q) (vehicleType : string) (radiusKm : Q)
  : list NearbyDriver :=
  let driversReply :=
    select f "drivers" (drivers db)
           (fun d => String.eqb (Driver.status d) "online"
                     && Driver.is_verified d) in
  match error driversReply, data driversReply with
  | Some _, _ => []
  | None, None => []
  | None, Some [] => []
  | None, Some drivers =>
      let driverUserIds := map Driver.user_id drivers in
      let locationsReply :=
        select f "live_locations" (live_locations db)
               (fun l => existsb (String.eqb (LiveLocation.user_id l))
                                 driverUserIds) in
      match error locationsReply with
      | Some _ => []
      | None =>
          let locations :=
            match data locationsReply with
            | Some rows =>
                limit 100 (order_desc LiveLocation.updated_at rows)
            | None => []
            end in
          let latest := latestLocations locations in
          let nearbyDrivers :=
            filterAt
              (fun i => withinReach (clock i) latest
                                    pickupLat pickupLng radiusKm)
              0 drivers in
          map (fun d => mkNearby d (UserMap.get latest (Driver.user_id d)))
              nearbyDrivers
      end
  end.

(** [sendDriverNotification]: one insert into [notifications]; [false]
    when the insert reports an error or the body throws. *)
Definition sendDriverNotification (db : Db) (f : Faults)
           (nd : NearbyDriver) (ride : Ride.t) : bool * Db :=
  match location nd with
  | None => (false, db)
  | Some _ =>
      let user := Driver.user_id (driver nd) in
      match insert_error f "notifications" user with
      | Some _ => (false, db)
      | None =>
          (true,
           with_notifications db
             (notifications db
              ++ [Notification.mk user "ride_request" "unread"
                    (Ride.id ride) (Ride.vehicle_type ride)]))
      end
  end.

(** The [for] loop of [handleNotifyDrivers]. *)
Fixpoint notifyAll (db : Db) (f : Faults) (ride : Ride.t)
         (nearbyDrivers : list NearbyDriver) (notificationsCreated : nat)
  : nat * Db :=
  match nearbyDrivers with
  | [] => (notificationsCreated, db)
  | nd :: rest =>
      let '(notificationSent, db') := sendDriverNotification db f nd ride in
      notifyAll db' f ride rest
                (if notificationSent then S notificationsCreated
                 else notificationsCreated)
  end.

Definition markNoDriversAvailable (db : Db) (f : Faults) (rideId : string)
  : Db :=
  with_rides db
    (update_rows f "rides" (rides db)
       (fun r => String.eqb (Ride.id r) rideId)
       (set_ride_status "no_drivers_available")).

(** [handleNotifyDrivers] *)
Definition handleNotifyDrivers (db : Db) (f : Faults) (clock : nat -> Z)
           (ride_id : option string) : Response * Db :=
  match ride_id with
  | None | Some EmptyString =>
      (mkResponse 400 None None (Some "ride_id is required") None None None,
       db)
  | Some rid =>
      let rideReply :=
        single (select f "rides" (rides db)
                       (fun r => String.eqb (Ride.id r) rid)) in
      match error rideReply, data rideReply with
      | None, Some ride =>
          if negb (String.eqb (Ride.status ride) "requested") then
            (mkResponse 200 (Some true)
               (Some "Ride not in requested status") None None None None,
             db)
          else
            let nearbyDrivers :=
              findNearbyDrivers db f clock
                (Ride.pickup_latitude ride) (Ride.pickup_longitude ride)
                (Ride.vehicle_type ride) 15 in
            match nearbyDrivers with
            | [] =>
                (mkResponse 200 (Some true) (Some "No drivers available")
                   None None None None,
                 markNoDriversAvailable db f (Ride.id ride))
            | _ =>
                let '(notificationsCreated, db1) :=
                  notifyAll db f ride nearbyDrivers 0 in
                let db2 :=
                  if Nat.eqb notificationsCreated 0
                  then markNoDriversAvailable db1 f (Ride.id ride)
                  else db1 in
                (mkResponse 200 (Some true) None None
                   (Some (List.length nearbyDrivers))
                   (Some notificationsCreated) None,
                 db2)
            end
      | _, _ =>
          (mkResponse 404 None None (Some "Ride not found") None None None,
           db)
      end
  end.

End WithDistance.

(** The conditional update of [handleAcceptRide]:
    [update({ driver_id, status: 'accepted' }).eq('id', ride_id)
       .eq('status', 'requested').is('driver_id', null).select().single()] *)
Definition claimable (ride_id : string) (r : Ride.t) : bool :=
  String.eqb (Ride.id r) ride_id
  && String.eqb (Ride.status r) "requested"
  && match Ride.driver_id r with None => true | Some _ => false end.

Definition acceptRideUpdate (db : Db) (f : Faults) (ride_id driver_id : string)
  : Reply Ride.t * Db :=
  let '(reply, rows) :=
    update_single f "rides" (rides db) (claimable ride_id)
                  (assign_driver driver_id) in
  (reply, with_rides db rows).

(** [drivers.update({ status: 'busy' }).eq('id', driver_id)]; an error
    is logged and the answer stays a success. *)
Definition markDriverBusy (db : Db) (f : Faults) (driver_id : string) : Db :=
  with_drivers db
    (update_rows f "drivers" (drivers db)
       (fun d => String.eqb (Driver.id d) driver_id)
       (set_driver_status "busy")).

Definition accepted (updatedRide : Ride.t) : Response :=
  mkResponse 200 (Some true) None None None None (Some updatedRide).

Definition databaseError (msg : string) : Response :=
  mkResponse 500 (Some false) None (Some ("Database error: " ++ msg))
             None None None.

Definition conflict : Response :=
  mkResponse 409 (Some false) None
    (Some "Ride already assigned to another driver or no longer available")
    None None None.

(** [handleAcceptRide] *)
Definition handleAcceptRide (db : Db) (f : Faults)
           (ride_id driver_id : option string) : Response * Db :=
  match ride_id, driver_id with
  | Some rid, Some did =>
      if nonEmpty rid && nonEmpty did then
        let '(reply, db1) := acceptRideUpdate db f rid did in
        match error reply with
        | Some e => (databaseError e, db1)
        | None =>
            match data reply with
            | None => (conflict, db1)
            | Some updatedRide =>
                (accepted updatedRide, markDriverBusy db1 f did)
            end
        end
      else
        (mkResponse 400 None None (Some "ride_id and driver_id are required")
           None None None, db)
  | _, _ =>
      (mkResponse 400 None None (Some "ride_id and driver_id are required")
         None None None, db)
  end.

(** [handleUpdateRideStatus] *)
Definition handleUpdateRideStatus (db : Db) (f : Faults)
           (ride_id status driver_id : option string) : Response * Db :=
  if is_truthy ride_id && is_truthy status then
    match ride_id, status with
    | Some rid, Some st =>
        let '(reply, rows) :=
          update_single f "rides" (rides db)
                        (fun r => String.eqb (Ride.id r) rid)
                        (set_ride_status st) in
        let db1 := with_rides db rows in
        match error reply with
        | Some _ =>
            (mkResponse 500 None None (Some "Failed to update ride status")
               None None None, db1)
        | None =>
            let db2 :=
              if (String.eqb st "completed" || String.eqb st "cancelled")
                 && is_truthy driver_id
              then
                match driver_id with
                | Some did =>
                    with_drivers db1
                      (update_rows f "drivers" (drivers db1)
                         (fun d => String.eqb (Driver.id d) did)
                         (set_driver_status "online"))
                | None => db1
                end
              else db1 in
            (mkResponse 200 (Some true) None None None None (data reply), db2)
        end
    | _, _ =>
        (mkResponse 400 None None (Some "ride_id and status are required")
           None None None, db)
    end
  else
    (mkResponse 400 None None (Some "ride_id and status are required")
       None None None, db).

(** The answer of get-nearby-rides. *)
Module RidesReply.
Record t : Type := mk {
  http_status : Z;
  success : option bool;
  rides : option (list Ride.t);
  count : option nat;
  error_text : option string
}.
End RidesReply.

(** [parseFloat(url.searchParams.get(name) || '0')] followed by the
    test [!x]: the number when the parameter is a number other than
    zero. [None] as an argument is a parameter that is absent or not a
    number. *)
Definition queryNumber (x : option Q) : option Q :=
  match x with
  | Some q => if Qeq_bool q 0 then None else Some q
  | None => None
  end.

(** The store filters of [handleGetNearbyRides]:
    [.eq('status', 'requested').eq('booking_type', 'regular')
       .is('driver_id', null)] *)
Definition pendingRide (r : Ride.t) : bool :=
  String.eqb (Ride.status r) "requested"
  && String.eqb (Ride.booking_type r) "regular"
  && match Ride.driver_id r with None => true | Some _ => false end.

Section NearbyRides.

Variable calculateDistance : Q -> Q -> Q -> Q -> Q.

(** The [created_at] column of a ride row, which [Ride.t] does not
    carry. *)
Variable created_at : Ride.t -> Z.

(** [handleGetNearbyRides] *)
Definition handleGetNearbyRides (db : Db) (f : Faults)
           (driver_user_id : option string) (latitude longitude : option Q)
  : RidesReply.t :=
  match is_truthy driver_user_id,
        queryNumber latitude, queryNumber longitude with
  | true, Some lat, Some lng =>
      let reply := select f "rides" (rides db) pendingRide in
      match error reply with
      | Some _ =>
          RidesReply.mk 500 None None None (Some "Failed to fetch rides")
      | None =>
          let pendingRides :=
            match data reply with
            | Some rows => order_asc created_at rows
            | None => []
            end in
          let nearbyRides :=
            filter (fun ride =>
                      Qle_bool (calculateDistance lat lng
                                  (Ride.pickup_latitude ride)
                                  (Ride.pickup_longitude ride))
                               10)
                   pendingRides in
          RidesReply.mk 200 (Some true) (Some nearbyRides)
                        (Some (List.length nearbyRides)) None
      end
  | _, _, _ =>
      RidesReply.mk 400 None None None
        (Some "driver_user_id, latitude, and longitude are required")
  end.

End NearbyRides.

(** A request as the handlers read it: the method and the path, the
    fields of the JSON body, and the query parameters. *)
Module Request.
Record t : Type := mk {
  method : string;
  pathname : string;
  ride_id : option string;
  status : option string;
  driver_id : option string;
  driver_user_id : option string;
  latitude : option Q;
  longitude : option Q
}.
End Request.

Section Serve.

Variable calculateDistance : Q -> Q -> Q -> Q -> Q.
Variable created_at : Ride.t -> Z.

(** The callback of [Deno.serve]: the status of the answer and the
    store that the request leaves. *)
Definition serve (db : Db) (f : Faults) (clock : nat -> Z) (req : Request.t)
  : Z * Db :=
  let path := Request.pathname req in
  if String.eqb (Request.method req) "OPTIONS" then (200%Z, db)
  else if includes path "/notify-drivers"
          && String.eqb (Request.method req) "POST" then
    let '(r, db1) :=
      handleNotifyDrivers calculateDistance db f clock (Request.ride_id req) in
    (http_status r, db1)
  else if includes path "/accept-ride"
          && String.eqb (Request.method req) "POST" then
    let '(r, db1) :=
      handleAcceptRide db f (Request.ride_id req) (Request.driver_id req) in
    (http_status r, db1)
  else if includes path "/update-ride-status"
          && String.eqb (Request.method req) "POST" then
    let '(r, db1) :=
      handleUpdateRideStatus db f (Request.ride_id req) (Request.status req)
                             (Request.driver_id req) in
    (http_status r, db1)
  else if includes path "/get-nearby-rides"
          && String.eqb (Request.method req) "GET" then
    (RidesReply.http_status
       (handleGetNearbyRides calculateDistance created_at db f
          (Request.driver_user_id req)
          (Request.latitude req) (Request.longitude req)),
     db)
  else (404%Z, db).

End Serve.

End DriverApi.

(* ================================================================== *)
(** ** The body of a request

    What a handler has after [await req.json()] and the destructuring
    of the body. Both sit inside the handler's [try]: with no body, a
    body that is not JSON, or the JSON value [null], something is
    thrown, and the [catch] of the handler answers 500 with its
    message. *)

Inductive Payload (A : Type) : Type :=
  | Unreadable (message : string)
  | Fields (fields : A).
Arguments Unreadable {A} message.
Arguments Fields {A} fields.

(* ================================================================== *)
(** ** supabase/functions/find-nearby-drivers/index.ts *)

Module FindNearbyDrivers.

(** The [drivers] table; the answer below has a field of the same name. *)
Definition driver_rows (db : Db) : list Driver.t := drivers db.

(** The request body; [None] is an absent field. *)
Record Body : Type := mkBody {
  pickup_latitude : option Q;
  pickup_longitude : option Q;
  vehicle_type : option string;
  radius_km : option Q
}.

(** One element of the [drivers] array of the answer. *)
Record NearbyDriver : Type := mkNearby {
  driver_id : string;
  user_id : string;
  vehicle : option Vehicle.t;
  location : LiveLocation.t;
  distance_km : Q;
  eta_minutes : Z
}.

Record Response : Type := mkResponse {
  http_status : Z;
  success : bool;
  drivers : option (list NearbyDriver);
  total_found : option nat;
  error_text : option string
}.

(** The [drivers] array of an answer, empty for an answer without one. *)
Definition listed (r : Response) : list NearbyDriver :=
  match drivers r with Some l => l | None => [] end.

(** A coordinate of the body is falsy when absent or zero. *)
Definition coordinate (c : option Q) : option Q :=
  match c with
  | Some q => if Qeq_bool q 0 then None else Some q
  | None => None
  end.

(** [Math.round(distance * 10) / 10] *)
Definition round1 (distance : Q) : Q :=
  inject_Z (Math_round (distance * 10)) / 10.

(** [driver.vehicles?.vehicle_type !== vehicle_type] *)
Definition vehicleMismatch (d : Driver.t) (vehicle_type : string) : bool :=
  match Driver.vehicles d with
  | Some v => negb (String.eqb (Vehicle.vehicle_type v) vehicle_type)
  | None => true
  end.

Section WithDistance.

Variable calculateDistance : Q -> Q -> Q -> Q -> Q.

(** Step 4: the first row of each user in the rows ordered by
    [updated_at] descending. *)
Definition latestLocations (liveLocations : list LiveLocation.t)
  : UserMap.t LiveLocation.t :=
  fold_left
    (fun m loc =>
       if negb (UserMap.has m (LiveLocation.user_id loc))
       then UserMap.set m (LiveLocation.user_id loc) loc
       else m)
    liveLocations [].

(** Step 5, one turn of the loop: the element pushed for [d], if any. *)
Definition candidate (now : Z) (latest : UserMap.t LiveLocation.t)
           (pickup_latitude pickup_longitude : Q) (vehicle_type : string)
           (radius_km : Q) (d : Driver.t) : option NearbyDriver :=
  match UserMap.get latest (Driver.user_id d) with
  | None => None
  | Some location =>
      let locationAge := (now - LiveLocation.updated_at location)%Z in
      if Z.ltb (15 * 60 * 1000) locationAge then None
      else if negb (String.eqb vehicle_type "any")
              && vehicleMismatch d vehicle_type then None
      else
        let distance :=
          calculateDistance pickup_latitude pickup_longitude
            (LiveLocation.latitude location)
            (LiveLocation.longitude location) in
        if Qle_bool distance radius_km then
          Some (mkNearby (Driver.id d) (Driver.user_id d)
                  (Driver.vehicles d) location
                  (round1 distance) (Math_round (distance * 3)))
        else None
  end.

Fixpoint collect (now : Z) (latest : UserMap.t LiveLocation.t)
         (pickup_latitude pickup_longitude : Q) (vehicle_type : string)
         (radius_km : Q) (onlineDrivers : list Driver.t)
  : list NearbyDriver :=
  match onlineDrivers with
  | [] => []
  | d :: rest =>
      match candidate now latest pickup_latitude pickup_longitude
                      vehicle_type radius_km d with
      | Some n =>
          n :: collect now latest pickup_latitude pickup_longitude
                       vehicle_type radius_km rest
      | None =>
          collect now latest pickup_latitude pickup_longitude
                  vehicle_type radius_km rest
      end
  end.

(** Step 6: [nearbyDrivers.sort((a, b) => a.distance_km - b.distance_km)] *)
Definition byDistance (l : list NearbyDriver) : list NearbyDriver :=
  sort (fun a b => Qle_bool (distance_km a) (distance_km b)) l.

Definition found (l : list NearbyDriver) : Response :=
  mkResponse 200 true (Some l) (Some (List.length l)) None.

(** [handleFindNearbyDrivers]. [now] is the reading of [new Date()]
    taken before the loop. *)
Definition handleFindNearbyDrivers (db : Db) (f : Faults) (now : Z)
           (body : Body) : Response :=
  let vehicle_type :=
    match vehicle_type body with Some v => v | None => "sedan" end in
  let radius_km :=
    match radius_km body with Some r => r | None => 10 end in
  match coordinate (pickup_latitude body),
        coordinate (pickup_longitude body) with
  | Some pickup_latitude, Some pickup_longitude =>
      let driversReply :=
        select f "drivers" (driver_rows db)
               (fun d => String.eqb (Driver.status d) "online"
                         && Driver.is_verified d) in
      match error driversReply, data driversReply with
      | Some e, _ =>
          mkResponse 500 false None None
                     (Some ("Failed to fetch drivers: " ++ e))
      | None, None => found []
      | None, Some [] => found []
      | None, Some onlineDrivers =>
          let driverUserIds := map Driver.user_id onlineDrivers in
          let locationsReply :=
            select f "live_locations" (live_locations db)
                   (fun l => existsb (String.eqb (LiveLocation.user_id l))
                                     driverUserIds) in
          match error locationsReply, data locationsReply with
          | Some e, _ =>
              mkResponse 500 false None None
                         (Some ("Failed to fetch driver locations: " ++ e))
          | None, None => found []
          | None, Some [] => found []
          | None, Some rows =>
              let liveLocations :=
                order_desc LiveLocation.updated_at rows in
              let latest := latestLocations liveLocations in
              found (byDistance
                       (collect now latest pickup_latitude pickup_longitude
                                vehicle_type radius_km onlineDrivers))
          end
      end
  | _, _ =>
      mkResponse 400 false None None
        (Some "pickup_latitude and pickup_longitude are required")
  end.

(** [handleFindNearbyDrivers] from the request on: the body is read
    first, and the [catch] answers what was thrown with 500 and
    [{ success: false, error: error.message }]. *)
Definition handleRequest (db : Db) (f : Faults) (now : Z)
           (payload : Payload Body) : Response :=
  match payload with
  | Unreadable message => mkResponse 500 false None None (Some message)
  | Fields body => handleFindNearbyDrivers db f now body
  end.

End WithDistance.
End FindNearbyDrivers.

(* ================================================================== *)
(** ** Two accept-ride requests in flight

    A request performs its store operations one at a time: first the
    conditional update of the ride, then the update of the driver. Each
    operation is atomic in the store, and the operations of different
    requests interleave in any order. *)

Module AcceptRace.
Import DriverApi.

(** Where a request stands: not yet at the store, holding the ride it
    has just been given, or answered. *)
Inductive Call : Type :=
  | Pending (ride_id driver_id : string)
  | Claimed (updatedRide : Ride.t) (driver_id : string)
  | Answered (r : Response).

(** The next store operation of a request, with the branches of
    [handleAcceptRide] around it. *)
Definition step (db : Db) (f : Faults) (c : Call) : Call * Db :=
  match c with
  | Pending rid did =>
      if nonEmpty rid && nonEmpty did then
        let '(reply, db1) := acceptRideUpdate db f rid did in
        match error reply with
        | Some e => (Answered (databaseError e), db1)
        | None =>
            match data reply with
            | None => (Answered conflict, db1)
            | Some updatedRide => (Claimed updatedRide did, db1)
            end
        end
      else
        (Answered
           (mkResponse 400 None None
              (Some "ride_id and driver_id are required") None None None),
         db)
  | Claimed updatedRide did =>
      (Answered (accepted updatedRide), markDriverBusy db f did)
  | Answered r => (Answered r, db)
  end.

Record System : Type := mkSystem {
  store : Db;
  first : Call;
  second : Call
}.

(** One operation of the first ([true]) or of the second request. *)
Definition advance (f : Faults) (s : System) (pick_first : bool) : System :=
  if pick_first then
    let '(c, db) := step (store s) f (first s) in mkSystem db c (second s)
  else
    let '(c, db) := step (store s) f (second s) in mkSystem db (first s) c.

Definition run (f : Faults) (schedule : list bool) (s : System) : System :=
  fold_left (advance f) schedule s.

(** The operations that a request still has to perform, at most. *)
Definition remaining (c : Call) : nat :=
  match c with Pending _ _ => 2 | Claimed _ _ => 1 | Answered _ => 0 end.

End AcceptRace.

(* ================================================================== *)
(** ** A notify-drivers request, one store operation at a time

    [handleNotifyDrivers] awaits the store several times: it reads the
    ride and tests its status, reads the drivers, reads their
    locations, inserts one notification per driver, and at the end may
    update the ride. Other requests can write between any two of these
    operations. [step] performs the next operation of a request on the
    store as it is at that moment; what the request has read before is
    kept in its state. *)

Module NotifyRun.
Import DriverApi.

Inductive Call : Type :=
  | Received (payload : Payload (option string))
  | Pending (ride_id : option string)
  | Searching (ride : Ride.t)
  | Locating (ride : Ride.t) (drivers : list Driver.t)
  | Notifying (ride : Ride.t) (found : nat) (rest : list NearbyDriver)
              (notificationsCreated : nat)
  | Closing (ride : Ride.t) (answer : Response)
  | Answered (r : Response).

Definition noDrivers : Response :=
  mkResponse 200 (Some true) (Some "No drivers available")
             None None None None.

Definition counted (found notificationsCreated : nat) : Response :=
  mkResponse 200 (Some true) None None
             (Some found) (Some notificationsCreated) None.

(** After the loop: [if (notificationsCreated === 0)] the ride is still
    to be updated. *)
Definition afterLoop (ride : Ride.t) (found notificationsCreated : nat)
  : Call :=
  if Nat.eqb notificationsCreated 0
  then Closing ride (counted found notificationsCreated)
  else Answered (counted found notificationsCreated).

Section WithDistance.

Variable calculateDistance : Q -> Q -> Q -> Q -> Q.

Definition step (db : Db) (f : Faults) (clock : nat -> Z) (c : Call)
  : Call * Db :=
  match c with
  | Received (Unreadable message) =>
      (Answered (mkResponse 500 None None (Some message) None None None), db)
  | Received (Fields ride_id) => (Pending ride_id, db)
  | Pending None | Pending (Some EmptyString) =>
      (Answered
         (mkResponse 400 None None (Some "ride_id is required")
                     None None None),
       db)
  | Pending (Some rid) =>
      let rideReply :=
        single (select f "rides" (rides db)
                       (fun r => String.eqb (Ride.id r) rid)) in
      match error rideReply, data rideReply with
      | None, Some ride =>
          if negb (String.eqb (Ride.status ride) "requested") then
            (Answered
               (mkResponse 200 (Some true)
                  (Some "Ride not in requested status") None None None None),
             db)
          else (Searching ride, db)
      | _, _ =>
          (Answered
             (mkResponse 404 None None (Some "Ride not found")
                         None None None),
           db)
      end
  | Searching ride =>
      let driversReply :=
        select f "drivers" (drivers db)
               (fun d => String.eqb (Driver.status d) "online"
                         && Driver.is_verified d) in
      match error driversReply, data driversReply with
      | Some _, _ => (Closing ride noDrivers, db)
      | None, None => (Closing ride noDrivers, db)
      | None, Some [] => (Closing ride noDrivers, db)
      | None, Some drivers => (Locating ride drivers, db)
      end
  | Locating ride drivers =>
      let driverUserIds := map Driver.user_id drivers in
      let locationsReply :=
        select f "live_locations" (live_locations db)
               (fun l => existsb (String.eqb (LiveLocation.user_id l))
                                 driverUserIds) in
      match error locationsReply with
      | Some _ => (Closing ride noDrivers, db)
      | None =>
          let locations :=
            match data locationsReply with
            | Some rows =>
                limit 100 (order_desc LiveLocation.updated_at rows)
            | None => []
            end in
          let latest := latestLocations locations in
          let nearbyDrivers :=
            map (fun d => mkNearby d (UserMap.get latest (Driver.user_id d)))
                (filterAt
                   (fun i => withinReach calculateDistance (clock i) latest
                               (Ride.pickup_latitude ride)
                               (Ride.pickup_longitude ride) 15)
                   0 drivers) in
          match nearbyDrivers with
          | [] => (Closing ride noDrivers, db)
          | _ =>
              (Notifying ride (List.length nearbyDrivers) nearbyDrivers 0, db)
          end
      end
  | Notifying ride found rest notificationsCreated =>
      match rest with
      | [] => (afterLoop ride found notificationsCreated, db)
      | nd :: rest' =>
          let '(notificationSent, db1) :=
            sendDriverNotification db f nd ride in
          let n :=
            if notificationSent then S notificationsCreated
            else notificationsCreated in
          match rest' with
          | [] => (afterLoop ride found n, db1)
          | _ => (Notifying ride found rest' n, db1)
          end
      end
  | Closing ride answer =>
      (Answered answer, markNoDriversAvailable db f (Ride.id ride))
  | Answered r => (Answered r, db)
  end.

(** [n] operations of a request that no other request interleaves
    with. *)
Fixpoint run (f : Faults) (clock : nat -> Z) (n : nat) (db : Db) (c : Call)
  : Call * Db :=
  match n with
  | O => (c, db)
  | S n' => let '(c', db') := step db f clock c in run f clock n' db' c'
  end.

End WithDistance.
End NotifyRun.

(* ================================================================== *)
(** ** contexts/AuthContext.tsx: the driver of the session *)

Module AuthContext.

(** The columns that [updateDriverStatus] writes, in the store and in
    the state of the context: the status, and [is_verified] when the
    driver goes online. *)
Definition statusUpdate (status : string) (d : Driver.t) : Driver.t :=
  Driver.mk (Driver.id d) (Driver.user_id d) status
    (if String.eqb status "online" then true else Driver.is_verified d)
    (Driver.vehicles d).

(** [updateDriverStatus]. [driver] is the driver that the context
    holds; the result is the driver it holds afterwards and the store,
    or the error of the store, thrown. *)
Definition updateDriverStatus (db : Db) (f : Faults)
           (driver : option Driver.t) (status : string)
  : Completion (option Driver.t * Db) :=
  match driver with
  | None => Normal (None, db)
  | Some d =>
      let isActualChange := negb (String.eqb (Driver.status d) status) in
      if isActualChange then
        let '(reply, rows) :=
          update_single f "drivers" (drivers db)
                        (fun x => String.eqb (Driver.id x) (Driver.id d))
                        (statusUpdate status) in
        match error reply with
        | Some e => Throw e
        | None => Normal (Some (statusUpdate status d), with_drivers db rows)
        end
      else Normal (Some (statusUpdate status d), db)
  end.

End AuthContext.

(* ================================================================== *)
(** ** contexts/RideContext.tsx: completing a ride *)

Module RideContext.

(** The trip metrics that [completeRide] passes on. *)
Definition actualDistanceKm : Q := 52 # 10.
Definition actualDurationMinutes : Q := 45.

(** The columns that [completeRide] writes on the ride. *)
Definition completed (total : value) (r : Ride.t) : Ride.t :=
  Ride.mk (Ride.id r) (Ride.driver_id r)
    (Ride.pickup_latitude r) (Ride.pickup_longitude r)
    (Ride.booking_type r) (Ride.vehicle_type r) "completed"
    (jsonNumber total) (Some actualDistanceKm) (Some actualDurationMinutes)
    (Ride.scheduled_time r) (Ride.selected_hours r).

Section CompleteRide.

Variable calculateDistance : Q -> Q -> Q -> Q -> Q.

(** The destination columns of a ride row, which [Ride.t] does not
    carry; [None] is null, on which [.toString()] throws. *)
Variable destination_latitude : Ride.t -> option Q.
Variable destination_longitude : Ride.t -> option Q.

(** [completeRide]. The result is the fare breakdown of the completion
    data for [{ success: true, completionData }] and [None] for
    [{ success: false }], with the store that the call leaves. *)
Definition completeRide (m : FareCalculationService.Scoping)
           (db : Db) (f : Faults) (startNow endNow : Z)
           (driver : option Driver.t) (rideId : string)
  : option FareBreakdown.t * Db :=
  match driver with
  | None => (None, db)
  | Some _ =>
      let rideReply :=
        single (select f "rides" (rides db)
                       (fun r => String.eqb (Ride.id r) rideId)) in
      match error rideReply, data rideReply with
      | None, Some ride =>
          match destination_latitude ride, destination_longitude ride with
          | Some dropLat, Some dropLng =>
              let '(fareResult, db1) :=
                FareCalculationService.calculateAndStoreTripFare
                  calculateDistance m db f startNow endNow rideId
                  actualDistanceKm actualDurationMinutes
                  (Ride.pickup_latitude ride) (Ride.pickup_longitude ride)
                  dropLat dropLng in
              if negb (FareCalculationService.success fareResult)
              then (None, db1)
              else
                match FareCalculationService.fareBreakdown fareResult with
                | None => (None, db1)
                | Some fareBreakdown =>
                    let '(reply, rows) :=
                      update_single f "rides" (rides db1)
                        (fun r => String.eqb (Ride.id r) rideId)
                        (completed (FareBreakdown.total_fare fareBreakdown)) in
                    let db2 := with_rides db1 rows in
                    match error reply with
                    | Some _ => (None, db2)
                    | None =>
                        match AuthContext.updateDriverStatus db2 f driver
                                "online" with
                        | Throw _ => (None, db2)
                        | Normal (_, db3) => (Some fareBreakdown, db3)
                        end
                    end
                end
          | _, _ => (None, db)
          end
      | _, _ => (None, db)
      end
  end.

(** [completeRide] against a store whose answers change while the call
    runs: [f] is the fault plan in force during
    [calculateAndStoreTripFare], [g] the one in force for the
    operations of [completeRide] itself. The two updates of the rides
    table, the one inside the fare service and the one that marks the
    ride, can so be answered differently. *)
Definition completeRideAcross (m : FareCalculationService.Scoping)
           (db : Db) (f g : Faults) (startNow endNow : Z)
           (driver : option Driver.t) (rideId : string)
  : option FareBreakdown.t * Db :=
  match driver with
  | None => (None, db)
  | Some _ =>
      let rideReply :=
        single (select g "rides" (rides db)
                       (fun r => String.eqb (Ride.id r) rideId)) in
      match error rideReply, data rideReply with
      | None, Some ride =>
          match destination_latitude ride, destination_longitude ride with
          | Some dropLat, Some dropLng =>
              let '(fareResult, db1) :=
                FareCalculationService.calculateAndStoreTripFare
                  calculateDistance m db f startNow endNow rideId
                  actualDistanceKm actualDurationMinutes
                  (Ride.pickup_latitude ride) (Ride.pickup_longitude ride)
                  dropLat dropLng in
              if negb (FareCalculationService.success fareResult)
              then (None, db1)
              else
                match FareCalculationService.fareBreakdown fareResult with
                | None => (None, db1)
                | Some fareBreakdown =>
                    let '(reply, rows) :=
                      update_single g "rides" (rides db1)
                        (fun r => String.eqb (Ride.id r) rideId)
                        (completed (FareBreakdown.total_fare fareBreakdown)) in
                    let db2 := with_rides db1 rows in
                    match error reply with
                    | Some _ => (None, db2)
                    | None =>
                        match AuthContext.updateDriverStatus db2 g driver
                                "online" with
                        | Throw _ => (None, db2)
                        | Normal (_, db3) => (Some fareBreakdown, db3)
                        end
                    end
                end
          | _, _ => (None, db)
          end
      | _, _ => (None, db)
      end
  end.

End CompleteRide.





End RideContext.

(* ================================================================== *)
(** ** supabase/migrations: the clean-up of expired requests *)

Module Migrations.

Section Cleanup.

(** The [created_at] column of a ride row, which [Ride.t] does not
    carry. *)
Variable created_at : Ride.t -> Z.


End Cleanup.

End Migrations.
(* ================================================================== *)
(** * Vocabulary of the properties *)

(** A computable distance for running the handlers on concrete inputs:
    111 km per degree along each axis, zero between equal points. Every
    general statement below is made for an arbitrary distance function. *)
Definition gridDistance (lat1 lon1 lat2 lon2 : Q) : Q :=
  111 * (Qabs (lat2 - lat1) + Qabs (lon2 - lon1)).

(** ** Concrete stores for running the handlers *)

Module Fixture.

(** The instant of the requests, in epoch milliseconds. *)
Definition now : Z := 1700000000000.

(** A clock that stands still at [now] while a request runs. *)
Definition clock (i : nat) : Z := now.

Definition minutes (n : Z) : Z := (n * 60 * 1000)%Z.

(** Hosur bus stand. *)
Definition pickup_lat : Q := 1274 # 100.
Definition pickup_lng : Q := 7782 # 100.

Definition ride (id status : string) (driver : option string)
           (booking vehicle : string) : Ride.t :=
  Ride.mk id driver pickup_lat pickup_lng booking vehicle status
          None None None None None.

Definition driver (id user vehicle : string) : Driver.t :=
  Driver.mk id user "online" true (Some (Vehicle.mk vehicle)).

(** A sample of [user] at the pickup point, [age] minutes old. *)
Definition sample_at_pickup (user : string) (age : Z) : LiveLocation.t :=
  LiveLocation.mk user pickup_lat pickup_lng (now - minutes age)%Z.

Definition store (rs : list Ride.t) (ds : list Driver.t)
           (ls : list LiveLocation.t) : Db :=
  mkDb rs ds ls [] [] [] [] [] [] [].

Definition search (vehicle : string) : FindNearbyDrivers.Body :=
  FindNearbyDrivers.mkBody (Some pickup_lat) (Some pickup_lng)
                           (Some vehicle) (Some 10).

(** One sedan driver whose only sample, taken at the pickup point, is
    forty minutes old. *)
Definition stale : Db :=
  store [ride "ride-1" "requested" None "regular" "sedan"]
        [driver "drv-a" "usr-a" "sedan"]
        [sample_at_pickup "usr-a" 40].

(** Two sedan drivers standing at the pickup point. *)
Definition tie : Db :=
  store [ride "ride-1" "requested" None "regular" "sedan"]
        [driver "drv-a" "usr-a" "sedan"; driver "drv-b" "usr-b" "sedan"]
        [sample_at_pickup "usr-a" 1; sample_at_pickup "usr-b" 2].

(** A requested sedan ride and a hatchback driver one minute ago at the
    pickup point. *)
Definition mismatch : Db :=
  store [ride "ride-1" "requested" None "regular" "sedan"]
        [driver "drv-h" "usr-h" "hatchback"]
        [sample_at_pickup "usr-h" 1].

(** A ride that driver [drv-a] has already accepted. *)
Definition claimed : Db :=
  store [ride "ride-1" "accepted" (Some "drv-a") "regular" "sedan"]
        [driver "drv-b" "usr-b" "sedan"]
        [sample_at_pickup "usr-b" 1].

(** A requested ride and two drivers who both want it. *)
Definition contested : Db :=
  store [ride "ride-1" "requested" None "regular" "sedan"]
        [driver "drv-a" "usr-a" "sedan"; driver "drv-b" "usr-b" "sedan"]
        [].


(** The regular fare of the specification's example: base fare 50,
    12 per km, surge multiplier 1, platform fee 10, no zones. *)
Definition regular_example : Db :=
  mkDb [ride "ride-1" "in_progress" (Some "drv-a") "regular" "sedan"]
       [] [] [] []
       [FareMatrix.mk "regular" "sedan" 50 12 0 1 10 true 0]
       [] [] [] [].

(** An outstation ride without a scheduled time, and a configuration
    of 300 km a day at 10 per km. *)
Definition outstation_example : Db :=
  mkDb [ride "ride-2" "in_progress" (Some "drv-a") "outstation" "sedan"]
       [] [] [] [] [] []
       [OutstationFare.mk "sedan" 500 10 300 300 true 0]
       [] [].

(** A store that refuses every insert into [trip_completions]. *)
Definition completions_refused : Faults :=
  mkFaults (fun _ => None)
           (fun table _ =>
              if String.eqb table "trip_completions"
              then Some "insert refused" else None)
           (fun _ => None).

(** An active inner ring of 5 km around the pickup point. *)
Definition inner_ring : Zone.t :=
  Zone.mk "Inner Ring" pickup_lat pickup_lng 5 true.

End Fixture.

(** Every sample of user [u] in the store is older than [threshold]
    milliseconds at [now]. *)
Definition samples_older_than (db : Db) (u : string) (now threshold : Z)
  : Prop :=
  forall loc, In loc (live_locations db) ->
              LiveLocation.user_id loc = u ->
              (threshold < now - LiveLocation.updated_at loc)%Z.

(** [latest] is the most recent location sample of user [u]. *)
Definition most_recent_sample (db : Db) (u : string) (latest : LiveLocation.t)
  : Prop :=
  In latest (live_locations db)
  /\ LiveLocation.user_id latest = u
  /\ forall loc, In loc (live_locations db) ->
                 LiveLocation.user_id loc = u ->
                 (LiveLocation.updated_at loc
                  <= LiveLocation.updated_at latest)%Z.

(** The age of a sample at [now], in milliseconds. *)
Definition age_at (now : Z) (loc : LiveLocation.t) : Z :=
  (now - LiveLocation.updated_at loc)%Z.

(** The pickup point that a search body carries. *)
Definition pickup_of (body : FindNearbyDrivers.Body) : option (Q * Q) :=
  match FindNearbyDrivers.coordinate (FindNearbyDrivers.pickup_latitude body),
        FindNearbyDrivers.coordinate (FindNearbyDrivers.pickup_longitude body)
  with
  | Some lat, Some lng => Some (lat, lng)
  | _, _ => None
  end.

(** [n.distance_km] is the distance from the pickup point of [body] to
    the location of [n], rounded to one decimal. *)
Definition rounded_distance (calculateDistance : Q -> Q -> Q -> Q -> Q)
           (body : FindNearbyDrivers.Body) (n : FindNearbyDrivers.NearbyDriver)
  : Prop :=
  match pickup_of body with
  | Some (lat, lng) =>
      FindNearbyDrivers.distance_km n =
      FindNearbyDrivers.round1
        (calculateDistance lat lng
           (LiveLocation.latitude (FindNearbyDrivers.location n))
           (LiveLocation.longitude (FindNearbyDrivers.location n)))
  | None => False
  end.

(** [n] drives a vehicle of type [vehicle_type]. *)
Definition drives (vehicle_type : string) (n : FindNearbyDrivers.NearbyDriver)
  : Prop :=
  exists v, FindNearbyDrivers.vehicle n = Some v
            /\ Vehicle.vehicle_type v = vehicle_type.

(** C4 as stated: a successful answer that carries both counts, equal
    to zero, and an unchanged store. *)
Definition noop_with_zero_counts (out : DriverApi.Response * Db) (db : Db)
  : Prop :=
  DriverApi.success (fst out) = Some true
  /\ DriverApi.drivers_found (fst out) = Some 0%nat
  /\ DriverApi.notifications_sent (fst out) = Some 0%nat
  /\ snd out = db.

(** The rides table after driver [d] has claimed ride [rid]. *)
Definition claimedBy (rid d : string) (rows : list Ride.t) : list Ride.t :=
  map (fun x => if DriverApi.claimable rid x then assign_driver d x else x)
      rows.

(** The outcome of a race for ride [r] between [winner] and another
    request: the winner is answered 200 with the ride assigned to it,
    the other request is answered 500 with the store's error text, and
    the rides table is the one the winner's update left. *)
Definition wonBy (rows0 : list Ride.t) (r : Ride.t) (winner : string)
           (db : Db) (cw cl : AcceptRace.Call) : Prop :=
  rides db = claimedBy (Ride.id r) winner rows0
  /\ cw = AcceptRace.Answered (DriverApi.accepted (assign_driver winner r))
  /\ cl = AcceptRace.Answered (DriverApi.databaseError noRows).

(** ** The order of ride statuses *)




(** From [db] to [db'] the rides table keeps its rows and their ids,
    and a row whose status changes does so as [allowed] says. *)
Definition changes_only (allowed : string -> string -> Prop) (db db' : Db)
  : Prop :=
  Forall2 (fun r r' => Ride.id r' = Ride.id r
                       /\ (Ride.status r' = Ride.status r
                           \/ allowed (Ride.status r) (Ride.status r')))
          (rides db) (rides db').


(** ** Further stores and fault plans *)

Module Fixture2.

(** A four-hour rental package of the specification's example: 1500
    for 80 km, 15 for each further km. *)
Definition rental_package : RentalFare.t :=
  RentalFare.mk "sedan" 4 "4 Hours / 80 km" 1500 80 15 true true.

Definition rental_example : Db :=
  mkDb [Fixture.ride "ride-3" "in_progress" (Some "drv-a") "rental" "sedan"]
       [] [] [] [] []
       [rental_package]
       [] [] [].

Definition airport_config : AirportFare.t :=
  AirportFare.mk "sedan" 1200 1400 true 0.

Definition airport_example : Db :=
  mkDb [Fixture.ride "ride-4" "in_progress" (Some "drv-a") "airport" "sedan"]
       [] [] [] [] [] [] []
       [airport_config]
       [].

(** Two active outstation rows for sedans, the later one dearer. *)
Definition outstation_old : OutstationFare.t :=
  OutstationFare.mk "sedan" 500 10 300 300 true 100.
Definition outstation_new : OutstationFare.t :=
  OutstationFare.mk "sedan" 600 12 350 250 true 200.

Definition outstation_two_rows : Db :=
  mkDb [Fixture.ride "ride-2" "in_progress" (Some "drv-a") "outstation" "sedan"]
       [] [] [] [] [] []
       [outstation_old; outstation_new]
       [] [].

(** A store whose rides table cannot be updated. *)
Definition rides_read_only : Faults :=
  mkFaults (fun _ => None) (fun _ _ => None)
           (fun table =>
              if String.eqb table "rides" then Some "update refused"
              else None).

(** A store that refuses the notification for user [usr-b] only. *)
Definition usr_b_unreachable : Faults :=
  mkFaults (fun _ => None)
           (fun table key =>
              if String.eqb table "notifications" && String.eqb key "usr-b"
              then Some "insert refused" else None)
           (fun _ => None).

(** A store that refuses every notification. *)
Definition nobody_reachable : Faults :=
  mkFaults (fun _ => None)
           (fun table _ =>
              if String.eqb table "notifications"
              then Some "insert refused" else None)
           (fun _ => None).

(** Three rides to be priced, and no fare configuration at all. *)
Definition unconfigured : Db :=
  mkDb [Fixture.ride "ride-2" "in_progress" (Some "drv-a") "outstation" "sedan";
        Fixture.ride "ride-3" "in_progress" (Some "drv-a") "rental" "sedan";
        Fixture.ride "ride-4" "in_progress" (Some "drv-a") "airport" "sedan"]
       [] [] [] [] [] [] [] [] [].

(** A hundred samples of [usr-a], one minute old, and one sample of
    [usr-b], five minutes old, all at the pickup point. *)
Definition crowded : Db :=
  Fixture.store
    [Fixture.ride "ride-1" "requested" None "regular" "sedan"]
    [Fixture.driver "drv-a" "usr-a" "sedan";
     Fixture.driver "drv-b" "usr-b" "sedan"]
    (Fixture.sample_at_pickup "usr-b" 5
     :: repeat (Fixture.sample_at_pickup "usr-a" 1) 100).

(** A store whose driver locations cannot be read. *)
Definition locations_unreadable : Faults :=
  mkFaults (fun table =>
              if String.eqb table "live_locations" then Some "read refused"
              else None)
           (fun _ _ => None) (fun _ => None).

(** The destination columns of the rides of the fixtures: every ride
    ends where it began. *)
Definition destination_latitude (r : Ride.t) : option Q :=
  Some (Ride.pickup_latitude r).
Definition destination_longitude (r : Ride.t) : option Q :=
  Some (Ride.pickup_longitude r).

(** A driver who has not been verified, offline, and a recent sample
    of that driver at the pickup point. *)
Definition newcomer : Driver.t :=
  Driver.mk "drv-n" "usr-n" "offline" false (Some (Vehicle.mk "sedan")).

Definition unverified : Db :=
  Fixture.store [Fixture.ride "ride-1" "requested" None "regular" "sedan"]
                [newcomer]
                [Fixture.sample_at_pickup "usr-n" 1].

(** A regular ride in progress, with the fare matrix of the
    specification's example. *)
Definition busy_driver : Driver.t :=
  Driver.mk "drv-a" "usr-a" "busy" true (Some (Vehicle.mk "sedan")).

(** An outstation ride in progress and its driver. *)
Definition outstation_trip : Db :=
  mkDb [Fixture.ride "ride-2" "in_progress" (Some "drv-a") "outstation"
                     "sedan"]
       [busy_driver] [] [] [] [] []
       [OutstationFare.mk "sedan" 500 10 300 300 true 0]
       [] [].

(** An outstation ride that is priced two days before its scheduled
    time. *)
Definition booked_ahead : Ride.t :=
  Ride.mk "ride-2" (Some "drv-a") Fixture.pickup_lat Fixture.pickup_lng
          "outstation" "sedan" "in_progress" None None None
          (Some (Fixture.now + 48 * 3600000)%Z) None.

(** The [created_at] column of the rides of the fixtures. *)
Definition created_at (r : Ride.t) : Z := 0.

End Fixture2.

(** ** Configuration rows that a fare query can select *)

(** [p] is an active rental package for the vehicle type and the number
    of hours. *)
Definition rental_match (vehicleType : string) (hours : Q) (p : RentalFare.t)
  : Prop :=
  RentalFare.vehicle_type p = vehicleType
  /\ RentalFare.duration_hours p == hours
  /\ RentalFare.is_active p = true.

(** [c] is an active outstation row for the vehicle type. *)
Definition outstation_match (vehicleType : string) (c : OutstationFare.t)
  : Prop :=
  OutstationFare.vehicle_type c = vehicleType
  /\ OutstationFare.is_active c = true.

(** [c] is an active airport row for the vehicle type. *)
Definition airport_match (vehicleType : string) (c : AirportFare.t) : Prop :=
  AirportFare.vehicle_type c = vehicleType
  /\ AirportFare.is_active c = true.

(** ** What a stored trip fare leaves in the store *)

(** The tables that storing a trip fare never writes are the same in
    [db] and [db']. *)
Definition same_configuration (db db' : Db) : Prop :=
  drivers db' = drivers db
  /\ live_locations db' = live_locations db
  /\ notifications db' = notifications db
  /\ zones db' = zones db
  /\ fare_matrix db' = fare_matrix db
  /\ rental_fares db' = rental_fares db
  /\ outstation_fares db' = outstation_fares db
  /\ airport_fares db' = airport_fares db.

(** The completion records of ride [rideId]. *)
Definition completions_of (db : Db) (rideId : string)
  : list TripCompletion.t :=
  filter (fun c => String.eqb (TripCompletion.ride_id c) rideId)
         (trip_completions db).

(** The ride row [r] with the fare, the distance and the duration of a
    completed trip written on it. *)
Definition with_fare (total : value) (km mins : Q) (r : Ride.t) : Ride.t :=
  Ride.mk (Ride.id r) (Ride.driver_id r)
    (Ride.pickup_latitude r) (Ride.pickup_longitude r)
    (Ride.booking_type r) (Ride.vehicle_type r) (Ride.status r)
    (jsonNumber total) (Some km) (Some mins)
    (Ride.scheduled_time r) (Ride.selected_hours r).


(** ** Dispatch *)

(** The notification row that [sendDriverNotification] writes for
    driver [nd] about [ride]. *)
Definition ride_request_for (ride : Ride.t) (nd : DriverApi.NearbyDriver)
  : Notification.t :=
  Notification.mk (Driver.user_id (DriverApi.driver nd))
                  "ride_request" "unread"
                  (Ride.id ride) (Ride.vehicle_type ride).

(** The store accepts a notification for driver [nd]. *)
Definition reachable (f : Faults) (nd : DriverApi.NearbyDriver) : bool :=
  match DriverApi.location nd with
  | None => false
  | Some _ =>
      match insert_error f "notifications"
                         (Driver.user_id (DriverApi.driver nd)) with
      | None => true
      | Some _ => false
      end
  end.

(** The rides table with every ride of id [rid] closed as
    'no_drivers_available'. *)
Definition closed_unserved (rid : string) (rows : list Ride.t)
  : list Ride.t :=
  map (fun r => if String.eqb (Ride.id r) rid
                then set_ride_status "no_drivers_available" r else r)
      rows.

(** Ride [ride] is the one row of id [rid], and it waits for a driver. *)
Definition awaits_dispatch (db : Db) (f : Faults) (rid : string)
           (ride : Ride.t) : Prop :=
  rid <> ""
  /\ single (select f "rides" (rides db)
                    (fun r => String.eqb (Ride.id r) rid)) = ok ride
  /\ Ride.status ride = "requested".

(** Driver [d] is online and verified. *)
Definition on_duty (d : Driver.t) : bool :=
  String.eqb (Driver.status d) "online" && Driver.is_verified d.

(** [l] is a sample of a driver who is online and verified. *)
Definition tracked (db : Db) (l : LiveLocation.t) : bool :=
  existsb (String.eqb (LiveLocation.user_id l))
          (map Driver.user_id (filter on_duty (drivers db))).

(** The sample of [d] is at most [threshold] milliseconds old at every
    reading of the clock. *)
Definition fresh_throughout (clock : nat -> Z) (threshold : Z)
           (loc : LiveLocation.t) : Prop :=
  forall i, (age_at (clock i) loc <= threshold)%Z.

(** [loc] lies within [radiusKm] of the point. *)
Definition within (calculateDistance : Q -> Q -> Q -> Q -> Q)
           (lat lng radiusKm : Q) (loc : LiveLocation.t) : Prop :=
  calculateDistance lat lng (LiveLocation.latitude loc)
                    (LiveLocation.longitude loc) <= radiusKm.

(** One step of the loop that fills [latestLocations] in the
    driver-api. *)
Definition keepNewer (m : UserMap.t LiveLocation.t) (loc : LiveLocation.t)
  : UserMap.t LiveLocation.t :=
  match UserMap.get m (LiveLocation.user_id loc) with
  | None => UserMap.set m (LiveLocation.user_id loc) loc
  | Some existingLocation =>
      if Z.ltb (LiveLocation.updated_at existingLocation)
               (LiveLocation.updated_at loc)
      then UserMap.set m (LiveLocation.user_id loc) loc
      else m
  end.

(** The samples of on-duty drivers that are newer than [t]. *)
Definition tracked_newer_than (db : Db) (t : Z) : list LiveLocation.t :=
  filter (fun l => tracked db l && Z.ltb t (LiveLocation.updated_at l))
         (live_locations db).

(** ** The life of a ride *)

(** [r] is the one ride of id [rid]. *)
Definition only_ride (db : Db) (rid : string) (r : Ride.t) : Prop :=
  filter (fun x => String.eqb (Ride.id x) rid) (rides db) = [r].

(** The drivers table with status [s] written on every driver of id
    [did]. *)
Definition driver_status_set (did s : string) (rows : list Driver.t)
  : list Driver.t :=
  map (fun d => if String.eqb (Driver.id d) did
                then set_driver_status s d else d)
      rows.

(** The status of an answer of get-nearby-rides. *)
Definition RidesReply_status (r : DriverApi.RidesReply.t) : Z :=
  DriverApi.RidesReply.http_status r.

(** The 200 answer of get-nearby-rides that lists [l]. *)
Definition nearby_rides_answer (l : list Ride.t) : DriverApi.RidesReply.t :=
  DriverApi.RidesReply.mk 200 (Some true) (Some l) (Some (List.length l))
                          None.

(** The rides that an answer of get-nearby-rides lists. *)
Definition offered (r : DriverApi.RidesReply.t) : list Ride.t :=
  match DriverApi.RidesReply.rides r with Some l => l | None => [] end.

(** Ride [r] waits for a driver within ten kilometres of the point. *)
Definition pending_near (calculateDistance : Q -> Q -> Q -> Q -> Q)
           (lat lng : Q) (db : Db) (r : Ride.t) : Prop :=
  In r (rides db)
  /\ Ride.status r = "requested"
  /\ Ride.booking_type r = "regular"
  /\ Ride.driver_id r = None
  /\ calculateDistance lat lng (Ride.pickup_latitude r)
                       (Ride.pickup_longitude r) <= 10.

(** ** The search endpoint *)

(** The vehicle type and the radius that a search body asks for, with
    the defaults of the handler. *)
Definition vehicle_of (body : FindNearbyDrivers.Body) : string :=
  match FindNearbyDrivers.vehicle_type body with
  | Some v => v
  | None => "sedan"
  end.

Definition radius_of (body : FindNearbyDrivers.Body) : Q :=
  match FindNearbyDrivers.radius_km body with
  | Some r => r
  | None => 10
  end.

(** Driver [d] has a vehicle of the type asked for, or any vehicle
    will do. *)
Definition vehicle_accepted (vehicle_type : string) (d : Driver.t) : Prop :=
  vehicle_type = "any"
  \/ exists v, Driver.vehicles d = Some v
               /\ Vehicle.vehicle_type v = vehicle_type.

(** The distance from the pickup point of [body] to [loc] is [dist]. *)
Definition distance_from (calculateDistance : Q -> Q -> Q -> Q -> Q)
           (body : FindNearbyDrivers.Body) (loc : LiveLocation.t) (dist : Q)
  : Prop :=
  exists lat lng,
    pickup_of body = Some (lat, lng)
    /\ dist = calculateDistance lat lng (LiveLocation.latitude loc)
                                (LiveLocation.longitude loc).

(** One step of the loop that fills [latestLocations] in the search
    endpoint. *)
Definition keepFirst (m : UserMap.t LiveLocation.t) (loc : LiveLocation.t)
  : UserMap.t LiveLocation.t :=
  if negb (UserMap.has m (LiveLocation.user_id loc))
  then UserMap.set m (LiveLocation.user_id loc) loc
  else m.

(** Element [n] of the answer describes driver [d]. *)
Definition describes (n : FindNearbyDrivers.NearbyDriver) (d : Driver.t)
  : Prop :=
  FindNearbyDrivers.driver_id n = Driver.id d
  /\ FindNearbyDrivers.user_id n = Driver.user_id d
  /\ FindNearbyDrivers.vehicle n = Driver.vehicles d.


(** ** The client *)

(** The store finds [ride] as the one ride of id [rideId]. *)
Definition found_ride (db : Db) (f : Faults) (rideId : string)
           (ride : Ride.t) : Prop :=
  single (select f "rides" (rides db)
                 (fun r => String.eqb (Ride.id r) rideId)) = ok ride.

(** The rides table with every ride of id [rideId] completed at fare
    [total]. *)
Definition completed_at (total : value) (rideId : string)
           (rows : list Ride.t) : list Ride.t :=
  map (fun r => if String.eqb (Ride.id r) rideId
                then RideContext.completed total r else r)
      rows.


(** ** C5 as stated *)

(** The hours that have passed since [start] when the clock reads
    [now]: a number below zero while [start] lies ahead. *)
Definition hoursSince (start now : Z) : Q :=
  inject_Z (now - start) / inject_Z 3600000.

(** The days of C5: max(1, ceil(hoursSince(scheduled_time or now) / 24)). *)
Definition days_as_stated (scheduled_time : option Z) (now : Z) : Z :=
  let start := match scheduled_time with Some t => t | None => now end in
  Z.max 1 (Qceiling (hoursSince start now / 24)).

(** ** Status writes, row by row *)


(* ================================================================== *)
(** * Properties *)


(** ** Sorting and table operators *)

Section SortFacts.
Context {A : Type}.
Variable leb : A -> A -> bool.

Lemma insert_In (a x : A) (l : list A) :
  In x (insert leb a l) <-> x = a \/ In x l.
Proof.
  induction l as [|y t IH]; simpl.
  - intuition.
  - destruct (leb a y); simpl; [intuition|].
    rewrite IH. intuition.
Qed.

Lemma sort_In (x : A) (l : list A) : In x (sort leb l) <-> In x l.
Proof.
  induction l as [|y t IH]; simpl; [tauto|].
  rewrite insert_In, IH. intuition.
Qed.

Hypothesis leb_total : forall a b, leb a b = true \/ leb b a = true.
Hypothesis leb_trans :
  forall a b c, leb a b = true -> leb b c = true -> leb a c = true.

Let ordered (a b : A) : Prop := leb a b = true.

Lemma insert_sorted (a : A) (l : list A) :
  StronglySorted ordered l -> StronglySorted ordered (insert leb a l).
Proof.
  induction 1 as [|y t Hs IH Hall]; simpl.
  - constructor; constructor.
  - destruct (leb a y) eqn:Hay.
    + constructor; [constructor; assumption|].
      constructor; [exact Hay|].
      rewrite Forall_forall in *. intros z Hz.
      apply leb_trans with y; [exact Hay | apply Hall, Hz].
    + constructor; [exact IH|].
      rewrite Forall_forall in *. intros z Hz.
      apply insert_In in Hz. destruct Hz as [->|Hz]; [|apply Hall, Hz].
      destruct (leb_total a y) as [H|H]; [congruence | exact H].
Qed.

Lemma sort_sorted (l : list A) : StronglySorted ordered (sort leb l).
Proof.
  induction l as [|x t IH]; simpl; [constructor | apply insert_sorted, IH].
Qed.

End SortFacts.

Lemma order_desc_In {A : Type} (key : A -> Z) (x : A) (rows : list A) :
  In x (order_desc key rows) <-> In x rows.
Proof. apply sort_In. Qed.

Lemma limit_In {A : Type} (n : nat) (x : A) (rows : list A) :
  In x (limit n rows) -> In x rows.
Proof.
  unfold limit. revert rows.
  induction n as [|n IH]; intros [|y t]; simpl; try tauto.
  intros [->|H]; [left; reflexivity | right; apply IH, H].
Qed.

Lemma select_rows {A : Type} (f : Faults) (table : string) (rows : list A)
      (p : A -> bool) (l : list A) (x : A) :
  data (select f table rows p) = Some l -> In x l -> In x rows /\ p x = true.
Proof.
  unfold select. destruct (select_error f table); simpl; [discriminate|].
  intros [= <-] H. apply filter_In in H. exact H.
Qed.

(** ** The user map *)

Lemma UserMap_get_set {V : Type} (m : UserMap.t V) (k k' : string) (v : V) :
  UserMap.get (UserMap.set m k v) k' =
  if String.eqb k' k then Some v else UserMap.get m k'.
Proof.
  induction m as [|[k0 v0] rest IH]; simpl.
  - reflexivity.
  - destruct (String.eqb k k0) eqn:E; simpl.
    + apply String.eqb_eq in E. subst k0.
      destruct (String.eqb k' k); reflexivity.
    + rewrite IH. destruct (String.eqb k' k0) eqn:E0; [|reflexivity].
      apply String.eqb_eq in E0. subst k0.
      destruct (String.eqb k' k) eqn:E1; [|reflexivity].
      apply String.eqb_eq in E1. subst k'.
      rewrite String.eqb_refl in E. discriminate.
Qed.

(** ** Recency of the location that dispatch uses *)

(** Every entry of the driver-api's [latestLocations] is one of the rows
    it was built from, filed under that row's user. *)
Lemma DriverApi_latest_from_rows (locations : list LiveLocation.t)
      (k : string) (v : LiveLocation.t) :
  UserMap.get (DriverApi.latestLocations locations) k = Some v ->
  In v locations /\ LiveLocation.user_id v = k.
Proof.
  unfold DriverApi.latestLocations.
  assert (G : forall (m : UserMap.t LiveLocation.t),
             (forall k v, UserMap.get m k = Some v ->
                          In v locations /\ LiveLocation.user_id v = k) ->
             forall rows, incl rows locations ->
             forall k v,
               UserMap.get
                 (fold_left
                    (fun m loc =>
                       match UserMap.get m (LiveLocation.user_id loc) with
                       | None => UserMap.set m (LiveLocation.user_id loc) loc
                       | Some existingLocation =>
                           if Z.ltb (LiveLocation.updated_at existingLocation)
                                    (LiveLocation.updated_at loc)
                           then UserMap.set m (LiveLocation.user_id loc) loc
                           else m
                       end) rows m) k = Some v ->
               In v locations /\ LiveLocation.user_id v = k).
  { intros m Hm rows. revert m Hm.
    induction rows as [|loc rest IH]; intros m Hm Hincl k0 v0; simpl.
    - apply Hm.
    - apply IH.
      + assert (Hset : forall k1 v1,
                  UserMap.get (UserMap.set m (LiveLocation.user_id loc) loc) k1
                  = Some v1 ->
                  In v1 locations /\ LiveLocation.user_id v1 = k1).
        { intros k1 v1. rewrite UserMap_get_set.
          destruct (String.eqb k1 (LiveLocation.user_id loc)) eqn:E.
          - intros [= <-]. apply String.eqb_eq in E.
            split; [apply Hincl; left; reflexivity | congruence].
          - apply Hm. }
        destruct (UserMap.get m (LiveLocation.user_id loc)) as [ex|];
          [destruct (Z.ltb _ _)|]; assumption.
      + intros x Hx. apply Hincl. right. exact Hx. }
  apply (G [] ).
  - intros k0 v0; simpl; discriminate.
  - apply incl_refl.
Qed.

(** The same for the map of find-nearby-drivers. *)
Lemma FindNearby_latest_from_rows (liveLocations : list LiveLocation.t)
      (k : string) (v : LiveLocation.t) :
  UserMap.get (FindNearbyDrivers.latestLocations liveLocations) k = Some v ->
  In v liveLocations /\ LiveLocation.user_id v = k.
Proof.
  unfold FindNearbyDrivers.latestLocations.
  assert (G : forall rows, incl rows liveLocations ->
             forall (m : UserMap.t LiveLocation.t),
             (forall k v, UserMap.get m k = Some v ->
                          In v liveLocations /\ LiveLocation.user_id v = k) ->
             forall k v,
               UserMap.get
                 (fold_left
                    (fun m loc =>
                       if negb (UserMap.has m (LiveLocation.user_id loc))
                       then UserMap.set m (LiveLocation.user_id loc) loc
                       else m) rows m) k = Some v ->
               In v liveLocations /\ LiveLocation.user_id v = k).
  { induction rows as [|loc rest IH]; intros Hincl m Hm k0 v0; simpl.
    - apply Hm.
    - apply IH.
      + intros x Hx. apply Hincl. right. exact Hx.
      + destruct (negb (UserMap.has m (LiveLocation.user_id loc)));
          [|exact Hm].
        intros k1 v1. rewrite UserMap_get_set.
        destruct (String.eqb k1 (LiveLocation.user_id loc)) eqn:E.
        * intros [= <-]. apply String.eqb_eq in E.
          split; [apply Hincl; left; reflexivity | congruence].
        * apply Hm. }
  apply (G liveLocations (incl_refl _) []).
  intros k0 v0; simpl; discriminate.
Qed.

Lemma filterAt_In {A : Type} (p : nat -> A -> bool) (x : A) (l : list A)
      (i : nat) :
  In x (filterAt p i l) -> exists j, In x l /\ p j x = true.
Proof.
  revert i. induction l as [|y t IH]; intros i; simpl; [contradiction|].
  destruct (p i y) eqn:E.
  - intros [<-|H].
    + exists i. split; [left; reflexivity | exact E].
    + destruct (IH _ H) as [j [Hj Hp]]. exists j. split; [right|]; assumption.
  - intros H. destruct (IH _ H) as [j [Hj Hp]].
    exists j. split; [right|]; assumption.
Qed.

Lemma DriverApi_stale_excluded
      (calculateDistance : Q -> Q -> Q -> Q -> Q)
      (db : Db) (f : Faults) (now : Z) (clock : nat -> Z)
      (pickupLat pickupLng : Q)
      (vehicleType : string) (radiusKm : Q) (u : string) :
  samples_older_than db u now (30 * 60 * 1000) ->
  (forall i, (now <= clock i)%Z) ->
  Forall (fun nd => Driver.user_id (DriverApi.driver nd) <> u)
         (DriverApi.findNearbyDrivers calculateDistance db f clock
            pickupLat pickupLng vehicleType radiusKm).
Proof.
  intros Hold Hclock. apply Forall_forall. intros nd Hin.
  unfold DriverApi.findNearbyDrivers in Hin.
  destruct (error (select f "drivers" (drivers db) _)); [contradiction|].
  destruct (data (select f "drivers" (drivers db) _)) as [[|d0 ds]|];
    try contradiction.
  set (ids := map Driver.user_id (d0 :: ds)) in *.
  destruct (error (select f "live_locations" (live_locations db) _));
    [contradiction|].
  apply in_map_iff in Hin. destruct Hin as [d [<- Hd]].
  apply filterAt_In in Hd. destruct Hd as [j [_ Hreach]]. simpl.
  unfold DriverApi.withinReach in Hreach.
  destruct (UserMap.get _ (Driver.user_id d)) as [loc|] eqn:Hget;
    [|discriminate].
  apply DriverApi_latest_from_rows in Hget. destruct Hget as [Hloc Hu].
  intros Heq.
  assert (Hstore : In loc (live_locations db)).
  { destruct (data (select f "live_locations" (live_locations db) _))
      as [rows|] eqn:Hrows; [|contradiction].
    apply limit_In, order_desc_In in Hloc.
    eapply select_rows in Hrows; [|exact Hloc]. tauto. }
  specialize (Hold loc Hstore (eq_trans Hu Heq)).
  specialize (Hclock j).
  assert (Hage : (30 * 60 * 1000 <? clock j - LiveLocation.updated_at loc)%Z
                 = true) by (apply Z.ltb_lt; lia).
  rewrite Hage in Hreach. discriminate.
Qed.

Lemma FindNearby_collect_from (calculateDistance : Q -> Q -> Q -> Q -> Q)
      (now : Z) (latest : UserMap.t LiveLocation.t) (plat plng : Q)
      (vt : string) (radius : Q) (ds : list Driver.t)
      (n : FindNearbyDrivers.NearbyDriver) :
  In n (FindNearbyDrivers.collect calculateDistance now latest plat plng vt
          radius ds) ->
  exists d, In d ds /\
            FindNearbyDrivers.candidate calculateDistance now latest plat plng
              vt radius d = Some n.
Proof.
  induction ds as [|d rest IH]; simpl; [contradiction|].
  destruct (FindNearbyDrivers.candidate _ _ _ _ _ _ _ d) as [n0|] eqn:E.
  - intros [<-|H].
    + exists d. split; [left; reflexivity | exact E].
    + destruct (IH H) as [d' [Hd' Hc]]. exists d'. split; [right|]; assumption.
  - intros H. destruct (IH H) as [d' [Hd' Hc]].
    exists d'. split; [right|]; assumption.
Qed.

Lemma FindNearby_listed_found (l : list FindNearbyDrivers.NearbyDriver) :
  FindNearbyDrivers.listed (FindNearbyDrivers.found l) = l.
Proof. reflexivity. Qed.

Lemma FindNearby_stale_excluded
      (calculateDistance : Q -> Q -> Q -> Q -> Q)
      (db : Db) (f : Faults) (queryTime now : Z)
      (body : FindNearbyDrivers.Body) (u : string) :
  samples_older_than db u queryTime (15 * 60 * 1000) ->
  (queryTime <= now)%Z ->
  Forall (fun n => FindNearbyDrivers.user_id n <> u)
         (FindNearbyDrivers.listed
            (FindNearbyDrivers.handleFindNearbyDrivers calculateDistance
               db f now body)).
Proof.
  intros Hold Hnow. apply Forall_forall. intros n Hin.
  unfold FindNearbyDrivers.handleFindNearbyDrivers in Hin.
  destruct (FindNearbyDrivers.coordinate _) as [plat|]; [|contradiction].
  destruct (FindNearbyDrivers.coordinate _) as [plng|]; [|contradiction].
  destruct (error (select f "drivers" _ _)); [contradiction|].
  destruct (data (select f "drivers" _ _)) as [[|d0 ds]|];
    try contradiction.
  set (ids := map Driver.user_id (d0 :: ds)) in *.
  destruct (error (select f "live_locations" (live_locations db) _));
    [contradiction|].
  destruct (data (select f "live_locations" (live_locations db) _))
    as [[|r0 rs]|] eqn:Hrows; try contradiction.
  rewrite FindNearby_listed_found in Hin.
  unfold FindNearbyDrivers.byDistance in Hin. apply sort_In in Hin.
  apply FindNearby_collect_from in Hin. destruct Hin as [d [_ Hc]].
  unfold FindNearbyDrivers.candidate in Hc.
  destruct (UserMap.get _ (Driver.user_id d)) as [loc|] eqn:Hget;
    [|discriminate].
  apply FindNearby_latest_from_rows in Hget. destruct Hget as [Hloc Hu].
  apply order_desc_In in Hloc.
  eapply select_rows in Hrows; [|exact Hloc]. destruct Hrows as [Hstore _].
  destruct (Z.ltb (15 * 60 * 1000) _) eqn:Hage; [discriminate|].
  destruct (_ && _); [discriminate|].
  destruct (Qle_bool _ _); [|discriminate].
  injection Hc as <-. simpl. intros Heq.
  specialize (Hold loc Hstore (eq_trans Hu Heq)).
  apply Z.ltb_ge in Hage. lia.
Qed.

(** When the most recent sample of a user is older than the threshold,
    all the samples of that user are. *)
Lemma samples_older_than_latest (db : Db) (u : string)
      (latest : LiveLocation.t) (now threshold : Z) :
  most_recent_sample db u latest ->
  (threshold < age_at now latest)%Z ->
  samples_older_than db u now threshold.
Proof.
  intros [_ [_ Hmax]] Hage loc Hin Hu.
  specialize (Hmax loc Hin Hu). unfold age_at in Hage. lia.
Qed.

(** C7. A driver whose most recent location sample is older than the
    recency threshold at the time of the query is in no result of the
    nearby-driver search, wherever the sample lies and whatever the
    radius: not in the list of [findNearbyDrivers] of the driver-api,
    whose threshold is 30 minutes, and not in the answer of
    [handleFindNearbyDrivers], whose threshold is 15 minutes. The
    clock readings that the searches take are at or after the time of
    the query. *)
Theorem stale_sample_never_listed
        (calculateDistance : Q -> Q -> Q -> Q -> Q)
        (db : Db) (f : Faults) (queryTime : Z) (u : string)
        (latest : LiveLocation.t)
        (clock : nat -> Z) (pickupLat pickupLng : Q) (vehicleType : string)
        (radiusKm : Q) (now : Z) (body : FindNearbyDrivers.Body) :
  most_recent_sample db u latest ->
  (30 * 60 * 1000 < age_at queryTime latest ->
   (forall i, (queryTime <= clock i)%Z) ->
   Forall (fun nd => Driver.user_id (DriverApi.driver nd) <> u)
          (DriverApi.findNearbyDrivers calculateDistance db f clock
             pickupLat pickupLng vehicleType radiusKm))%Z
  /\
  (15 * 60 * 1000 < age_at queryTime latest ->
   (queryTime <= now)%Z ->
   Forall (fun n => FindNearbyDrivers.user_id n <> u)
          (FindNearbyDrivers.listed
             (FindNearbyDrivers.handleFindNearbyDrivers calculateDistance
                db f now body)))%Z.
Proof.
  intros Hlatest. split; intros Hage.
  - apply DriverApi_stale_excluded.
    apply samples_older_than_latest with latest; assumption.
  - apply FindNearby_stale_excluded.
    apply samples_older_than_latest with latest; assumption.
Qed.

Lemma stale_sample_never_listed_witness :
  Forall (fun nd => Driver.user_id (DriverApi.driver nd) <> "usr-a")
         (DriverApi.findNearbyDrivers gridDistance Fixture.stale no_faults
            Fixture.clock Fixture.pickup_lat Fixture.pickup_lng "sedan" 15)
  /\
  Forall (fun n => FindNearbyDrivers.user_id n <> "usr-a")
         (FindNearbyDrivers.listed
            (FindNearbyDrivers.handleFindNearbyDrivers gridDistance
               Fixture.stale no_faults Fixture.now (Fixture.search "sedan"))).
Proof.
  assert (Hlatest : most_recent_sample Fixture.stale "usr-a"
                      (Fixture.sample_at_pickup "usr-a" 40)).
  { split; [left; reflexivity|]. split; [reflexivity|].
    intros loc [<-|[]] _. apply Z.le_refl. }
  pose proof (stale_sample_never_listed gridDistance Fixture.stale
                no_faults Fixture.now "usr-a"
                (Fixture.sample_at_pickup "usr-a" 40) Fixture.clock
                Fixture.pickup_lat Fixture.pickup_lng "sedan" 15
                Fixture.now (Fixture.search "sedan") Hlatest) as [H30 H15].
  split.
  - apply H30; [reflexivity | intros i; apply Z.le_refl].
  - apply H15; [reflexivity | apply Z.le_refl].
Defined.

(** ** Order of the search result *)

Lemma Qle_bool_total (a b : Q) : Qle_bool a b = true \/ Qle_bool b a = true.
Proof.
  rewrite !Qle_bool_iff.
  destruct (Qlt_le_dec a b) as [H|H]; [left; apply Qlt_le_weak, H | right; exact H].
Qed.

Lemma Qle_bool_trans (a b c : Q) :
  Qle_bool a b = true -> Qle_bool b c = true -> Qle_bool a c = true.
Proof. rewrite !Qle_bool_iff. apply Qle_trans. Qed.

Lemma byDistance_sorted (l : list FindNearbyDrivers.NearbyDriver) :
  StronglySorted Qle
    (map FindNearbyDrivers.distance_km (FindNearbyDrivers.byDistance l)).
Proof.
  unfold FindNearbyDrivers.byDistance.
  set (leb := fun a b : FindNearbyDrivers.NearbyDriver =>
                Qle_bool (FindNearbyDrivers.distance_km a)
                         (FindNearbyDrivers.distance_km b)).
  assert (S : StronglySorted (fun a b => leb a b = true) (sort leb l)).
  { apply sort_sorted.
    - intros a b. apply Qle_bool_total.
    - intros a b c. apply Qle_bool_trans. }
  induction S as [|x t Hs IH Hall]; simpl; constructor.
  - exact IH.
  - rewrite Forall_forall in *. intros q Hq.
    apply in_map_iff in Hq. destruct Hq as [y [<- Hy]].
    apply Qle_bool_iff. exact (Hall y Hy).
Qed.

Lemma listed_rounded (calculateDistance : Q -> Q -> Q -> Q -> Q)
      (db : Db) (f : Faults) (now : Z) (body : FindNearbyDrivers.Body) :
  Forall (rounded_distance calculateDistance body)
         (FindNearbyDrivers.listed
            (FindNearbyDrivers.handleFindNearbyDrivers calculateDistance
               db f now body)).
Proof.
  apply Forall_forall. intros n Hin.
  unfold rounded_distance, pickup_of.
  unfold FindNearbyDrivers.handleFindNearbyDrivers in Hin.
  destruct (FindNearbyDrivers.coordinate _) as [plat|]; [|contradiction].
  destruct (FindNearbyDrivers.coordinate _) as [plng|]; [|contradiction].
  destruct (error (select f "drivers" _ _)); [contradiction|].
  destruct (data (select f "drivers" _ _)) as [[|d0 ds]|];
    try contradiction.
  destruct (error (select f "live_locations" (live_locations db) _));
    [contradiction|].
  destruct (data (select f "live_locations" (live_locations db) _))
    as [[|r0 rs]|]; try contradiction.
  rewrite FindNearby_listed_found in Hin.
  unfold FindNearbyDrivers.byDistance in Hin. apply sort_In in Hin.
  apply FindNearby_collect_from in Hin. destruct Hin as [d [_ Hc]].
  unfold FindNearbyDrivers.candidate in Hc.
  destruct (UserMap.get _ (Driver.user_id d)) as [loc|]; [|discriminate].
  destruct (Z.ltb _ _); [discriminate|].
  destruct (_ && _); [discriminate|].
  destruct (Qle_bool _ _); [|discriminate].
  injection Hc as <-. reflexivity.
Qed.

Lemma listed_sorted (calculateDistance : Q -> Q -> Q -> Q -> Q)
      (db : Db) (f : Faults) (now : Z) (body : FindNearbyDrivers.Body) :
  StronglySorted Qle
    (map FindNearbyDrivers.distance_km
         (FindNearbyDrivers.listed
            (FindNearbyDrivers.handleFindNearbyDrivers calculateDistance
               db f now body))).
Proof.
  unfold FindNearbyDrivers.handleFindNearbyDrivers.
  destruct (FindNearbyDrivers.coordinate _); [|constructor].
  destruct (FindNearbyDrivers.coordinate _); [|constructor].
  destruct (error (select f "drivers" _ _)); [constructor|].
  destruct (data (select f "drivers" _ _)) as [[|d0 ds]|];
    try constructor.
  destruct (error (select f "live_locations" (live_locations db) _));
    [constructor|].
  destruct (data (select f "live_locations" (live_locations db) _))
    as [[|r0 rs]|]; try constructor.
  rewrite FindNearby_listed_found. apply byDistance_sorted.
Qed.

(** C8, as the code has it. For every input, the list that
    [handleFindNearbyDrivers] returns is sorted ascending by
    [distance_km], ties allowed: each element is at most as far as the
    ones after it, and each [distance_km] is the computed distance
    rounded to one decimal place. *)
Theorem nearby_sorted_by_rounded_distance
        (calculateDistance : Q -> Q -> Q -> Q -> Q)
        (db : Db) (f : Faults) (now : Z) (body : FindNearbyDrivers.Body) :
  StronglySorted Qle
    (map FindNearbyDrivers.distance_km
         (FindNearbyDrivers.listed
            (FindNearbyDrivers.handleFindNearbyDrivers calculateDistance
               db f now body)))
  /\
  Forall (rounded_distance calculateDistance body)
         (FindNearbyDrivers.listed
            (FindNearbyDrivers.handleFindNearbyDrivers calculateDistance
               db f now body)).
Proof.
  split; [apply listed_sorted | apply listed_rounded].
Qed.

(** C8 fails as stated: two drivers standing at the pickup point are
    both listed with [distance_km = 0], so the list is not strictly
    ascending. *)
Lemma nearby_not_strictly_sorted :
  ~ StronglySorted Qlt
      (map FindNearbyDrivers.distance_km
           (FindNearbyDrivers.listed
              (FindNearbyDrivers.handleFindNearbyDrivers gridDistance
                 Fixture.tie no_faults Fixture.now (Fixture.search "sedan")))).
Proof.
  intros S. vm_compute in S.
  inversion S as [|a l _ Hall]; subst.
  inversion Hall as [|b l' Hlt _]; subst.
  vm_compute in Hlt. discriminate.
Qed.

(** ** Dispatch: who is notified *)

(** The vehicle type that [findNearbyDrivers] of the driver-api receives
    has no influence on the drivers it returns. *)
Lemma findNearbyDrivers_ignores_vehicle_type
      (calculateDistance : Q -> Q -> Q -> Q -> Q)
      (db : Db) (f : Faults) (clock : nat -> Z)
      (pickupLat pickupLng radiusKm : Q) (v1 v2 : string) :
  DriverApi.findNearbyDrivers calculateDistance db f clock
    pickupLat pickupLng v1 radiusKm
  = DriverApi.findNearbyDrivers calculateDistance db f clock
      pickupLat pickupLng v2 radiusKm.
Proof. reflexivity. Qed.

(** The search endpoint does filter: unless the requested type is
    ['any'], every listed driver has a vehicle of the requested type. *)
Lemma handleFindNearbyDrivers_filters_vehicle_type
      (calculateDistance : Q -> Q -> Q -> Q -> Q)
      (db : Db) (f : Faults) (now : Z) (lat lng : option Q)
      (vehicle_type : string) (radius : option Q) :
  vehicle_type <> "any" ->
  Forall (drives vehicle_type)
         (FindNearbyDrivers.listed
            (FindNearbyDrivers.handleFindNearbyDrivers calculateDistance
               db f now
               (FindNearbyDrivers.mkBody lat lng (Some vehicle_type) radius))).
Proof.
  intros Hany. apply Forall_forall. intros n Hin.
  unfold FindNearbyDrivers.handleFindNearbyDrivers in Hin.
  cbn [FindNearbyDrivers.vehicle_type FindNearbyDrivers.radius_km
       FindNearbyDrivers.pickup_latitude FindNearbyDrivers.pickup_longitude]
    in Hin.
  destruct (FindNearbyDrivers.coordinate lat) as [plat|]; [|contradiction].
  destruct (FindNearbyDrivers.coordinate lng) as [plng|]; [|contradiction].
  destruct (error (select f "drivers" _ _)); [contradiction|].
  destruct (data (select f "drivers" _ _)) as [[|d0 ds]|];
    try contradiction.
  destruct (error (select f "live_locations" (live_locations db) _));
    [contradiction|].
  destruct (data (select f "live_locations" (live_locations db) _))
    as [[|r0 rs]|]; try contradiction.
  rewrite FindNearby_listed_found in Hin.
  unfold FindNearbyDrivers.byDistance in Hin. apply sort_In in Hin.
  apply FindNearby_collect_from in Hin. destruct Hin as [d [_ Hc]].
  unfold FindNearbyDrivers.candidate in Hc.
  destruct (UserMap.get _ (Driver.user_id d)) as [loc|]; [|discriminate].
  destruct (Z.ltb _ _); [discriminate|].
  destruct (String.eqb vehicle_type "any") eqn:Eany.
  { apply String.eqb_eq in Eany. contradiction. }
  unfold FindNearbyDrivers.vehicleMismatch in Hc.
  destruct (Driver.vehicles d) as [v|] eqn:Hv; simpl in Hc; [|discriminate].
  destruct (String.eqb (Vehicle.vehicle_type v) vehicle_type) eqn:Ev;
    simpl in Hc; [|discriminate].
  destruct (Qle_bool _ _); [|discriminate].
  injection Hc as <-. exists v. simpl.
  split; [reflexivity | apply String.eqb_eq, Ev].
Qed.

(** C3, on the code. A sedan ride is requested and the only driver in
    reach drives a hatchback: [handleNotifyDrivers] finds that driver
    and creates a notification record for them, because the
    [findNearbyDrivers] it calls never looks at the vehicle type. The
    search endpoint lists nobody for the same store and request. *)
Theorem notify_ignores_vehicle_type :
  Ride.vehicle_type
    (Fixture.ride "ride-1" "requested" None "regular" "sedan") = "sedan"
  /\ map Driver.vehicles (drivers Fixture.mismatch)
     = [Some (Vehicle.mk "hatchback")]
  /\ DriverApi.handleNotifyDrivers gridDistance Fixture.mismatch no_faults
       Fixture.clock (Some "ride-1")
     = (DriverApi.mkResponse 200 (Some true) None None (Some 1%nat)
          (Some 1%nat) None,
        with_notifications Fixture.mismatch
          [Notification.mk "usr-h" "ride_request" "unread" "ride-1" "sedan"])
  /\ FindNearbyDrivers.listed
       (FindNearbyDrivers.handleFindNearbyDrivers gridDistance
          Fixture.mismatch no_faults Fixture.now (Fixture.search "sedan"))
     = [].
Proof. repeat split; vm_compute; reflexivity. Qed.

(** ** Dispatch of a ride that is no longer requested *)

(** C4 fails as stated: for an accepted ride the answer is
    [{ success: true, message: 'Ride not in requested status' }], which
    has no [drivers_found] and no [notifications_sent]. *)
Lemma notify_accepted_ride_has_no_counts :
  ~ noop_with_zero_counts
      (DriverApi.handleNotifyDrivers gridDistance Fixture.claimed no_faults
         Fixture.clock (Some "ride-1"))
      Fixture.claimed.
Proof.
  intros [_ [H _]]. vm_compute in H. discriminate.
Qed.

(** C4, as the code has it. For a ride whose status is not 'requested',
    [handleNotifyDrivers] answers 200 with [success: true] and the
    message 'Ride not in requested status', without [drivers_found] or
    [notifications_sent], and leaves the whole store as it was: no
    notification record, no change to the ride row. *)
Theorem notify_skips_ride_not_requested
        (calculateDistance : Q -> Q -> Q -> Q -> Q)
        (db : Db) (f : Faults) (clock : nat -> Z) (rid : string)
        (r : Ride.t) :
  nonEmpty rid = true ->
  single (select f "rides" (rides db)
                 (fun x => String.eqb (Ride.id x) rid)) = ok r ->
  Ride.status r <> "requested" ->
  DriverApi.handleNotifyDrivers calculateDistance db f clock (Some rid)
  = (DriverApi.mkResponse 200 (Some true)
       (Some "Ride not in requested status") None None None None,
     db).
Proof.
  intros Hrid Hride Hstatus.
  unfold DriverApi.handleNotifyDrivers.
  destruct rid as [|c rid']; [discriminate|].
  rewrite Hride. simpl error. simpl data. cbv iota.
  destruct (String.eqb (Ride.status r) "requested") eqn:E.
  - apply String.eqb_eq in E. contradiction.
  - reflexivity.
Qed.

Lemma notify_skips_ride_not_requested_witness :
  DriverApi.handleNotifyDrivers gridDistance Fixture.claimed no_faults
    Fixture.clock (Some "ride-1")
  = (DriverApi.mkResponse 200 (Some true)
       (Some "Ride not in requested status") None None None None,
     Fixture.claimed).
Proof.
  apply (notify_skips_ride_not_requested gridDistance Fixture.claimed
           no_faults Fixture.clock "ride-1"
           (Fixture.ride "ride-1" "accepted" (Some "drv-a") "regular" "sedan")).
  - reflexivity.
  - reflexivity.
  - discriminate.
Defined.

(** ** Acceptance of a ride *)

Lemma with_rides_same (db : Db) : with_rides db (rides db) = db.
Proof. destruct db; reflexivity. Qed.

Lemma filter_andb {A : Type} (p q : A -> bool) (l : list A) :
  filter (fun x => p x && q x) l = filter q (filter p l).
Proof.
  induction l as [|a t IH]; simpl; [reflexivity|].
  destruct (p a); simpl; [destruct (q a); rewrite IH; reflexivity | exact IH].
Qed.

(** A requested, unassigned ride that is the only row with its id is
    the only row that the conditional update can touch. *)
Lemma claimable_only (rows : list Ride.t) (r : Ride.t) :
  filter (fun x => String.eqb (Ride.id x) (Ride.id r)) rows = [r] ->
  Ride.status r = "requested" ->
  Ride.driver_id r = None ->
  filter (DriverApi.claimable (Ride.id r)) rows = [r].
Proof.
  intros Hid Hst Hdr.
  rewrite (filter_ext (DriverApi.claimable (Ride.id r))
             (fun x => String.eqb (Ride.id x) (Ride.id r)
                       && (String.eqb (Ride.status x) "requested"
                           && match Ride.driver_id x with
                              | None => true | Some _ => false end))).
  - rewrite filter_andb, Hid. simpl. rewrite Hst, Hdr. reflexivity.
  - intros x. unfold DriverApi.claimable. symmetry. apply andb_assoc.
Qed.

(** Once a driver has been assigned, no row passes the filters of the
    conditional update any more. *)
Lemma nothing_claimable_after (rid d : string) (rows : list Ride.t) :
  filter (DriverApi.claimable rid) (claimedBy rid d rows) = [].
Proof.
  unfold claimedBy.
  induction rows as [|x t IH]; simpl; [reflexivity|].
  destruct (DriverApi.claimable rid x) eqn:E.
  - unfold DriverApi.claimable at 1. simpl.
    rewrite andb_false_r. simpl. exact IH.
  - rewrite E. exact IH.
Qed.

Lemma acceptRideUpdate_claims (db : Db) (f : Faults) (rid d : string)
      (r : Ride.t) :
  update_error f "rides" = None ->
  filter (DriverApi.claimable rid) (rides db) = [r] ->
  DriverApi.acceptRideUpdate db f rid d
  = (ok (assign_driver d r), with_rides db (claimedBy rid d (rides db))).
Proof.
  intros Hf Hrows. unfold DriverApi.acceptRideUpdate, update_single.
  rewrite Hf, Hrows. reflexivity.
Qed.

(** Zero rows match: the reply is the error of [.single()], and the
    store is left as it was. *)
Lemma acceptRideUpdate_no_rows (db : Db) (f : Faults) (rid d : string) :
  update_error f "rides" = None ->
  filter (DriverApi.claimable rid) (rides db) = [] ->
  DriverApi.acceptRideUpdate db f rid d = (failed noRows, db).
Proof.
  intros Hf Hrows. unfold DriverApi.acceptRideUpdate, update_single.
  rewrite Hf, Hrows. simpl. rewrite with_rides_same. reflexivity.
Qed.

(** [handleAcceptRide] is the two operations of [AcceptRace.step] run
    back to back. *)
Lemma handleAcceptRide_steps (db : Db) (f : Faults) (rid did : string) :
  let '(c1, db1) := AcceptRace.step db f (AcceptRace.Pending rid did) in
  AcceptRace.step db1 f c1
  = (AcceptRace.Answered
       (fst (DriverApi.handleAcceptRide db f (Some rid) (Some did))),
     snd (DriverApi.handleAcceptRide db f (Some rid) (Some did))).
Proof.
  unfold DriverApi.handleAcceptRide, AcceptRace.step.
  destruct (nonEmpty rid && nonEmpty did); [|reflexivity].
  destruct (DriverApi.acceptRideUpdate db f rid did) as [reply db1].
  destruct (error reply); [reflexivity|].
  destruct (data reply); reflexivity.
Qed.

(** A request that finds zero matching rows is answered 500 with the
    store's error text and changes nothing; the 409 branch of the
    handler is not the one taken. *)
Lemma handleAcceptRide_no_rows (db : Db) (f : Faults) (rid did : string) :
  nonEmpty rid = true -> nonEmpty did = true ->
  update_error f "rides" = None ->
  filter (DriverApi.claimable rid) (rides db) = [] ->
  DriverApi.handleAcceptRide db f (Some rid) (Some did)
  = (DriverApi.databaseError noRows, db).
Proof.
  intros Hr Hd Hf Hrows. unfold DriverApi.handleAcceptRide.
  rewrite Hr, Hd. simpl andb. cbv iota.
  rewrite (acceptRideUpdate_no_rows db f rid did Hf Hrows). reflexivity.
Qed.

Section Race.

Variable f : Faults.
Variable rows0 : list Ride.t.
Variable r : Ride.t.
Variables dA dB : string.

Hypothesis rides_writable : update_error f "rides" = None.
Hypothesis ride_unique :
  filter (fun x => String.eqb (Ride.id x) (Ride.id r)) rows0 = [r].
Hypothesis ride_requested : Ride.status r = "requested".
Hypothesis ride_unassigned : Ride.driver_id r = None.
Hypothesis ride_id_given : nonEmpty (Ride.id r) = true.
Hypothesis dA_given : nonEmpty dA = true.
Hypothesis dB_given : nonEmpty dB = true.

Let rid : string := Ride.id r.

(** The request of [d] holds the ride or has been answered 200. *)
Let winning (d : string) (c : AcceptRace.Call) : Prop :=
  c = AcceptRace.Claimed (assign_driver d r) d
  \/ c = AcceptRace.Answered (DriverApi.accepted (assign_driver d r)).

(** The request of [d] has not reached the store yet or has been
    answered 500. *)
Let losing (d : string) (c : AcceptRace.Call) : Prop :=
  c = AcceptRace.Pending rid d
  \/ c = AcceptRace.Answered (DriverApi.databaseError noRows).

(** The states that the two requests can reach. *)
Let reachable (s : AcceptRace.System) : Prop :=
  (rides (AcceptRace.store s) = rows0
   /\ AcceptRace.first s = AcceptRace.Pending rid dA
   /\ AcceptRace.second s = AcceptRace.Pending rid dB)
  \/ (rides (AcceptRace.store s) = claimedBy rid dA rows0
      /\ winning dA (AcceptRace.first s) /\ losing dB (AcceptRace.second s))
  \/ (rides (AcceptRace.store s) = claimedBy rid dB rows0
      /\ winning dB (AcceptRace.second s) /\ losing dA (AcceptRace.first s)).

Lemma step_pending_free (db : Db) (d : string) :
  nonEmpty d = true -> rides db = rows0 ->
  exists db', AcceptRace.step db f (AcceptRace.Pending rid d)
              = (AcceptRace.Claimed (assign_driver d r) d, db')
              /\ rides db' = claimedBy rid d rows0.
Proof.
  intros Hd Hrows. unfold AcceptRace.step. subst rid.
  rewrite ride_id_given, Hd. simpl andb. cbv iota.
  rewrite (acceptRideUpdate_claims db f (Ride.id r) d r rides_writable).
  - simpl. eexists. split; [reflexivity|]. simpl. rewrite Hrows. reflexivity.
  - rewrite Hrows. apply claimable_only; assumption.
Qed.

Lemma step_pending_taken (db : Db) (d d' : string) :
  nonEmpty d = true -> rides db = claimedBy rid d' rows0 ->
  AcceptRace.step db f (AcceptRace.Pending rid d)
  = (AcceptRace.Answered (DriverApi.databaseError noRows), db).
Proof.
  intros Hd Hrows. unfold AcceptRace.step. subst rid.
  rewrite ride_id_given, Hd. simpl andb. cbv iota.
  rewrite (acceptRideUpdate_no_rows db f (Ride.id r) d rides_writable).
  - reflexivity.
  - rewrite Hrows. apply nothing_claimable_after.
Qed.

Lemma step_winning (db : Db) (d : string) (c : AcceptRace.Call) :
  winning d c ->
  exists db', AcceptRace.step db f c
              = (AcceptRace.Answered
                   (DriverApi.accepted (assign_driver d r)), db')
              /\ rides db' = rides db.
Proof.
  intros [->| ->]; simpl; eexists; split; reflexivity.
Qed.

Lemma step_losing (db : Db) (d d' : string) (c : AcceptRace.Call) :
  nonEmpty d = true -> rides db = claimedBy rid d' rows0 -> losing d c ->
  AcceptRace.step db f c
  = (AcceptRace.Answered (DriverApi.databaseError noRows), db).
Proof.
  intros Hd Hrows [->| ->].
  - apply step_pending_taken with d'; assumption.
  - reflexivity.
Qed.

Lemma advance_reachable (s : AcceptRace.System) (b : bool) :
  reachable s -> reachable (AcceptRace.advance f s b).
Proof.
  destruct s as [db cA cB].
  intros [[Hr [HA HB]] | [[Hr [HA HB]] | [Hr [HB HA]]]];
    simpl in Hr, HA, HB; unfold AcceptRace.advance; simpl;
    destruct b.
  - subst cA. destruct (step_pending_free db dA dA_given Hr) as [db' [E Hr']].
    rewrite E. right; left. simpl.
    split; [exact Hr' | split; [left; reflexivity | left; exact HB]].
  - subst cB. destruct (step_pending_free db dB dB_given Hr) as [db' [E Hr']].
    rewrite E. right; right. simpl.
    split; [exact Hr' | split; [left; reflexivity | left; exact HA]].
  - destruct (step_winning db dA cA HA) as [db' [E Hr']]. rewrite E.
    right; left. simpl.
    split; [congruence | split; [right; reflexivity | exact HB]].
  - rewrite (step_losing db dB dA cB dB_given Hr HB).
    right; left. simpl.
    split; [exact Hr | split; [exact HA | right; reflexivity]].
  - rewrite (step_losing db dA dB cA dA_given Hr HA).
    right; right. simpl.
    split; [exact Hr | split; [exact HB | right; reflexivity]].
  - destruct (step_winning db dB cB HB) as [db' [E Hr']]. rewrite E.
    right; right. simpl.
    split; [congruence | split; [right; reflexivity | exact HA]].
Qed.

Lemma step_remaining (db : Db) (c : AcceptRace.Call) :
  (AcceptRace.remaining (fst (AcceptRace.step db f c))
   <= pred (AcceptRace.remaining c))%nat.
Proof.
  destruct c as [rd dd|u dd|resp]; simpl; try lia.
  destruct (nonEmpty rd && nonEmpty dd); simpl; [|lia].
  destruct (DriverApi.acceptRideUpdate db f rd dd) as [reply db1].
  destruct (error reply); simpl; [lia|].
  destruct (data reply); simpl; lia.
Qed.

Lemma run_reachable (schedule : list bool) (s : AcceptRace.System) :
  reachable s ->
  (AcceptRace.remaining (AcceptRace.first s)
   <= count_occ bool_dec schedule true)%nat ->
  (AcceptRace.remaining (AcceptRace.second s)
   <= count_occ bool_dec schedule false)%nat ->
  let s' := AcceptRace.run f schedule s in
  reachable s'
  /\ AcceptRace.remaining (AcceptRace.first s') = 0%nat
  /\ AcceptRace.remaining (AcceptRace.second s') = 0%nat.
Proof.
  revert s. induction schedule as [|b rest IH]; intros s Hs HA HB.
  - simpl in *. repeat split; [exact Hs | lia | lia].
  - simpl AcceptRace.run. apply IH.
    + apply advance_reachable, Hs.
    + destruct s as [db cA cB]. unfold AcceptRace.advance. simpl in *.
      destruct b.
      * pose proof (step_remaining db cA) as Hle.
        destruct (AcceptRace.step db f cA) as [c' db']. simpl in *.
        destruct (bool_dec true true); [lia | congruence].
      * destruct (AcceptRace.step db f cB) as [c' db']. simpl in *.
        destruct (bool_dec false true); [congruence | lia].
    + destruct s as [db cA cB]. unfold AcceptRace.advance. simpl in *.
      destruct b.
      * destruct (AcceptRace.step db f cA) as [c' db']. simpl in *.
        destruct (bool_dec true false); [congruence | lia].
      * pose proof (step_remaining db cB) as Hle.
        destruct (AcceptRace.step db f cB) as [c' db']. simpl in *.
        destruct (bool_dec false false); [lia | congruence].
Qed.

Lemma run_keeps_reachable (schedule : list bool) (s : AcceptRace.System) :
  reachable s -> reachable (AcceptRace.run f schedule s).
Proof.
  revert s. induction schedule as [|b rest IH]; intros s Hs; simpl.
  - exact Hs.
  - apply IH, advance_reachable, Hs.
Qed.

(** At every point of every interleaving the rides table is the
    initial one or the one that a single winner's update left: a ride
    once assigned is not assigned again. *)
Lemma race_rides_table (db0 : Db) (schedule : list bool) :
  rides db0 = rows0 ->
  let s' := AcceptRace.run f schedule
              (AcceptRace.mkSystem db0 (AcceptRace.Pending (Ride.id r) dA)
                                   (AcceptRace.Pending (Ride.id r) dB)) in
  rides (AcceptRace.store s') = rows0
  \/ rides (AcceptRace.store s') = claimedBy (Ride.id r) dA rows0
  \/ rides (AcceptRace.store s') = claimedBy (Ride.id r) dB rows0.
Proof.
  intros Hrows.
  destruct (run_keeps_reachable schedule
              (AcceptRace.mkSystem db0 (AcceptRace.Pending rid dA)
                                   (AcceptRace.Pending rid dB)))
    as [[H _] | [[H _] | [H _]]].
  - left. simpl. repeat split. exact Hrows.
  - left. exact H.
  - right; left. exact H.
  - right; right. exact H.
Qed.

Lemma race_outcome (db0 : Db) (schedule : list bool) :
  rides db0 = rows0 ->
  (2 <= count_occ bool_dec schedule true)%nat ->
  (2 <= count_occ bool_dec schedule false)%nat ->
  let s' := AcceptRace.run f schedule
              (AcceptRace.mkSystem db0 (AcceptRace.Pending (Ride.id r) dA)
                                   (AcceptRace.Pending (Ride.id r) dB)) in
  wonBy rows0 r dA (AcceptRace.store s') (AcceptRace.first s')
        (AcceptRace.second s')
  \/ wonBy rows0 r dB (AcceptRace.store s') (AcceptRace.second s')
           (AcceptRace.first s').
Proof.
  intros Hrows HA HB.
  destruct (run_reachable schedule
              (AcceptRace.mkSystem db0 (AcceptRace.Pending rid dA)
                                   (AcceptRace.Pending rid dB)))
    as [Hreach [H1 H2]].
  - left. simpl. repeat split. exact Hrows.
  - simpl. exact HA.
  - simpl. exact HB.
  - fold rid. simpl.
    set (s' := AcceptRace.run f schedule _) in *.
    destruct Hreach as [[_ [E _]] | [[Hr [HwA HlB]] | [Hr [HwB HlA]]]].
    + rewrite E in H1. discriminate.
    + left. unfold wonBy. fold rid. split; [exact Hr|].
      destruct HwA as [E|E]; [rewrite E in H1; discriminate|].
      destruct HlB as [E'|E']; [rewrite E' in H2; discriminate|].
      split; assumption.
    + right. unfold wonBy. fold rid. split; [exact Hr|].
      destruct HwB as [E|E]; [rewrite E in H2; discriminate|].
      destruct HlA as [E'|E']; [rewrite E' in H1; discriminate|].
      split; assumption.
Qed.

End Race.

(** The failing input of C2 run in sequence: the first request is
    answered 200, the second 500 with the store's error text, and the
    second changes nothing. *)
Example accept_twice :
  let '(first, db1) :=
    DriverApi.handleAcceptRide Fixture.contested no_faults
      (Some "ride-1") (Some "drv-a") in
  let '(second, db2) :=
    DriverApi.handleAcceptRide db1 no_faults (Some "ride-1") (Some "drv-b") in
  DriverApi.http_status first = 200%Z
  /\ second = DriverApi.databaseError noRows
  /\ DriverApi.http_status second = 500%Z
  /\ db2 = db1
  /\ map Ride.driver_id (rides db2) = [Some "drv-a"].
Proof. vm_compute. repeat split; reflexivity. Qed.

(** C2, on the code. Two accept-ride requests for the same requested,
    unassigned ride, their store operations interleaved in any order
    and each run to its answer: exactly one request is answered 200
    with the ride assigned to its driver, the rides table is the one
    that request's conditional update left, and the other request,
    whose conditional update matches zero rows, is answered 500
    'Database error: ...' (the reply of [.single()] for an empty result
    is an error), which is not the 409 Conflict answer. *)
Theorem accept_race_loser_gets_database_error
        (f : Faults) (db0 : Db) (r : Ride.t) (dA dB : string)
        (schedule : list bool) :
  update_error f "rides" = None ->
  filter (fun x => String.eqb (Ride.id x) (Ride.id r)) (rides db0) = [r] ->
  Ride.status r = "requested" ->
  Ride.driver_id r = None ->
  nonEmpty (Ride.id r) = true ->
  nonEmpty dA = true ->
  nonEmpty dB = true ->
  (2 <= count_occ bool_dec schedule true)%nat ->
  (2 <= count_occ bool_dec schedule false)%nat ->
  let s' := AcceptRace.run f schedule
              (AcceptRace.mkSystem db0 (AcceptRace.Pending (Ride.id r) dA)
                                   (AcceptRace.Pending (Ride.id r) dB)) in
  (wonBy (rides db0) r dA (AcceptRace.store s') (AcceptRace.first s')
         (AcceptRace.second s')
   \/ wonBy (rides db0) r dB (AcceptRace.store s') (AcceptRace.second s')
            (AcceptRace.first s'))
  /\ DriverApi.databaseError noRows <> DriverApi.conflict.
Proof.
  intros Hf Hu Hs Hd Hr HA HB H1 H2. split.
  - apply race_outcome; auto.
  - discriminate.
Qed.

Lemma accept_race_loser_gets_database_error_witness :
  let s' := AcceptRace.run no_faults [false; true; false; true]
              (AcceptRace.mkSystem Fixture.contested
                 (AcceptRace.Pending "ride-1" "drv-a")
                 (AcceptRace.Pending "ride-1" "drv-b")) in
  (wonBy (rides Fixture.contested)
         (Fixture.ride "ride-1" "requested" None "regular" "sedan") "drv-a"
         (AcceptRace.store s') (AcceptRace.first s') (AcceptRace.second s')
   \/ wonBy (rides Fixture.contested)
            (Fixture.ride "ride-1" "requested" None "regular" "sedan") "drv-b"
            (AcceptRace.store s') (AcceptRace.second s') (AcceptRace.first s'))
  /\ DriverApi.databaseError noRows <> DriverApi.conflict.
Proof.
  apply (accept_race_loser_gets_database_error no_faults Fixture.contested
           (Fixture.ride "ride-1" "requested" None "regular" "sedan")
           "drv-a" "drv-b" [false; true; false; true]);
    try reflexivity; simpl; lia.
Defined.

(** ** Status changes *)

Lemma single_select_inv {A : Type} (f : Faults) (table : string)
      (rows : list A) (p : A -> bool) (a : A) :
  error (single (select f table rows p)) = None ->
  data (single (select f table rows p)) = Some a ->
  filter p rows = [a].
Proof.
  unfold single, select.
  destruct (select_error f table); simpl; [discriminate|].
  destruct (filter p rows) as [|x [|y t]]; simpl; try discriminate.
  intros _ [= ->]. reflexivity.
Qed.

Section ChangesOnly.

Variable allowed : string -> string -> Prop.

Let related (r r' : Ride.t) : Prop :=
  Ride.id r' = Ride.id r
  /\ (Ride.status r' = Ride.status r
      \/ allowed (Ride.status r) (Ride.status r')).

Lemma rows_unchanged (rows : list Ride.t) : Forall2 related rows rows.
Proof.
  induction rows; constructor; [split; [reflexivity | left; reflexivity]|].
  assumption.
Qed.

Lemma rows_rewritten (p : Ride.t -> bool) (upd : Ride.t -> Ride.t)
      (rows : list Ride.t) :
  (forall x, In x rows -> p x = true -> related x (upd x)) ->
  Forall2 related rows (map (fun x => if p x then upd x else x) rows).
Proof.
  induction rows as [|x t IH]; intros H; simpl; constructor.
  - destruct (p x) eqn:E.
    + apply H; [left; reflexivity | exact E].
    + split; [reflexivity | left; reflexivity].
  - apply IH. intros y Hy. apply H. right. exact Hy.
Qed.

Lemma update_rows_related (f : Faults) (p : Ride.t -> bool)
      (upd : Ride.t -> Ride.t) (rows : list Ride.t) :
  (forall x, In x rows -> p x = true -> related x (upd x)) ->
  Forall2 related rows (update_rows f "rides" rows p upd).
Proof.
  intros H. unfold update_rows.
  destruct (update_error f "rides");
    [apply rows_unchanged | apply rows_rewritten, H].
Qed.

Lemma update_single_related (f : Faults) (p : Ride.t -> bool)
      (upd : Ride.t -> Ride.t) (rows : list Ride.t) :
  (forall x, In x rows -> p x = true -> related x (upd x)) ->
  Forall2 related rows (snd (update_single f "rides" rows p upd)).
Proof.
  intros H. unfold update_single.
  destruct (update_error f "rides"); [apply rows_unchanged|].
  destruct (error (single (ok (map upd (filter p rows)))));
    [apply rows_unchanged | apply rows_rewritten, H].
Qed.

End ChangesOnly.






Lemma trip_fare_keeps_status
      (calculateDistance : Q -> Q -> Q -> Q -> Q)
      (m : FareCalculationService.Scoping) (db : Db) (f : Faults)
      (startNow endNow : Z) (rideId : string)
      (km mins pickupLat pickupLng dropLat dropLng : Q) :
  changes_only (fun _ _ => False) db
    (snd (FareCalculationService.calculateAndStoreTripFare calculateDistance
            m db f startNow endNow rideId km mins
            pickupLat pickupLng dropLat dropLng)).
Proof.
  unfold changes_only, FareCalculationService.calculateAndStoreTripFare,
    FareCalculationService.tripFareTry.
  destruct (error (single _));
    [exact (rows_unchanged (fun _ _ => False) _)|].
  destruct (data (single _)) as [ride|];
    [|exact (rows_unchanged (fun _ _ => False) _)].
  destruct (error (select f "zones" _ _));
    [exact (rows_unchanged (fun _ _ => False) _)|].
  destruct (data (select f "zones" _ _)) as [zs|];
    [|exact (rows_unchanged (fun _ _ => False) _)].
  destruct (FareCalculationService.fareForBookingType _ _ _ _ _ _ _ _ _ _ _ _ _ _)
    as [[fb|msg]|]; try exact (rows_unchanged (fun _ _ => False) _).
  destruct (insert_error f "trip_completions" rideId);
    [exact (rows_unchanged (fun _ _ => False) _)|].
  unfold FareCalculationService.updateRideFare. simpl.
  destruct (update_error f "rides"); simpl;
    [exact (rows_unchanged (fun _ _ => False) _)|].
  apply (rows_rewritten (fun _ _ => False)).
  intros x _ _. split; [reflexivity | left; reflexivity].
Qed.


(** ** The regular fare *)

Lemma regularFareBody_block_scoped
      (calculateDistance : Q -> Q -> Q -> Q -> Q)
      (fareMatrix : FareMatrix.t) (vehicleType : string)
      (km mins dropLat dropLng : Q) (zones : list Zone.t) :
  FareCalculationService.run
    (FareCalculationService.regularFareBody calculateDistance
       FareCalculationService.BlockScoped fareMatrix vehicleType
       km mins dropLat dropLng zones)
  = Throw "Cannot access 'validBaseFare' before initialization".
Proof. reflexivity. Qed.

(** Read as the language defines it, [calculateRegularFare] returns no
    breakdown for any input: it throws, for want of a fare-matrix row
    or at the read of [validBaseFare]. *)
Lemma calculateRegularFare_block_scoped
      (calculateDistance : Q -> Q -> Q -> Q -> Q)
      (db : Db) (f : Faults) (vehicleType : string)
      (km mins pickupLat pickupLng dropLat dropLng : Q)
      (zones : list Zone.t) :
  exists msg,
    FareCalculationService.calculateRegularFare calculateDistance
      FareCalculationService.BlockScoped db f vehicleType km mins
      pickupLat pickupLng dropLat dropLng zones
    = Throw msg.
Proof.
  unfold FareCalculationService.calculateRegularFare.
  destruct (error _); [eexists; reflexivity|].
  destruct (data _) as [[|fm rest]|]; [eexists; reflexivity| |];
    [|eexists; reflexivity].
  rewrite regularFareBody_block_scoped. eexists; reflexivity.
Qed.

Lemma vadd_undefined (a : value) : vadd a Undefined = NaN.
Proof. destruct a; reflexivity. Qed.

(** With [const] compiled to [var], [calculateRegularFare] returns a
    breakdown, whose [total_fare] is [NaN] and whose [gst_on_charges]
    is 0 whatever the charges are. *)
Lemma calculateRegularFare_hoisted
      (calculateDistance : Q -> Q -> Q -> Q -> Q)
      (db : Db) (f : Faults) (vehicleType : string)
      (km mins pickupLat pickupLng dropLat dropLng : Q)
      (zones : list Zone.t) (fb : FareBreakdown.t) :
  FareCalculationService.calculateRegularFare calculateDistance
    FareCalculationService.VarHoisted db f vehicleType km mins
    pickupLat pickupLng dropLat dropLng zones
  = Normal fb ->
  FareBreakdown.total_fare fb = NaN
  /\ FareBreakdown.gst_on_charges fb = Num 0.
Proof.
  unfold FareCalculationService.calculateRegularFare.
  destruct (error _); [discriminate|].
  destruct (data _) as [[|fm rest]|]; try discriminate.
  intros [= <-]. split.
  - cbn [FareBreakdown.total_fare]. apply vadd_undefined.
  - reflexivity.
Qed.

(** C1, on the code. The specification's example (base fare 50, 12 per
    km, 10 km, surge 1, no deadhead, platform fee 10) does not yield a
    breakdown with total 139.9: [calculateRegularFare] reads
    [validBaseFare] (and later [gstOnPlatformFee]) above the [const]
    that declares it. As the language defines that read,
    [calculateAndStoreTripFare] answers [success: false] with the
    ReferenceError's message and stores nothing. With [const] compiled
    to [var], the breakdown has [gst_on_charges] 0 instead of 6.1 and
    [total_fare] NaN. *)
Theorem regular_fare_example_not_139_9
        (calculateDistance : Q -> Q -> Q -> Q -> Q) :
  FareCalculationService.calculateAndStoreTripFare calculateDistance
    FareCalculationService.BlockScoped Fixture.regular_example no_faults
    Fixture.now Fixture.now "ride-1" 10 20
    Fixture.pickup_lat Fixture.pickup_lng Fixture.pickup_lat Fixture.pickup_lng
  = (FareCalculationService.failure
       "Cannot access 'validBaseFare' before initialization",
     Fixture.regular_example)
  /\ exists fb,
       FareCalculationService.calculateRegularFare calculateDistance
         FareCalculationService.VarHoisted Fixture.regular_example no_faults
         "sedan" 10 20
         Fixture.pickup_lat Fixture.pickup_lng
         Fixture.pickup_lat Fixture.pickup_lng []
       = Normal fb
       /\ FareBreakdown.base_fare fb = Num 50
       /\ veq (FareBreakdown.distance_fare fb) (Num 72)
       /\ FareBreakdown.gst_on_charges fb = Num 0
       /\ veq (FareBreakdown.gst_on_platform_fee fb) (Num (18 # 10))
       /\ FareBreakdown.total_fare fb = NaN.
Proof.
  split.
  - reflexivity.
  - eexists. split; [reflexivity|]. repeat split.
Qed.

(** ** The outstation fare *)

Lemma Qle_bool_false (a b : Q) : b < a -> Qle_bool a b = false.
Proof.
  intros H. destruct (Qle_bool a b) eqn:E; [|reflexivity].
  apply Qle_bool_iff in E. exfalso. exact (Qlt_not_le _ _ H E).
Qed.

(** C5 fails as stated for a ride that is priced before its scheduled
    time. With the scheduled time 48 hours ahead, the hours since it
    are -48 and the days of the claim are max(1, ceil(-48 / 24)) = 1;
    the code takes the absolute value of the difference and counts 2
    days, so that the distance allowance and the driver allowance are
    those of two days. *)
Lemma outstation_days_for_ride_booked_ahead :
  exists fb,
    FareCalculationService.fareForBookingType gridDistance
      FareCalculationService.BlockScoped Fixture.outstation_example no_faults
      Fixture.now Fixture.now Fixture2.booked_ahead
      120 180 Fixture.pickup_lat Fixture.pickup_lng
      Fixture.pickup_lat Fixture.pickup_lng []
    = Some (Normal fb)
    /\ days_as_stated (Ride.scheduled_time Fixture2.booked_ahead) Fixture.now
       = 1%Z
    /\ Details.days_calculated (FareBreakdown.details fb) = Some 2%Z
    /\ Details.days_calculated (FareBreakdown.details fb)
       <> Some (days_as_stated (Ride.scheduled_time Fixture2.booked_ahead)
                               Fixture.now)
    /\ veq (FareBreakdown.driver_allowance fb) (Num 600)
    /\ veq (FareBreakdown.distance_fare fb) (Num 6000).
Proof.
  eexists. split; [reflexivity|].
  split; [vm_compute; reflexivity|].
  split; [vm_compute; reflexivity|].
  split; [vm_compute; discriminate|].
  split; vm_compute; reflexivity.
Qed.

(** C5, as amended. For a ride with booking type 'outstation' and an
    active configuration row, the fare engine returns a breakdown in
    which the number of days is max(1, ceil(h / 24)) for h the absolute
    number of hours between the scheduled time (or, without one, the
    clock reading taken in its place) and the end of the trip, whichever
    of the two is the later; the round trip is twice the
    measured distance; the distance charge is
    daily_km_limit * days * per_km_rate when the round trip is within
    daily_km_limit * days, and otherwise the whole round trip times
    per_km_rate; driver_allowance is days * driver_allowance_per_day;
    and total_fare is base_fare + distance charge + driver_allowance.
    With a limit of 300 km, one day and 120 km measured, the distance
    charge is 300 * per_km_rate. *)
Theorem outstation_fare_policy
        (calculateDistance : Q -> Q -> Q -> Q -> Q)
        (m : FareCalculationService.Scoping) (db : Db) (f : Faults)
        (startNow endNow : Z) (ride : Ride.t)
        (km mins pickupLat pickupLng dropLat dropLng : Q)
        (zones : list Zone.t)
        (cfg : OutstationFare.t) (rest : list OutstationFare.t) :
  Ride.booking_type ride = "outstation" ->
  FareCalculationService.outstation_fare_rows db f (Ride.vehicle_type ride)
  = mkReply (Some (cfg :: rest)) None ->
  let start :=
    match Ride.scheduled_time ride with Some t => t | None => startNow end in
  let hours := inject_Z (Z.abs (endNow - start)) / inject_Z 3600000 in
  let days := Z.max 1 (Qceiling (hours / 24)) in
  let limit := OutstationFare.daily_km_limit cfg in
  let rate := OutstationFare.per_km_rate cfg in
  exists fb,
    FareCalculationService.fareForBookingType calculateDistance m db f
      startNow endNow ride km mins pickupLat pickupLng dropLat dropLng zones
    = Some (Normal fb)
    /\ Details.days_calculated (FareBreakdown.details fb) = Some days
    /\ (2 * km <= limit * inject_Z days ->
        veq (FareBreakdown.distance_fare fb)
            (Num (limit * inject_Z days * rate)))
    /\ (limit * inject_Z days < 2 * km ->
        veq (FareBreakdown.distance_fare fb) (Num (2 * km * rate)))
    /\ veq (FareBreakdown.driver_allowance fb)
           (Num (inject_Z days * OutstationFare.driver_allowance_per_day cfg))
    /\ FareBreakdown.base_fare fb = Num (OutstationFare.base_fare cfg)
    /\ veq (FareBreakdown.total_fare fb)
           (vadd (vadd (FareBreakdown.base_fare fb)
                       (FareBreakdown.distance_fare fb))
                 (FareBreakdown.driver_allowance fb))
    /\ (limit == 300 -> days = 1%Z -> km == 120 ->
        veq (FareBreakdown.distance_fare fb) (Num (300 * rate))).
Proof.
  intros Hbt Hrows start hours days limit rate.
  unfold FareCalculationService.fareForBookingType.
  rewrite Hbt. simpl String.eqb. cbv iota.
  unfold FareCalculationService.calculateOutstationFare.
  rewrite Hrows. cbn [error data].
  fold start.
  change (FareCalculationService.numberOfDays start endNow) with days.
  fold limit. fold rate.
  eexists. split; [reflexivity|].
  cbn [FareBreakdown.details Details.days_calculated
       FareBreakdown.distance_fare FareBreakdown.driver_allowance
       FareBreakdown.base_fare FareBreakdown.total_fare vadd veq].
  split; [reflexivity|].
  split.
  { intros Hle.
    assert (E : Qle_bool (km * 2) (limit * inject_Z days) = true).
    { apply Qle_bool_iff. rewrite Qmult_comm. exact Hle. }
    rewrite E. reflexivity. }
  split.
  { intros Hlt.
    assert (E : Qle_bool (km * 2) (limit * inject_Z days) = false).
    { apply Qle_bool_false. rewrite (Qmult_comm km 2). exact Hlt. }
    rewrite E. ring. }
  split; [reflexivity|].
  split; [reflexivity|].
  split; [reflexivity|].
  intros Hl Hd Hk.
  assert (E : Qle_bool (km * 2) (limit * inject_Z days) = true).
  { apply Qle_bool_iff. rewrite Hd, Hl, Hk. discriminate. }
  rewrite E, Hd, Hl. ring.
Qed.

Lemma outstation_fare_policy_witness :
  exists fb,
    FareCalculationService.fareForBookingType gridDistance
      FareCalculationService.BlockScoped Fixture.outstation_example no_faults
      Fixture.now (Fixture.now + 5)%Z
      (Fixture.ride "ride-2" "in_progress" (Some "drv-a") "outstation" "sedan")
      120 180 Fixture.pickup_lat Fixture.pickup_lng
      Fixture.pickup_lat Fixture.pickup_lng []
    = Some (Normal fb)
    /\ Details.days_calculated (FareBreakdown.details fb) = Some 1%Z
    /\ veq (FareBreakdown.distance_fare fb) (Num 3000)
    /\ veq (FareBreakdown.total_fare fb) (Num 3800).
Proof.
  destruct (outstation_fare_policy gridDistance
              FareCalculationService.BlockScoped Fixture.outstation_example
              no_faults Fixture.now (Fixture.now + 5)%Z
              (Fixture.ride "ride-2" "in_progress" (Some "drv-a")
                 "outstation" "sedan")
              120 180 Fixture.pickup_lat Fixture.pickup_lng
              Fixture.pickup_lat Fixture.pickup_lng []
              (OutstationFare.mk "sedan" 500 10 300 300 true 0) []
              eq_refl eq_refl)
    as [fb [Hfb [Hdays [Hin [_ [_ [_ [_ Hex]]]]]]]].
  exists fb. split; [exact Hfb|]. split; [exact Hdays|].
  injection Hfb as <-. split; vm_compute; reflexivity.
Defined.

(** ** Deadhead charges *)

Lemma find_all_false {A : Type} (p : A -> bool) (l : list A) :
  (forall x, In x l -> p x = false) -> find p l = None.
Proof.
  induction l as [|a t IH]; intros H; simpl; [reflexivity|].
  rewrite (H a (or_introl eq_refl)). apply IH.
  intros x Hx. apply H. right. exact Hx.
Qed.

(** C6. Among the active zones handed to the calculation, let the inner
    zone be the first whose lower-cased name contains 'inner' or 'ring'.
    Without such a zone the deadhead charge is 0. With one, and d the
    distance from the drop point to its centre, the charge is 0 when
    d <= radius_km, the boundary included, and
    ((d - radius_km) / 2) * per_km_rate when d > radius_km. *)
Theorem deadhead_charges_policy
        (calculateDistance : Q -> Q -> Q -> Q -> Q)
        (dropLat dropLng rate : Q) (zones : list Zone.t) :
  ((forall z, In z zones -> FareCalculationService.denotes_inner z = false) ->
   FareCalculationService.deadheadCharges
     (FareCalculationService.calculateDeadheadCharges calculateDistance
        dropLat dropLng (Num rate) zones)
   = Num 0)
  /\
  (forall innerZone,
     find FareCalculationService.denotes_inner zones = Some innerZone ->
     let d := calculateDistance dropLat dropLng
                (Zone.center_latitude innerZone)
                (Zone.center_longitude innerZone) in
     (d <= Zone.radius_km innerZone ->
      FareCalculationService.deadheadCharges
        (FareCalculationService.calculateDeadheadCharges calculateDistance
           dropLat dropLng (Num rate) zones)
      = Num 0)
     /\
     (Zone.radius_km innerZone < d ->
      FareCalculationService.deadheadCharges
        (FareCalculationService.calculateDeadheadCharges calculateDistance
           dropLat dropLng (Num rate) zones)
      = Num ((d - Zone.radius_km innerZone) / 2 * rate))).
Proof.
  unfold FareCalculationService.calculateDeadheadCharges. split.
  - intros Hnone. rewrite (find_all_false _ _ Hnone). reflexivity.
  - intros innerZone Hfind. rewrite Hfind. split.
    + intros Hle. apply Qle_bool_iff in Hle. rewrite Hle. reflexivity.
    + intros Hlt. rewrite (Qle_bool_false _ _ Hlt). reflexivity.
Qed.

Lemma deadhead_charges_policy_witness :
  FareCalculationService.deadheadCharges
    (FareCalculationService.calculateDeadheadCharges gridDistance
       Fixture.pickup_lat Fixture.pickup_lng (Num 12) [])
  = Num 0
  /\ FareCalculationService.deadheadCharges
       (FareCalculationService.calculateDeadheadCharges gridDistance
          (Fixture.pickup_lat + (5 # 111)) Fixture.pickup_lng (Num 12)
          [Fixture.inner_ring])
     = Num 0
  /\ FareCalculationService.deadheadCharges
       (FareCalculationService.calculateDeadheadCharges gridDistance
          (Fixture.pickup_lat + (9 # 111)) Fixture.pickup_lng (Num 12)
          [Fixture.inner_ring])
     = Num ((gridDistance (Fixture.pickup_lat + (9 # 111)) Fixture.pickup_lng
               Fixture.pickup_lat Fixture.pickup_lng - 5) / 2 * 12).
Proof.
  split; [|split].
  - apply (proj1 (deadhead_charges_policy gridDistance Fixture.pickup_lat
                    Fixture.pickup_lng 12 [])).
    intros z [].
  - apply (proj1 (proj2 (deadhead_charges_policy gridDistance
                           (Fixture.pickup_lat + (5 # 111)) Fixture.pickup_lng
                           12 [Fixture.inner_ring])
                        Fixture.inner_ring eq_refl)).
    vm_compute. discriminate.
  - apply (proj2 (proj2 (deadhead_charges_policy gridDistance
                           (Fixture.pickup_lat + (9 # 111)) Fixture.pickup_lng
                           12 [Fixture.inner_ring])
                        Fixture.inner_ring eq_refl)).
    vm_compute. reflexivity.
Defined.

(** ** Storing the trip fare *)

(** C10. When the insert of the trip-completion record fails,
    [calculateAndStoreTripFare] returns an unsuccessful result without
    a breakdown (it returns: the result is a value of the function,
    nothing is thrown), and the store is exactly as it was, the ride
    row with its fare_amount, distance_km and duration_minutes
    included: the ride is written only after the insert has
    succeeded. *)
Theorem completion_insert_failure_leaves_ride
        (calculateDistance : Q -> Q -> Q -> Q -> Q)
        (m : FareCalculationService.Scoping) (db : Db) (f : Faults)
        (startNow endNow : Z) (rideId : string)
        (km mins pickupLat pickupLng dropLat dropLng : Q) (e : string) :
  insert_error f "trip_completions" rideId = Some e ->
  let out :=
    FareCalculationService.calculateAndStoreTripFare calculateDistance m
      db f startNow endNow rideId km mins
      pickupLat pickupLng dropLat dropLng in
  FareCalculationService.success (fst out) = false
  /\ FareCalculationService.fareBreakdown (fst out) = None
  /\ snd out = db.
Proof.
  intros Hins.
  unfold FareCalculationService.calculateAndStoreTripFare,
    FareCalculationService.tripFareTry.
  destruct (error (single _)); [repeat split|].
  destruct (data (single _)) as [ride|]; [|repeat split].
  destruct (error (select f "zones" _ _)); [repeat split|].
  destruct (data (select f "zones" _ _)) as [zs|]; [|repeat split].
  destruct (FareCalculationService.fareForBookingType _ _ _ _ _ _ _ _ _ _ _ _ _ _)
    as [[fb|msg]|]; rewrite ?Hins; repeat split.
Qed.

(** The insert is reached and refused for an outstation ride whose fare
    has been computed. *)
Lemma completion_insert_failure_leaves_ride_witness :
  let out :=
    FareCalculationService.calculateAndStoreTripFare gridDistance
      FareCalculationService.BlockScoped Fixture.outstation_example
      Fixture.completions_refused Fixture.now Fixture.now "ride-2" 120 180
      Fixture.pickup_lat Fixture.pickup_lng
      Fixture.pickup_lat Fixture.pickup_lng in
  FareCalculationService.success (fst out) = false
  /\ FareCalculationService.fareBreakdown (fst out) = None
  /\ snd out = Fixture.outstation_example.
Proof.
  apply (completion_insert_failure_leaves_ride gridDistance
           FareCalculationService.BlockScoped Fixture.outstation_example
           Fixture.completions_refused Fixture.now Fixture.now "ride-2"
           120 180 Fixture.pickup_lat Fixture.pickup_lng
           Fixture.pickup_lat Fixture.pickup_lng "insert refused").
  reflexivity.
Defined.

(** The same call against a store that refuses the insert and against
    one that accepts it: refused, the answer is 'Failed to store trip
    completion' and the ride keeps its empty fare; accepted, one
    completion record is stored and the fare is written on the ride. *)
Example trip_fare_stored_or_not :
  FareCalculationService.calculateAndStoreTripFare gridDistance
    FareCalculationService.BlockScoped Fixture.outstation_example
    Fixture.completions_refused Fixture.now Fixture.now "ride-2" 120 180
    Fixture.pickup_lat Fixture.pickup_lng Fixture.pickup_lat Fixture.pickup_lng
  = (FareCalculationService.failure "Failed to store trip completion",
     Fixture.outstation_example)
  /\ (let out :=
        FareCalculationService.calculateAndStoreTripFare gridDistance
          FareCalculationService.BlockScoped Fixture.outstation_example
          no_faults Fixture.now Fixture.now "ride-2" 120 180
          Fixture.pickup_lat Fixture.pickup_lng
          Fixture.pickup_lat Fixture.pickup_lng in
      FareCalculationService.success (fst out) = true
      /\ List.length (trip_completions (snd out)) = 1%nat
      /\ map Ride.fare_amount (rides (snd out))
         = [Some (500 + 300 * inject_Z 1 * 10 + inject_Z 1 * 300)]).
Proof. repeat split. Qed.

(* ================================================================== *)
(** * Further properties of the fare engine *)

Lemma select_ok_inv {A : Type} (f : Faults) (table : string)
      (rows : list A) (p : A -> bool) :
  error (select f table rows p) = None ->
  select_error f table = None
  /\ data (select f table rows p) = Some (filter p rows).
Proof.
  unfold select. destruct (select_error f table); simpl;
    [discriminate | intros _; split; reflexivity].
Qed.

Lemma select_readable {A : Type} (f : Faults) (table : string)
      (rows : list A) (p : A -> bool) :
  select_error f table = None ->
  select f table rows p = ok (filter p rows).
Proof. intros H. unfold select. rewrite H. reflexivity. Qed.

Lemma desc_total {A : Type} (key : A -> Z) (a b : A) :
  Z.leb (key b) (key a) = true \/ Z.leb (key a) (key b) = true.
Proof.
  destruct (Z.le_ge_cases (key b) (key a)); [left | right];
    apply Z.leb_le; lia.
Qed.

Lemma desc_trans {A : Type} (key : A -> Z) (a b c : A) :
  Z.leb (key b) (key a) = true -> Z.leb (key c) (key b) = true ->
  Z.leb (key c) (key a) = true.
Proof. rewrite !Z.leb_le. lia. Qed.

(** The first row of a table ordered by a column, descending, is a row
    of the table with the greatest value in that column. *)
Lemma order_desc_head {A : Type} (key : A -> Z) (rows : list A)
      (x : A) (rest : list A) :
  order_desc key rows = x :: rest ->
  In x rows /\ forall y, In y rows -> (key y <= key x)%Z.
Proof.
  intros E.
  assert (Hx : In x rows).
  { apply (order_desc_In key). rewrite E. left. reflexivity. }
  split; [exact Hx|]. intros y Hy.
  apply (order_desc_In key) in Hy. rewrite E in Hy.
  destruct Hy as [<-|Hy]; [apply Z.le_refl|].
  pose proof (sort_sorted (fun a b => Z.leb (key b) (key a))
                (desc_total key) (desc_trans key) rows) as S.
  unfold order_desc in E. rewrite E in S.
  inversion S as [|? ? _ Hall]; subst.
  rewrite Forall_forall in Hall. apply Z.leb_le, Hall, Hy.
Qed.

Lemma order_desc_nonempty {A : Type} (key : A -> Z) (rows : list A) :
  rows <> [] -> exists x rest, order_desc key rows = x :: rest.
Proof.
  intros H. destruct (order_desc key rows) as [|x rest] eqn:E.
  - destruct rows as [|r t]; [contradiction|].
    assert (Hin : In r (order_desc key (r :: t))).
    { apply order_desc_In. left. reflexivity. }
    rewrite E in Hin. contradiction.
  - exists x, rest. reflexivity.
Qed.

(** Among the rows that pass a filter, when there is one, the query
    ordered by a column descending starts with a passing row that has
    the greatest value in that column. *)
Lemma first_of_ordered {A : Type} (key : A -> Z) (p : A -> bool)
      (rows : list A) :
  (exists x, In x rows /\ p x = true) ->
  exists x rest,
    order_desc key (filter p rows) = x :: rest
    /\ In x rows /\ p x = true
    /\ forall y, In y rows -> p y = true -> (key y <= key x)%Z.
Proof.
  intros [x0 [Hin Hp]].
  destruct (order_desc_nonempty key (filter p rows)) as [x [rest E]].
  { intros Hnil.
    assert (H : In x0 (filter p rows)) by (apply filter_In; tauto).
    rewrite Hnil in H. contradiction. }
  exists x, rest. split; [exact E|].
  destruct (order_desc_head key _ _ _ E) as [Hx Hmax].
  apply filter_In in Hx. destruct Hx as [Hx Hpx].
  repeat split; try assumption.
  intros y Hy Hpy. apply Hmax. apply filter_In. tauto.
Qed.

(** ** The rental fare *)

Lemma rental_filter_match (vehicleType : string) (hours : Q)
      (p : RentalFare.t) :
  (String.eqb (RentalFare.vehicle_type p) vehicleType
   && Qeq_bool (RentalFare.duration_hours p) hours
   && RentalFare.is_active p) = true
  <-> rental_match vehicleType hours p.
Proof.
  unfold rental_match.
  rewrite !andb_true_iff, String.eqb_eq, Qeq_bool_iff. tauto.
Qed.

(** Package selection. When the rental table can be read and holds an
    active package for the vehicle type and the number of hours,
    [calculateRentalFare] returns a breakdown priced from such a
    package, and from a popular one whenever one of the matching
    packages is popular. *)
Theorem rental_package_selection
        (db : Db) (f : Faults) (vehicleType : string)
        (km mins hours : Q) :
  select_error f "rental_fares" = None ->
  (exists p, In p (rental_fares db) /\ rental_match vehicleType hours p) ->
  exists pkg fb,
    In pkg (rental_fares db)
    /\ rental_match vehicleType hours pkg
    /\ (forall p, In p (rental_fares db) ->
                  rental_match vehicleType hours p ->
                  RentalFare.is_popular p = true ->
                  RentalFare.is_popular pkg = true)
    /\ FareCalculationService.calculateRentalFare db f vehicleType km mins
         hours = Normal fb
    /\ FareBreakdown.base_fare fb = Num (RentalFare.base_fare pkg)
    /\ Details.package_name (FareBreakdown.details fb)
       = Some (RentalFare.package_name pkg)
    /\ Details.base_km_included (FareBreakdown.details fb)
       = Some (RentalFare.km_included pkg).
Proof.
  intros Hread [p0 [Hin0 Hm0]].
  destruct (first_of_ordered
              (fun p => if RentalFare.is_popular p then 1%Z else 0%Z)
              (fun p => String.eqb (RentalFare.vehicle_type p) vehicleType
                        && Qeq_bool (RentalFare.duration_hours p) hours
                        && RentalFare.is_active p)
              (rental_fares db))
    as [pkg [rest [E [Hin [Hp Hmax]]]]].
  { exists p0. split; [exact Hin0 | apply rental_filter_match, Hm0]. }
  exists pkg.
  unfold FareCalculationService.calculateRentalFare,
    FareCalculationService.rental_fare_rows.
  rewrite (select_readable f _ _ _ Hread). cbn [error data ok option_map].
  rewrite E. cbn [limit firstn].
  eexists. split; [exact Hin|].
  split; [apply rental_filter_match, Hp|].
  split.
  { intros p Hpin Hpm Hpop.
    specialize (Hmax p Hpin (proj2 (rental_filter_match _ _ _) Hpm)).
    cbv beta in Hmax. rewrite Hpop in Hmax.
    destruct (RentalFare.is_popular pkg); [reflexivity | lia]. }
  split; [reflexivity|]. repeat split.
Qed.

Lemma rental_package_selection_witness :
  exists pkg fb,
    In pkg (rental_fares Fixture2.rental_example)
    /\ FareCalculationService.calculateRentalFare Fixture2.rental_example
         no_faults "sedan" 95 240 4 = Normal fb
    /\ FareBreakdown.base_fare fb = Num (RentalFare.base_fare pkg).
Proof.
  destruct (rental_package_selection Fixture2.rental_example no_faults
              "sedan" 95 240 4 eq_refl)
    as [pkg [fb [Hin [_ [_ [Hfb [Hbase _]]]]]]].
  - exists Fixture2.rental_package. split; [left; reflexivity|].
    repeat split; reflexivity.
  - exists pkg, fb. repeat split; assumption.
Defined.

(** Rental pricing. For the package [pkg] that the query returns, with
    a per-km rate that is not negative: the extra-km charge is 0 up to
    the included distance and (km - km_included) * extra_km_rate
    beyond it, it is never negative, the total is the package's base
    fare plus that charge, and every other component is 0. *)
Theorem rental_fare_policy
        (db : Db) (f : Faults) (vehicleType : string) (km mins hours : Q)
        (pkg : RentalFare.t) (rest : list RentalFare.t) :
  FareCalculationService.rental_fare_rows db f vehicleType hours
  = mkReply (Some (pkg :: rest)) None ->
  0 <= RentalFare.extra_km_rate pkg ->
  exists fb extra,
    FareCalculationService.calculateRentalFare db f vehicleType km mins hours
    = Normal fb
    /\ FareBreakdown.extra_km_charges fb = Num extra
    /\ FareBreakdown.total_fare fb = Num (RentalFare.base_fare pkg + extra)
    /\ 0 <= extra
    /\ (km <= RentalFare.km_included pkg -> extra = 0)
    /\ (RentalFare.km_included pkg < km ->
        extra = (km - RentalFare.km_included pkg)
                * RentalFare.extra_km_rate pkg)
    /\ map (fun component => component fb)
           [FareBreakdown.distance_fare; FareBreakdown.time_fare;
            FareBreakdown.surge_charges; FareBreakdown.deadhead_charges;
            FareBreakdown.platform_fee; FareBreakdown.gst_on_charges;
            FareBreakdown.gst_on_platform_fee; FareBreakdown.driver_allowance]
       = repeat (Num 0) 8.
Proof.
  intros Hrows Hrate.
  unfold FareCalculationService.calculateRentalFare.
  rewrite Hrows. cbn [error data].
  eexists. eexists. split; [reflexivity|].
  cbn [FareBreakdown.extra_km_charges FareBreakdown.total_fare].
  split; [reflexivity|]. split; [reflexivity|].
  destruct (Qle_bool km (RentalFare.km_included pkg)) eqn:E; cbn [negb].
  - apply Qle_bool_iff in E.
    split; [apply Qle_refl|]. split; [reflexivity|].
    split; [|reflexivity].
    intros Hlt. exfalso. exact (Qlt_not_le _ _ Hlt E).
  - assert (Hlt : RentalFare.km_included pkg < km).
    { apply Qnot_le_lt. intros H. apply Qle_bool_iff in H. congruence. }
    split.
    { apply Qmult_le_0_compat; [|exact Hrate].
      apply Qlt_le_weak. unfold Qminus. rewrite <- Qlt_minus_iff. exact Hlt. }
    split.
    { intros Hle. exfalso. exact (Qlt_not_le _ _ Hlt Hle). }
    split; reflexivity.
Qed.

(** The example of the specification: 1500 for 80 km, 15 per further
    km, 95 km driven: 225 extra, 1725 in total. *)
Lemma rental_fare_policy_witness :
  exists fb,
    FareCalculationService.calculateRentalFare Fixture2.rental_example
      no_faults "sedan" 95 240 4 = Normal fb
    /\ veq (FareBreakdown.extra_km_charges fb) (Num 225)
    /\ veq (FareBreakdown.total_fare fb) (Num 1725).
Proof.
  destruct (rental_fare_policy Fixture2.rental_example no_faults "sedan"
              95 240 4 Fixture2.rental_package [] eq_refl)
    as [fb [extra [Hfb [Hextra [Htotal [_ [_ [Hbeyond _]]]]]]]].
  - discriminate.
  - exists fb. split; [exact Hfb|].
    rewrite Hextra, Htotal, Hbeyond by reflexivity.
    split; vm_compute; reflexivity.
Defined.


(** ** The airport fare *)

(** Airport pricing. For the row [cfg] that the query returns, the fare
    is flat: the row's Hosur-to-airport fare when the pickup point is
    strictly nearer to the city centre than the drop point, and its
    airport-to-Hosur fare otherwise, also when both are equally far.
    The base fare is the total and every other component is 0. *)
Theorem airport_fare_direction
        (calculateDistance : Q -> Q -> Q -> Q -> Q)
        (db : Db) (f : Faults) (vehicleType : string)
        (pickupLat pickupLng dropLat dropLng : Q)
        (cfg : AirportFare.t) (rest : list AirportFare.t) :
  FareCalculationService.airport_fare_rows db f vehicleType
  = mkReply (Some (cfg :: rest)) None ->
  let pickupToCenter :=
    calculateDistance pickupLat pickupLng
      FareCalculationService.cityCenter_lat
      FareCalculationService.cityCenter_lng in
  let dropToCenter :=
    calculateDistance dropLat dropLng
      FareCalculationService.cityCenter_lat
      FareCalculationService.cityCenter_lng in
  exists fb,
    FareCalculationService.calculateAirportFare calculateDistance db f
      vehicleType pickupLat pickupLng dropLat dropLng = Normal fb
    /\ (pickupToCenter < dropToCenter ->
        FareBreakdown.total_fare fb
        = Num (AirportFare.hosur_to_airport_fare cfg)
        /\ Details.direction (FareBreakdown.details fb)
           = Some "Hosur to Airport")
    /\ (dropToCenter <= pickupToCenter ->
        FareBreakdown.total_fare fb
        = Num (AirportFare.airport_to_hosur_fare cfg)
        /\ Details.direction (FareBreakdown.details fb)
           = Some "Airport to Hosur")
    /\ FareBreakdown.base_fare fb = FareBreakdown.total_fare fb
    /\ map (fun component => component fb)
           [FareBreakdown.distance_fare; FareBreakdown.time_fare;
            FareBreakdown.surge_charges; FareBreakdown.deadhead_charges;
            FareBreakdown.platform_fee; FareBreakdown.gst_on_charges;
            FareBreakdown.gst_on_platform_fee;
            FareBreakdown.extra_km_charges; FareBreakdown.driver_allowance]
       = repeat (Num 0) 9.
Proof.
  intros Hrows pickupToCenter dropToCenter.
  unfold FareCalculationService.calculateAirportFare.
  rewrite Hrows. cbn [error data].
  fold pickupToCenter. fold dropToCenter.
  eexists. split; [reflexivity|].
  cbn [FareBreakdown.total_fare FareBreakdown.details Details.direction
       FareBreakdown.base_fare].
  split.
  { intros Hlt. rewrite (Qle_bool_false _ _ Hlt). split; reflexivity. }
  split.
  { intros Hle. apply Qle_bool_iff in Hle. rewrite Hle. split; reflexivity. }
  split; reflexivity.
Qed.

Lemma airport_fare_direction_witness :
  exists fb,
    FareCalculationService.calculateAirportFare gridDistance
      Fixture2.airport_example no_faults "sedan"
      FareCalculationService.cityCenter_lat
      FareCalculationService.cityCenter_lng
      (13 # 1) (777 # 10)
    = Normal fb
    /\ FareBreakdown.total_fare fb = Num 1200
    /\ Details.direction (FareBreakdown.details fb) = Some "Hosur to Airport".
Proof.
  destruct (airport_fare_direction gridDistance Fixture2.airport_example
              no_faults "sedan"
              FareCalculationService.cityCenter_lat
              FareCalculationService.cityCenter_lng (13 # 1) (777 # 10)
              Fixture2.airport_config [] eq_refl)
    as [fb [Hfb [Hto _]]].
  exists fb. split; [exact Hfb|]. apply Hto. vm_compute. reflexivity.
Defined.


(** ** The outstation fare: which row, how many days, how much at least *)

Lemma outstation_filter_match (vehicleType : string) (c : OutstationFare.t) :
  (String.eqb (OutstationFare.vehicle_type c) vehicleType
   && OutstationFare.is_active c) = true
  <-> outstation_match vehicleType c.
Proof.
  unfold outstation_match. rewrite andb_true_iff, String.eqb_eq. tauto.
Qed.

(** The most recent configuration wins. When the outstation table can
    be read and holds an active row for the vehicle type,
    [calculateOutstationFare] returns a breakdown, priced from an
    active row for that vehicle type that no other such row is newer
    than. *)
Theorem outstation_latest_row_prices
        (db : Db) (f : Faults) (startNow endNow : Z) (vehicleType : string)
        (km mins : Q) (scheduledTime : option Z) :
  select_error f "outstation_fares" = None ->
  (exists c, In c (outstation_fares db) /\ outstation_match vehicleType c) ->
  exists cfg fb,
    In cfg (outstation_fares db)
    /\ outstation_match vehicleType cfg
    /\ (forall c, In c (outstation_fares db) ->
                  outstation_match vehicleType c ->
                  (OutstationFare.created_at c
                   <= OutstationFare.created_at cfg)%Z)
    /\ FareCalculationService.calculateOutstationFare db f startNow endNow
         vehicleType km mins scheduledTime = Normal fb
    /\ FareBreakdown.base_fare fb = Num (OutstationFare.base_fare cfg)
    /\ Details.per_km_rate (FareBreakdown.details fb)
       = Num (OutstationFare.per_km_rate cfg)
    /\ Details.daily_km_limit (FareBreakdown.details fb)
       = Some (OutstationFare.daily_km_limit cfg).
Proof.
  intros Hread [c0 [Hin0 Hm0]].
  destruct (first_of_ordered OutstationFare.created_at
              (fun c => String.eqb (OutstationFare.vehicle_type c) vehicleType
                        && OutstationFare.is_active c)
              (outstation_fares db))
    as [cfg [rest [E [Hin [Hp Hmax]]]]].
  { exists c0. split; [exact Hin0 | apply outstation_filter_match, Hm0]. }
  exists cfg.
  unfold FareCalculationService.calculateOutstationFare,
    FareCalculationService.outstation_fare_rows.
  rewrite (select_readable f _ _ _ Hread). cbn [error data ok option_map].
  rewrite E. cbn [limit firstn].
  eexists. split; [exact Hin|].
  split; [apply outstation_filter_match, Hp|].
  split.
  { intros c Hc Hm. apply Hmax; [exact Hc|].
    apply outstation_filter_match, Hm. }
  split; [reflexivity|]. repeat split.
Qed.

Lemma outstation_latest_row_prices_witness :
  exists cfg fb,
    In cfg (outstation_fares Fixture2.outstation_two_rows)
    /\ (OutstationFare.created_at Fixture2.outstation_old
        <= OutstationFare.created_at cfg)%Z
    /\ (OutstationFare.created_at Fixture2.outstation_new
        <= OutstationFare.created_at cfg)%Z
    /\ FareCalculationService.calculateOutstationFare
         Fixture2.outstation_two_rows no_faults Fixture.now Fixture.now
         "sedan" 120 180 None = Normal fb
    /\ FareBreakdown.base_fare fb = Num (OutstationFare.base_fare cfg).
Proof.
  destruct (outstation_latest_row_prices Fixture2.outstation_two_rows
              no_faults Fixture.now Fixture.now "sedan" 120 180 None eq_refl)
    as [cfg [fb [Hin [_ [Hmax [Hfb [Hbase _]]]]]]].
  - exists Fixture2.outstation_old. split; [left; reflexivity|].
    split; reflexivity.
  - exists cfg, fb. split; [exact Hin|].
    split; [apply Hmax; [left; reflexivity | split; reflexivity]|].
    split; [apply Hmax; [right; left; reflexivity | split; reflexivity]|].
    split; assumption.
Defined.

(** [Math.ceil(x)] is the integer [k] with [k - 1 < x <= k]. *)
Lemma Math_ceil_bracket (x : Q) (k : Z) :
  inject_Z (k - 1) < x -> x <= inject_Z k -> Math_ceil x = k.
Proof.
  intros Hlo Hhi. unfold Math_ceil.
  apply Z.le_antisymm.
  - rewrite <- (Qceiling_Z k). apply Qceiling_resp_le. exact Hhi.
  - pose proof (Qle_ceiling x) as Hc.
    assert (H : inject_Z (k - 1) < inject_Z (Qceiling x)).
    { apply Qlt_le_trans with x; assumption. }
    rewrite <- Zlt_Qlt in H. lia.
Qed.

Lemma durationHours_days (startTime endTime : Z) :
  FareCalculationService.durationHours startTime endTime / 24
  == inject_Z (Z.abs (endTime - startTime)) / inject_Z 86400000.
Proof.
  unfold FareCalculationService.durationHours.
  change (inject_Z (1000 * 60 * 60)) with (inject_Z 3600000).
  unfold Qdiv, Qeq, Qmult, Qinv, inject_Z. simpl. lia.
Qed.

(** Counting days. The number of days of an outstation trip is 1 for a
    trip of no more than 24 hours (86 400 000 ms) and otherwise the
    number of started 24-hour periods: [k] when the time between start
    and end is more than [k - 1] and at most [k] periods. Only the size
    of the difference counts, so a start that lies after the end (a
    scheduled time still in the future) gives the same number. *)
Theorem outstation_days_count (startTime endTime k : Z) :
  (1 <= k)%Z ->
  ((k - 1) * 86400000 < Z.abs (endTime - startTime) <= k * 86400000
   \/ (k = 1 /\ startTime = endTime))%Z ->
  FareCalculationService.numberOfDays startTime endTime = k
  /\ FareCalculationService.numberOfDays endTime startTime = k.
Proof.
  intros Hk Hrange.
  assert (G : forall s e,
             ((k - 1) * 86400000 < Z.abs (e - s) <= k * 86400000
              \/ (k = 1 /\ s = e))%Z ->
             FareCalculationService.numberOfDays s e = k).
  { intros s e [[Hlo Hhi] | [-> ->]].
    - unfold FareCalculationService.numberOfDays.
      rewrite (Math_ceil_bracket _ k); [lia | |].
      + rewrite durationHours_days.
        unfold Qlt, Qdiv, Qmult, Qinv, inject_Z. simpl. lia.
      + rewrite durationHours_days.
        unfold Qle, Qdiv, Qmult, Qinv, inject_Z. simpl. lia.
    - unfold FareCalculationService.numberOfDays,
        FareCalculationService.durationHours.
      rewrite Z.sub_diag. reflexivity. }
  split; apply G.
  - exact Hrange.
  - destruct Hrange as [H | [-> ->]]; [left | right; split; reflexivity].
    replace (startTime - endTime)%Z with (- (endTime - startTime))%Z by lia.
    rewrite Z.abs_opp. exact H.
Qed.

Lemma outstation_days_count_witness :
  FareCalculationService.numberOfDays Fixture.now
    (Fixture.now + 86400001)%Z = 2%Z
  /\ FareCalculationService.numberOfDays (Fixture.now + 86400001)%Z
       Fixture.now = 2%Z.
Proof.
  apply (outstation_days_count Fixture.now (Fixture.now + 86400001)%Z 2).
  - lia.
  - left. unfold Fixture.now. lia.
Defined.

(** A minimum charge. For the row that the query returns, with a
    per-km rate that is not negative: the distance charge of an
    outstation trip is never below the charge for the whole allowance
    (daily_km_limit * days * per_km_rate), and of two trips over the
    same days the longer one has at least the distance charge and the
    total of the shorter one. *)
Theorem outstation_charge_floor
        (db : Db) (f : Faults) (startNow endNow : Z) (vehicleType : string)
        (mins : Q) (scheduledTime : option Z)
        (cfg : OutstationFare.t) (rest : list OutstationFare.t)
        (km1 km2 : Q) :
  FareCalculationService.outstation_fare_rows db f vehicleType
  = mkReply (Some (cfg :: rest)) None ->
  0 <= OutstationFare.per_km_rate cfg ->
  km1 <= km2 ->
  exists fb1 fb2 c1 c2 t1 t2 days,
    FareCalculationService.calculateOutstationFare db f startNow endNow
      vehicleType km1 mins scheduledTime = Normal fb1
    /\ FareCalculationService.calculateOutstationFare db f startNow endNow
         vehicleType km2 mins scheduledTime = Normal fb2
    /\ Details.days_calculated (FareBreakdown.details fb1) = Some days
    /\ FareBreakdown.distance_fare fb1 = Num c1
    /\ FareBreakdown.distance_fare fb2 = Num c2
    /\ FareBreakdown.total_fare fb1 = Num t1
    /\ FareBreakdown.total_fare fb2 = Num t2
    /\ OutstationFare.daily_km_limit cfg * inject_Z days
       * OutstationFare.per_km_rate cfg <= c1
    /\ c1 <= c2
    /\ t1 <= t2.
Proof.
  intros Hrows Hrate Hkm.
  unfold FareCalculationService.calculateOutstationFare.
  rewrite Hrows. cbn [error data].
  set (days := FareCalculationService.numberOfDays _ endNow).
  set (limit := OutstationFare.daily_km_limit cfg).
  set (rate := OutstationFare.per_km_rate cfg) in *.
  do 6 eexists. exists days.
  split; [reflexivity|]. split; [reflexivity|]. split; [reflexivity|].
  split; [reflexivity|]. split; [reflexivity|].
  split; [reflexivity|]. split; [reflexivity|].
  assert (H2 : km1 * 2 <= km2 * 2).
  { apply Qmult_le_compat_r; [exact Hkm | discriminate]. }
  assert (Hcharges :
            limit * inject_Z days * rate
            <= (if Qle_bool (km1 * 2) (limit * inject_Z days)
                then limit * inject_Z days * rate else km1 * 2 * rate)
            /\ (if Qle_bool (km1 * 2) (limit * inject_Z days)
                then limit * inject_Z days * rate else km1 * 2 * rate)
               <= (if Qle_bool (km2 * 2) (limit * inject_Z days)
                   then limit * inject_Z days * rate else km2 * 2 * rate)).
  { destruct (Qle_bool (km1 * 2) (limit * inject_Z days)) eqn:E1;
      destruct (Qle_bool (km2 * 2) (limit * inject_Z days)) eqn:E2.
    - split; apply Qle_refl.
    - split; [apply Qle_refl|].
      apply Qmult_le_compat_r; [|exact Hrate].
      apply Qlt_le_weak, Qnot_le_lt. intros H.
      apply Qle_bool_iff in H. congruence.
    - exfalso. apply Qle_bool_iff in E2.
      assert (H : Qle_bool (km1 * 2) (limit * inject_Z days) = true).
      { apply Qle_bool_iff. apply Qle_trans with (km2 * 2); assumption. }
      congruence.
    - assert (Hlt : limit * inject_Z days <= km1 * 2).
      { apply Qlt_le_weak, Qnot_le_lt. intros H.
        apply Qle_bool_iff in H. congruence. }
      split; apply Qmult_le_compat_r; assumption. }
  destruct Hcharges as [Hfloor Hmono].
  split; [exact Hfloor|]. split; [exact Hmono|].
  apply Qplus_le_l. apply Qplus_le_r. exact Hmono.
Qed.

Lemma outstation_charge_floor_witness :
  exists fb1 fb2 c1 c2 t1 t2 days,
    FareCalculationService.calculateOutstationFare Fixture.outstation_example
      no_faults Fixture.now Fixture.now "sedan" 120 180 None = Normal fb1
    /\ FareCalculationService.calculateOutstationFare
         Fixture.outstation_example no_faults Fixture.now Fixture.now
         "sedan" 200 180 None = Normal fb2
    /\ Details.days_calculated (FareBreakdown.details fb1) = Some days
    /\ FareBreakdown.distance_fare fb1 = Num c1
    /\ FareBreakdown.distance_fare fb2 = Num c2
    /\ FareBreakdown.total_fare fb1 = Num t1
    /\ FareBreakdown.total_fare fb2 = Num t2
    /\ 300 * inject_Z days * 10 <= c1
    /\ c1 <= c2
    /\ t1 <= t2.
Proof.
  apply (outstation_charge_floor Fixture.outstation_example no_faults
           Fixture.now Fixture.now "sedan" 180 None
           (OutstationFare.mk "sedan" 500 10 300 300 true 0) [] 120 200
           eq_refl); discriminate.
Defined.

(** ** Deadhead charges: sign and dependence on the zones *)

Lemma find_first_match {A : Type} (p : A -> bool) (l : list A) :
  find p l = find p (firstn 1 (filter p l)).
Proof.
  induction l as [|a t IH]; simpl; [reflexivity|].
  destruct (p a) eqn:E; simpl; [rewrite E; reflexivity | exact IH].
Qed.

(** For a per-km rate that is not negative the deadhead charge is a
    number that is not negative, and it is decided by the first zone
    whose name marks the inner ring alone: every other zone of the
    list can be dropped without changing the result. *)
Theorem deadhead_charge_sign_and_zone
        (calculateDistance : Q -> Q -> Q -> Q -> Q)
        (dropLat dropLng rate : Q) (zones : list Zone.t) :
  0 <= rate ->
  (exists c,
     FareCalculationService.deadheadCharges
       (FareCalculationService.calculateDeadheadCharges calculateDistance
          dropLat dropLng (Num rate) zones) = Num c
     /\ 0 <= c)
  /\ FareCalculationService.calculateDeadheadCharges calculateDistance
       dropLat dropLng (Num rate) zones
     = FareCalculationService.calculateDeadheadCharges calculateDistance
         dropLat dropLng (Num rate)
         (firstn 1 (filter FareCalculationService.denotes_inner zones)).
Proof.
  intros Hrate. split.
  - unfold FareCalculationService.calculateDeadheadCharges.
    destruct (find FareCalculationService.denotes_inner zones) as [z|].
    + destruct (Qle_bool _ (Zone.radius_km z)) eqn:E; simpl.
      * exists 0. split; [reflexivity | apply Qle_refl].
      * eexists. split; [reflexivity|].
        apply Qmult_le_0_compat; [|exact Hrate].
        apply Qmult_le_0_compat; [|discriminate].
        apply Qlt_le_weak. unfold Qminus. rewrite <- Qlt_minus_iff.
        apply Qnot_le_lt. intros H. apply Qle_bool_iff in H. congruence.
    + exists 0. split; [reflexivity | apply Qle_refl].
  - unfold FareCalculationService.calculateDeadheadCharges.
    rewrite <- find_first_match. reflexivity.
Qed.

Lemma deadhead_charge_sign_and_zone_witness :
  (exists c,
     FareCalculationService.deadheadCharges
       (FareCalculationService.calculateDeadheadCharges gridDistance
          (Fixture.pickup_lat + (9 # 111)) Fixture.pickup_lng (Num 12)
          [Zone.mk "Outer" 0 0 50 true; Fixture.inner_ring]) = Num c
     /\ 0 <= c)
  /\ FareCalculationService.calculateDeadheadCharges gridDistance
       (Fixture.pickup_lat + (9 # 111)) Fixture.pickup_lng (Num 12)
       [Zone.mk "Outer" 0 0 50 true; Fixture.inner_ring]
     = FareCalculationService.calculateDeadheadCharges gridDistance
         (Fixture.pickup_lat + (9 # 111)) Fixture.pickup_lng (Num 12)
         (firstn 1 (filter FareCalculationService.denotes_inner
                      [Zone.mk "Outer" 0 0 50 true; Fixture.inner_ring])).
Proof.
  apply (deadhead_charge_sign_and_zone gridDistance
           (Fixture.pickup_lat + (9 # 111)) Fixture.pickup_lng 12
           [Zone.mk "Outer" 0 0 50 true; Fixture.inner_ring]).
  discriminate.
Defined.

(** ** Storing the trip fare: what is written, and when *)

Section TripFareStore.

Variable calculateDistance : Q -> Q -> Q -> Q -> Q.
Variable m : FareCalculationService.Scoping.
Variable db : Db.
Variable f : Faults.
Variables startNow endNow : Z.
Variable rideId : string.
Variables km mins pickupLat pickupLng dropLat dropLng : Q.

Let out : FareCalculationService.TripFareResult * Db :=
  FareCalculationService.calculateAndStoreTripFare calculateDistance m db f
    startNow endNow rideId km mins pickupLat pickupLng dropLat dropLng.

(** The successful runs of [calculateAndStoreTripFare], spelled out. *)
Lemma trip_fare_success_inv :
  FareCalculationService.success (fst out) = true ->
  exists ride zs fb,
    single (select f "rides" (rides db)
                   (fun r => String.eqb (Ride.id r) rideId)) = ok ride
    /\ select f "zones" (zones db) Zone.is_active = ok zs
    /\ FareCalculationService.fareForBookingType calculateDistance m db f
         startNow endNow ride km mins pickupLat pickupLng dropLat dropLng zs
       = Some (Normal fb)
    /\ insert_error f "trip_completions" rideId = None
    /\ out
       = (FareCalculationService.mkResult true (Some fb) None,
          FareCalculationService.updateRideFare
            (with_trip_completions db
               (trip_completions db
                ++ [FareCalculationService.completionRow rideId ride km mins
                      fb]))
            f rideId (FareBreakdown.total_fare fb) km mins).
Proof.
  subst out.
  unfold FareCalculationService.calculateAndStoreTripFare,
    FareCalculationService.tripFareTry.
  destruct (single (select f "rides" (rides db) _)) as [[ride|] [e|]] eqn:Hride;
    cbn [error data]; try discriminate.
  destruct (select f "zones" (zones db) Zone.is_active) as [[zs|] [e|]]
    eqn:Hzones; cbn [error data]; try discriminate.
  destruct (FareCalculationService.fareForBookingType _ _ _ _ _ _ _ _ _ _ _ _ _ _)
    as [[fb|msg]|] eqn:Hfare; try discriminate.
  destruct (insert_error f "trip_completions" rideId) eqn:Hins;
    [discriminate|].
  intros _. exists ride, zs, fb.
  split; [reflexivity|]. split; [reflexivity|].
  split; [exact Hfare|]. split; reflexivity.
Qed.

Lemma trip_fare_failure_inv :
  FareCalculationService.success (fst out) = false ->
  snd out = db /\ FareCalculationService.fareBreakdown (fst out) = None.
Proof.
  subst out.
  unfold FareCalculationService.calculateAndStoreTripFare,
    FareCalculationService.tripFareTry.
  destruct (error (single _)); [split; reflexivity|].
  destruct (data (single _)) as [ride|]; [|split; reflexivity].
  destruct (error (select f "zones" _ _)); [split; reflexivity|].
  destruct (data (select f "zones" _ _)) as [zs|]; [|split; reflexivity].
  destruct (FareCalculationService.fareForBookingType _ _ _ _ _ _ _ _ _ _ _ _ _ _)
    as [[fb|msg]|]; try (split; reflexivity).
  destruct (insert_error f "trip_completions" rideId);
    [split; reflexivity | discriminate].
Qed.

Lemma updateRideFare_tables (d : Db) (total : value) :
  trip_completions
    (FareCalculationService.updateRideFare d f rideId total km mins)
  = trip_completions d
  /\ same_configuration d
       (FareCalculationService.updateRideFare d f rideId total km mins).
Proof.
  unfold FareCalculationService.updateRideFare, same_configuration.
  destruct (update_error f "rides"); simpl; repeat split; reflexivity.
Qed.

End TripFareStore.

(** All or nothing. A call of [calculateAndStoreTripFare] that reports
    failure leaves every table as it was. A call that reports success
    has appended exactly one completion record, which carries the
    ride's id, booking type and vehicle type, the measured distance and
    duration and the breakdown it returns, and has written none of the
    driver, location, notification, zone or fare tables. *)
Theorem trip_fare_all_or_nothing
        (calculateDistance : Q -> Q -> Q -> Q -> Q)
        (m : FareCalculationService.Scoping) (db : Db) (f : Faults)
        (startNow endNow : Z) (rideId : string)
        (km mins pickupLat pickupLng dropLat dropLng : Q) :
  let out :=
    FareCalculationService.calculateAndStoreTripFare calculateDistance m
      db f startNow endNow rideId km mins
      pickupLat pickupLng dropLat dropLng in
  (FareCalculationService.success (fst out) = false ->
   snd out = db /\ FareCalculationService.fareBreakdown (fst out) = None)
  /\
  (FareCalculationService.success (fst out) = true ->
   exists ride fb,
     In ride (rides db) /\ Ride.id ride = rideId
     /\ FareCalculationService.fareBreakdown (fst out) = Some fb
     /\ trip_completions (snd out)
        = (trip_completions db
           ++ [TripCompletion.mk rideId (Ride.booking_type ride)
                 (Ride.vehicle_type ride) km mins
                 (jsonNumber (FareBreakdown.total_fare fb)) fb])%list
     /\ same_configuration db (snd out)).
Proof.
  intros out. split.
  - apply trip_fare_failure_inv.
  - intros Hs.
    destruct (trip_fare_success_inv calculateDistance m db f startNow endNow
                rideId km mins pickupLat pickupLng dropLat dropLng Hs)
      as [ride [zs [fb [Hride [_ [_ [_ Hout]]]]]]].
    exists ride, fb.
    assert (Hin : In ride (filter (fun r => String.eqb (Ride.id r) rideId)
                             (rides db))).
    { rewrite (single_select_inv f "rides" (rides db) _ ride);
        [left; reflexivity | rewrite Hride; reflexivity
         | rewrite Hride; reflexivity]. }
    apply filter_In in Hin. destruct Hin as [Hin Hid].
    apply String.eqb_eq in Hid.
    split; [exact Hin|]. split; [exact Hid|].
    unfold out. rewrite Hout. cbn [fst snd].
    split; [reflexivity|].
    destruct (updateRideFare_tables f rideId km mins
                (with_trip_completions db
                   (trip_completions db
                    ++ [FareCalculationService.completionRow rideId ride km
                          mins fb]))
                (FareBreakdown.total_fare fb)) as [Htc Hcfg].
    split; [rewrite Htc; reflexivity|].
    exact Hcfg.
Qed.

Lemma trip_fare_all_or_nothing_witness :
  (snd (FareCalculationService.calculateAndStoreTripFare gridDistance
          FareCalculationService.BlockScoped Fixture.regular_example
          no_faults Fixture.now Fixture.now "ride-1" 10 20
          Fixture.pickup_lat Fixture.pickup_lng
          Fixture.pickup_lat Fixture.pickup_lng)
   = Fixture.regular_example)
  /\ List.length
       (trip_completions
          (snd (FareCalculationService.calculateAndStoreTripFare gridDistance
                  FareCalculationService.BlockScoped
                  Fixture.outstation_example no_faults
                  Fixture.now Fixture.now "ride-2" 120 180
                  Fixture.pickup_lat Fixture.pickup_lng
                  Fixture.pickup_lat Fixture.pickup_lng)))
     = 1%nat.
Proof.
  split.
  - apply (proj1 (trip_fare_all_or_nothing gridDistance
                    FareCalculationService.BlockScoped
                    Fixture.regular_example no_faults Fixture.now Fixture.now
                    "ride-1" 10 20 Fixture.pickup_lat Fixture.pickup_lng
                    Fixture.pickup_lat Fixture.pickup_lng)).
    reflexivity.
  - destruct (proj2 (trip_fare_all_or_nothing gridDistance
                       FareCalculationService.BlockScoped
                       Fixture.outstation_example no_faults
                       Fixture.now Fixture.now "ride-2" 120 180
                       Fixture.pickup_lat Fixture.pickup_lng
                       Fixture.pickup_lat Fixture.pickup_lng) eq_refl)
      as [ride [fb [_ [_ [_ [Htc _]]]]]].
    rewrite Htc. reflexivity.
Defined.

Lemma filter_none {A : Type} (p : A -> bool) (l : list A) :
  (forall x, In x l -> p x = false) -> filter p l = [].
Proof.
  induction l as [|a t IH]; intros H; simpl; [reflexivity|].
  rewrite (H a (or_introl eq_refl)). apply IH.
  intros x Hx. apply H. right. exact Hx.
Qed.

Lemma no_rows_selected {A : Type} (f : Faults) (table : string)
      (rows : list A) (p : A -> bool) (g : list A -> list A) :
  (forall x, In x rows -> p x = false) ->
  g [] = [] ->
  let r := select f table rows p in
  match error r, option_map g (data r) with
  | None, Some (_ :: _) => False
  | _, _ => True
  end.
Proof.
  intros H Hg. unfold select.
  destruct (select_error f table); simpl; [exact I|].
  rewrite (filter_none p rows H), Hg. exact I.
Qed.

(** A missing configuration is fatal, never a zero fare. For a ride
    that is found, with the zones readable: when no active rental
    package matches the vehicle type and hours of a rental ride, or no
    active outstation (airport) row matches the vehicle type of an
    outstation (airport) ride, [calculateAndStoreTripFare] answers
    [success: false] with the message that the configuration was not
    found, returns no breakdown, and writes nothing. *)
Theorem missing_configuration_is_fatal
        (calculateDistance : Q -> Q -> Q -> Q -> Q)
        (m : FareCalculationService.Scoping) (db : Db) (f : Faults)
        (startNow endNow : Z) (rideId : string)
        (km mins pickupLat pickupLng dropLat dropLng : Q) (ride : Ride.t) :
  single (select f "rides" (rides db)
                 (fun r => String.eqb (Ride.id r) rideId)) = ok ride ->
  select_error f "zones" = None ->
  let out :=
    FareCalculationService.calculateAndStoreTripFare calculateDistance m
      db f startNow endNow rideId km mins
      pickupLat pickupLng dropLat dropLng in
  (Ride.booking_type ride = "rental" ->
   (forall p, In p (rental_fares db) ->
              ~ rental_match (Ride.vehicle_type ride)
                  (FareCalculationService.selected_hours_or_4 ride) p) ->
   out = (FareCalculationService.failure
            "Rental fare configuration not found", db))
  /\
  (Ride.booking_type ride = "outstation" ->
   (forall c, In c (outstation_fares db) ->
              ~ outstation_match (Ride.vehicle_type ride) c) ->
   out = (FareCalculationService.failure
            "Outstation fare configuration not found", db))
  /\
  (Ride.booking_type ride = "airport" ->
   (forall c, In c (airport_fares db) ->
              ~ airport_match (Ride.vehicle_type ride) c) ->
   out = (FareCalculationService.failure
            "Airport fare configuration not found", db)).
Proof.
  intros Hride Hzones out. subst out.
  unfold FareCalculationService.calculateAndStoreTripFare,
    FareCalculationService.tripFareTry.
  rewrite Hride, (select_readable f "zones" _ _ Hzones).
  cbn [error data ok].
  unfold FareCalculationService.fareForBookingType.
  split; [|split]; intros Hbt Hnone; rewrite Hbt; simpl String.eqb; cbv iota.
  - unfold FareCalculationService.calculateRentalFare,
      FareCalculationService.rental_fare_rows.
    pose proof (no_rows_selected f "rental_fares" (rental_fares db)
                  (fun p => String.eqb (RentalFare.vehicle_type p)
                                       (Ride.vehicle_type ride)
                            && Qeq_bool (RentalFare.duration_hours p)
                                 (FareCalculationService.selected_hours_or_4
                                    ride)
                            && RentalFare.is_active p)
                  (fun rows =>
                     limit 1 (order_desc
                                (fun p => if RentalFare.is_popular p
                                          then 1%Z else 0%Z) rows))) as H.
    cbv zeta in H. cbn [error data].
    destruct (error (select f "rental_fares" _ _)); [reflexivity|].
    destruct (option_map _ (data (select f "rental_fares" _ _)))
      as [[|x t]|]; try reflexivity.
    exfalso. apply H; [|reflexivity].
    intros p Hp. destruct (_ && _) eqn:E; [|reflexivity].
    exfalso. apply (Hnone p Hp). apply rental_filter_match, E.
  - unfold FareCalculationService.calculateOutstationFare,
      FareCalculationService.outstation_fare_rows.
    pose proof (no_rows_selected f "outstation_fares" (outstation_fares db)
                  (fun c => String.eqb (OutstationFare.vehicle_type c)
                                       (Ride.vehicle_type ride)
                            && OutstationFare.is_active c)
                  (fun rows =>
                     limit 1 (order_desc OutstationFare.created_at rows)))
      as H.
    cbv zeta in H. cbn [error data].
    destruct (error (select f "outstation_fares" _ _)); [reflexivity|].
    destruct (option_map _ (data (select f "outstation_fares" _ _)))
      as [[|x t]|]; try reflexivity.
    exfalso. apply H; [|reflexivity].
    intros c Hc. destruct (_ && _) eqn:E; [|reflexivity].
    exfalso. apply (Hnone c Hc). apply outstation_filter_match, E.
  - unfold FareCalculationService.calculateAirportFare,
      FareCalculationService.airport_fare_rows.
    pose proof (no_rows_selected f "airport_fares" (airport_fares db)
                  (fun c => String.eqb (AirportFare.vehicle_type c)
                                       (Ride.vehicle_type ride)
                            && AirportFare.is_active c)
                  (fun rows =>
                     limit 1 (order_desc AirportFare.created_at rows)))
      as H.
    cbv zeta in H. cbn [error data].
    destruct (error (select f "airport_fares" _ _)); [reflexivity|].
    destruct (option_map _ (data (select f "airport_fares" _ _)))
      as [[|x t]|]; try reflexivity.
    exfalso. apply H; [|reflexivity].
    intros c Hc. destruct (_ && _) eqn:E; [|reflexivity].
    exfalso. apply (Hnone c Hc).
    unfold airport_match. apply andb_true_iff in E.
    rewrite String.eqb_eq in E. exact E.
Qed.

Lemma missing_configuration_is_fatal_witness :
  FareCalculationService.calculateAndStoreTripFare gridDistance
    FareCalculationService.BlockScoped Fixture2.unconfigured no_faults
    Fixture.now Fixture.now "ride-3" 95 240
    Fixture.pickup_lat Fixture.pickup_lng Fixture.pickup_lat Fixture.pickup_lng
  = (FareCalculationService.failure "Rental fare configuration not found",
     Fixture2.unconfigured)
  /\ FareCalculationService.calculateAndStoreTripFare gridDistance
       FareCalculationService.BlockScoped Fixture2.unconfigured no_faults
       Fixture.now Fixture.now "ride-2" 120 180
       Fixture.pickup_lat Fixture.pickup_lng
       Fixture.pickup_lat Fixture.pickup_lng
     = (FareCalculationService.failure
          "Outstation fare configuration not found",
        Fixture2.unconfigured)
  /\ FareCalculationService.calculateAndStoreTripFare gridDistance
       FareCalculationService.BlockScoped Fixture2.unconfigured no_faults
       Fixture.now Fixture.now "ride-4" 40 60
       Fixture.pickup_lat Fixture.pickup_lng
       Fixture.pickup_lat Fixture.pickup_lng
     = (FareCalculationService.failure "Airport fare configuration not found",
        Fixture2.unconfigured).
Proof.
  split; [|split].
  - apply (proj1 (missing_configuration_is_fatal gridDistance
                    FareCalculationService.BlockScoped Fixture2.unconfigured
                    no_faults Fixture.now Fixture.now "ride-3" 95 240
                    Fixture.pickup_lat Fixture.pickup_lng
                    Fixture.pickup_lat Fixture.pickup_lng
                    (Fixture.ride "ride-3" "in_progress" (Some "drv-a")
                       "rental" "sedan") eq_refl eq_refl));
      [reflexivity | intros p []].
  - apply (proj1 (proj2 (missing_configuration_is_fatal gridDistance
                    FareCalculationService.BlockScoped Fixture2.unconfigured
                    no_faults Fixture.now Fixture.now "ride-2" 120 180
                    Fixture.pickup_lat Fixture.pickup_lng
                    Fixture.pickup_lat Fixture.pickup_lng
                    (Fixture.ride "ride-2" "in_progress" (Some "drv-a")
                       "outstation" "sedan") eq_refl eq_refl)));
      [reflexivity | intros c []].
  - apply (proj2 (proj2 (missing_configuration_is_fatal gridDistance
                    FareCalculationService.BlockScoped Fixture2.unconfigured
                    no_faults Fixture.now Fixture.now "ride-4" 40 60
                    Fixture.pickup_lat Fixture.pickup_lng
                    Fixture.pickup_lat Fixture.pickup_lng
                    (Fixture.ride "ride-4" "in_progress" (Some "drv-a")
                       "airport" "sedan") eq_refl eq_refl)));
      [reflexivity | intros c []].
Defined.

(** The ride row after a successful call. When [calculateAndStoreTripFare]
    reports success and the rides table can be updated, every ride with
    the given id carries the total fare (null for a total that is not a
    number), the measured distance and the measured duration, with its
    status, driver and other columns as before, and every other ride is
    untouched. When the update of the rides table fails, the call still
    reports success and the rides table is as it was. *)
Theorem stored_fare_on_ride
        (calculateDistance : Q -> Q -> Q -> Q -> Q)
        (m : FareCalculationService.Scoping) (db : Db) (f : Faults)
        (startNow endNow : Z) (rideId : string)
        (km mins pickupLat pickupLng dropLat dropLng : Q) :
  let out :=
    FareCalculationService.calculateAndStoreTripFare calculateDistance m
      db f startNow endNow rideId km mins
      pickupLat pickupLng dropLat dropLng in
  FareCalculationService.success (fst out) = true ->
  exists fb,
    FareCalculationService.fareBreakdown (fst out) = Some fb
    /\ (update_error f "rides" = None ->
        rides (snd out)
        = map (fun r => if String.eqb (Ride.id r) rideId
                        then with_fare (FareBreakdown.total_fare fb) km mins r
                        else r)
              (rides db))
    /\ (update_error f "rides" <> None -> rides (snd out) = rides db).
Proof.
  intros out Hs.
  destruct (trip_fare_success_inv calculateDistance m db f startNow endNow
              rideId km mins pickupLat pickupLng dropLat dropLng Hs)
    as [ride [zs [fb [_ [_ [_ [_ Hout]]]]]]].
  exists fb. unfold out. rewrite Hout. cbn [fst snd].
  split; [reflexivity|].
  unfold FareCalculationService.updateRideFare.
  destruct (update_error f "rides") as [e|].
  - split; [discriminate | intros _; reflexivity].
  - split; [intros _; reflexivity | intros H; contradiction].
Qed.

Lemma stored_fare_on_ride_witness :
  (exists fb,
     FareCalculationService.fareBreakdown
       (fst (FareCalculationService.calculateAndStoreTripFare gridDistance
               FareCalculationService.BlockScoped Fixture.outstation_example
               Fixture2.rides_read_only Fixture.now Fixture.now "ride-2"
               120 180 Fixture.pickup_lat Fixture.pickup_lng
               Fixture.pickup_lat Fixture.pickup_lng))
     = Some fb)
  /\ rides
       (snd (FareCalculationService.calculateAndStoreTripFare gridDistance
               FareCalculationService.BlockScoped Fixture.outstation_example
               Fixture2.rides_read_only Fixture.now Fixture.now "ride-2"
               120 180 Fixture.pickup_lat Fixture.pickup_lng
               Fixture.pickup_lat Fixture.pickup_lng))
     = rides Fixture.outstation_example.
Proof.
  destruct (stored_fare_on_ride gridDistance
              FareCalculationService.BlockScoped Fixture.outstation_example
              Fixture2.rides_read_only Fixture.now Fixture.now "ride-2"
              120 180 Fixture.pickup_lat Fixture.pickup_lng
              Fixture.pickup_lat Fixture.pickup_lng eq_refl)
    as [fb [Hfb [_ Hkept]]].
  split; [exists fb; exact Hfb|].
  apply Hkept. discriminate.
Defined.

(** ** Reading a completion record back *)

(** [getTripCompletion] finds a record exactly when the table can be
    read and holds exactly one record of the ride. *)
Lemma getTripCompletion_iff (db : Db) (f : Faults) (rideId : string)
      (c : TripCompletion.t) :
  FareCalculationService.getTripCompletion db f rideId = Some c
  <-> select_error f "trip_completions" = None
      /\ completions_of db rideId = [c].
Proof.
  unfold FareCalculationService.getTripCompletion, completions_of, single,
    select.
  destruct (select_error f "trip_completions"); simpl.
  - split; [discriminate | intros [H _]; discriminate].
  - destruct (filter _ (trip_completions db)) as [|x [|y t]]; simpl.
    + split; [discriminate | intros [_ H]; discriminate].
    + split; [intros [= ->]; split; reflexivity
             | intros [_ [= ->]]; reflexivity].
    + split; [discriminate | intros [_ H]; discriminate].
Qed.

Lemma completions_after_store
      (calculateDistance : Q -> Q -> Q -> Q -> Q)
      (m : FareCalculationService.Scoping) (db : Db) (f : Faults)
      (startNow endNow : Z) (rideId : string)
      (km mins pickupLat pickupLng dropLat dropLng : Q) :
  let out :=
    FareCalculationService.calculateAndStoreTripFare calculateDistance m
      db f startNow endNow rideId km mins
      pickupLat pickupLng dropLat dropLng in
  FareCalculationService.success (fst out) = true ->
  exists c,
    completions_of (snd out) rideId = (completions_of db rideId ++ [c])%list
    /\ TripCompletion.ride_id c = rideId
    /\ TripCompletion.actual_distance_km c = km
    /\ TripCompletion.actual_duration_minutes c = mins
    /\ Some (TripCompletion.fare_breakdown c)
       = FareCalculationService.fareBreakdown (fst out)
    /\ TripCompletion.total_fare c
       = jsonNumber (FareBreakdown.total_fare (TripCompletion.fare_breakdown c)).
Proof.
  intros out Hs.
  destruct (trip_fare_success_inv calculateDistance m db f startNow endNow
              rideId km mins pickupLat pickupLng dropLat dropLng Hs)
    as [ride [zs [fb [_ [_ [_ [_ Hout]]]]]]].
  exists (FareCalculationService.completionRow rideId ride km mins fb).
  unfold out. rewrite Hout. cbn [fst snd].
  unfold completions_of.
  rewrite (proj1 (updateRideFare_tables f rideId km mins _ _)).
  cbn [trip_completions with_trip_completions].
  rewrite filter_app. simpl. rewrite String.eqb_refl.
  repeat split.
Qed.

(** Round trip. For a ride without a completion record, in a store
    whose completion table can be read: after a successful
    [calculateAndStoreTripFare], [getTripCompletion] returns the record
    of that ride, with the breakdown that the call returned. *)
Theorem stored_completion_is_found
        (calculateDistance : Q -> Q -> Q -> Q -> Q)
        (m : FareCalculationService.Scoping) (db : Db) (f : Faults)
        (startNow endNow : Z) (rideId : string)
        (km mins pickupLat pickupLng dropLat dropLng : Q) :
  let out :=
    FareCalculationService.calculateAndStoreTripFare calculateDistance m
      db f startNow endNow rideId km mins
      pickupLat pickupLng dropLat dropLng in
  completions_of db rideId = [] ->
  select_error f "trip_completions" = None ->
  FareCalculationService.success (fst out) = true ->
  exists c,
    FareCalculationService.getTripCompletion (snd out) f rideId = Some c
    /\ TripCompletion.ride_id c = rideId
    /\ Some (TripCompletion.fare_breakdown c)
       = FareCalculationService.fareBreakdown (fst out).
Proof.
  intros out Hnone Hread Hs.
  destruct (completions_after_store calculateDistance m db f startNow endNow
              rideId km mins pickupLat pickupLng dropLat dropLng Hs)
    as [c [Hc [Hid [_ [_ [Hfb _]]]]]].
  exists c. split.
  - apply getTripCompletion_iff. split; [exact Hread|].
    fold out in Hc. rewrite Hc, Hnone. reflexivity.
  - split; assumption.
Qed.

Lemma stored_completion_is_found_witness :
  exists c,
    FareCalculationService.getTripCompletion
      (snd (FareCalculationService.calculateAndStoreTripFare gridDistance
              FareCalculationService.BlockScoped Fixture.outstation_example
              no_faults Fixture.now Fixture.now "ride-2" 120 180
              Fixture.pickup_lat Fixture.pickup_lng
              Fixture.pickup_lat Fixture.pickup_lng))
      no_faults "ride-2" = Some c
    /\ TripCompletion.ride_id c = "ride-2".
Proof.
  destruct (stored_completion_is_found gridDistance
              FareCalculationService.BlockScoped Fixture.outstation_example
              no_faults Fixture.now Fixture.now "ride-2" 120 180
              Fixture.pickup_lat Fixture.pickup_lng
              Fixture.pickup_lat Fixture.pickup_lng
              eq_refl eq_refl eq_refl)
    as [c [Hc [Hid _]]].
  exists c. split; assumption.
Defined.

(** Not idempotent. Storing the fare of a ride twice leaves two
    completion records of that ride, and [getTripCompletion], which
    asks for a single row, then returns null: after a second successful
    [calculateAndStoreTripFare] the completion of the ride can no
    longer be read back. *)
Theorem second_store_hides_completion
        (calculateDistance : Q -> Q -> Q -> Q -> Q)
        (m : FareCalculationService.Scoping) (db : Db) (f : Faults)
        (startNow endNow startNow' endNow' : Z) (rideId : string)
        (km mins pickupLat pickupLng dropLat dropLng : Q)
        (km' mins' : Q) :
  let first :=
    FareCalculationService.calculateAndStoreTripFare calculateDistance m
      db f startNow endNow rideId km mins
      pickupLat pickupLng dropLat dropLng in
  let second :=
    FareCalculationService.calculateAndStoreTripFare calculateDistance m
      (snd first) f startNow' endNow' rideId km' mins'
      pickupLat pickupLng dropLat dropLng in
  FareCalculationService.success (fst first) = true ->
  FareCalculationService.success (fst second) = true ->
  (2 <= List.length (completions_of (snd second) rideId))%nat
  /\ FareCalculationService.getTripCompletion (snd second) f rideId = None.
Proof.
  intros first second H1 H2.
  destruct (completions_after_store calculateDistance m db f startNow endNow
              rideId km mins pickupLat pickupLng dropLat dropLng H1)
    as [c1 [Hc1 _]].
  destruct (completions_after_store calculateDistance m (snd first) f
              startNow' endNow' rideId km' mins' pickupLat pickupLng
              dropLat dropLng H2)
    as [c2 [Hc2 _]].
  fold first in Hc1. fold first second in Hc2.
  assert (Hlen : (2 <= List.length (completions_of (snd second) rideId))%nat).
  { rewrite Hc2, Hc1, !length_app. simpl. lia. }
  split; [exact Hlen|].
  destruct (FareCalculationService.getTripCompletion (snd second) f rideId)
    as [c|] eqn:E; [|reflexivity].
  apply getTripCompletion_iff in E. destruct E as [_ E].
  rewrite E in Hlen. simpl in Hlen. lia.
Qed.

Lemma second_store_hides_completion_witness :
  let first :=
    FareCalculationService.calculateAndStoreTripFare gridDistance
      FareCalculationService.BlockScoped Fixture.outstation_example
      no_faults Fixture.now Fixture.now "ride-2" 120 180
      Fixture.pickup_lat Fixture.pickup_lng
      Fixture.pickup_lat Fixture.pickup_lng in
  let second :=
    FareCalculationService.calculateAndStoreTripFare gridDistance
      FareCalculationService.BlockScoped (snd first)
      no_faults Fixture.now Fixture.now "ride-2" 120 180
      Fixture.pickup_lat Fixture.pickup_lng
      Fixture.pickup_lat Fixture.pickup_lng in
  (2 <= List.length (completions_of (snd second) "ride-2"))%nat
  /\ FareCalculationService.getTripCompletion (snd second) no_faults "ride-2"
     = None.
Proof.
  apply (second_store_hides_completion gridDistance
           FareCalculationService.BlockScoped Fixture.outstation_example
           no_faults Fixture.now Fixture.now Fixture.now Fixture.now "ride-2"
           120 180 Fixture.pickup_lat Fixture.pickup_lng
           Fixture.pickup_lat Fixture.pickup_lng 120 180);
    reflexivity.
Defined.

(** * Further properties of dispatch *)

Lemma with_notifications_same (db : Db) :
  with_notifications db (notifications db) = db.
Proof. destruct db; reflexivity. Qed.

(** The loop of [handleNotifyDrivers], resolved: it counts and appends
    the notifications of the drivers that the store accepts one for. *)
Lemma notifyAll_effect (db : Db) (f : Faults) (ride : Ride.t)
      (nds : list DriverApi.NearbyDriver) (n : nat) :
  DriverApi.notifyAll db f ride nds n
  = ((n + List.length (filter (reachable f) nds))%nat,
     with_notifications db
       (notifications db
        ++ map (ride_request_for ride) (filter (reachable f) nds))%list).
Proof.
  revert db n. induction nds as [|nd rest IH]; intros db n; simpl.
  - rewrite Nat.add_0_r, app_nil_r, with_notifications_same. reflexivity.
  - unfold DriverApi.sendDriverNotification, reachable.
    destruct (DriverApi.location nd) as [loc|].
    + destruct (insert_error f "notifications" _) as [e|].
      * apply IH.
      * rewrite IH. cbn [notifications with_notifications].
        simpl. rewrite <- app_assoc. simpl.
        rewrite Nat.add_succ_r. reflexivity.
    + apply IH.
Qed.

Lemma handleNotifyDrivers_requested
      (calculateDistance : Q -> Q -> Q -> Q -> Q)
      (db : Db) (f : Faults) (clock : nat -> Z) (rid : string)
      (ride : Ride.t) :
  awaits_dispatch db f rid ride ->
  let nds :=
    DriverApi.findNearbyDrivers calculateDistance db f clock
      (Ride.pickup_latitude ride) (Ride.pickup_longitude ride)
      (Ride.vehicle_type ride) 15 in
  DriverApi.handleNotifyDrivers calculateDistance db f clock (Some rid)
  = match nds with
    | [] =>
        (DriverApi.mkResponse 200 (Some true) (Some "No drivers available")
           None None None None,
         DriverApi.markNoDriversAvailable db f (Ride.id ride))
    | _ =>
        let sent := List.length (filter (reachable f) nds) in
        let db1 :=
          with_notifications db
            (notifications db
             ++ map (ride_request_for ride) (filter (reachable f) nds))%list in
        (DriverApi.mkResponse 200 (Some true) None None
           (Some (List.length nds)) (Some sent) None,
         if Nat.eqb sent 0
         then DriverApi.markNoDriversAvailable db1 f (Ride.id ride)
         else db1)
    end.
Proof.
  intros [Hrid [Hsingle Hst]] nds.
  unfold DriverApi.handleNotifyDrivers.
  destruct rid as [|c rid']; [congruence|].
  rewrite Hsingle. cbn [error data ok]. rewrite Hst. cbn [String.eqb negb].
  simpl (negb _).
  fold nds. destruct nds as [|nd rest] eqn:Hnds; [reflexivity|].
  rewrite notifyAll_effect. reflexivity.
Qed.

Lemma single_select_id (f : Faults) (rows : list Ride.t) (rid : string)
      (ride : Ride.t) :
  single (select f "rides" rows (fun r => String.eqb (Ride.id r) rid))
  = ok ride ->
  In ride rows /\ Ride.id ride = rid.
Proof.
  intros H.
  assert (Hin : In ride (filter (fun r => String.eqb (Ride.id r) rid) rows)).
  { rewrite (single_select_inv f "rides" rows _ ride);
      [left; reflexivity | rewrite H; reflexivity | rewrite H; reflexivity]. }
  apply filter_In in Hin. destruct Hin as [Hin Hid].
  apply String.eqb_eq in Hid. split; assumption.
Qed.

(** What a dispatch delivers. For a ride that waits for a driver,
    [handleNotifyDrivers] appends to the notifications table one unread
    'ride_request' for each nearby driver that the store accepts a
    notification for, in the order of the search, and nothing else; the
    answer counts the nearby drivers and the accepted notifications, so
    that [notifications_sent] never exceeds [drivers_found]. The drivers
    and their locations are not written. *)
Theorem notify_delivers_to_reachable_drivers
        (calculateDistance : Q -> Q -> Q -> Q -> Q)
        (db : Db) (f : Faults) (clock : nat -> Z) (rid : string)
        (ride : Ride.t) :
  awaits_dispatch db f rid ride ->
  let nds :=
    DriverApi.findNearbyDrivers calculateDistance db f clock
      (Ride.pickup_latitude ride) (Ride.pickup_longitude ride)
      (Ride.vehicle_type ride) 15 in
  let out :=
    DriverApi.handleNotifyDrivers calculateDistance db f clock (Some rid) in
  notifications (snd out)
  = (notifications db
     ++ map (ride_request_for ride) (filter (reachable f) nds))%list
  /\ (nds <> [] ->
      DriverApi.drivers_found (fst out) = Some (List.length nds)
      /\ DriverApi.notifications_sent (fst out)
         = Some (List.length (filter (reachable f) nds))
      /\ (List.length (filter (reachable f) nds) <= List.length nds)%nat)
  /\ drivers (snd out) = drivers db
  /\ live_locations (snd out) = live_locations db.
Proof.
  intros Hw nds out. unfold out.
  rewrite (handleNotifyDrivers_requested calculateDistance db f clock rid
             ride Hw).
  fold nds. destruct nds as [|nd rest] eqn:Hnds.
  - simpl. rewrite app_nil_r.
    split; [reflexivity|]. split; [intros Hne; contradiction|].
    split; reflexivity.
  - cbv zeta. cbn [fst snd DriverApi.drivers_found
                     DriverApi.notifications_sent].
    split; [|split; [|split]].
    + destruct (Nat.eqb _ 0); reflexivity.
    + intros _. repeat split. apply filter_length_le.
    + destruct (Nat.eqb _ 0); reflexivity.
    + destruct (Nat.eqb _ 0); reflexivity.
Qed.

Lemma notify_delivers_to_reachable_drivers_witness :
  let out :=
    DriverApi.handleNotifyDrivers gridDistance Fixture.tie
      Fixture2.usr_b_unreachable Fixture.clock (Some "ride-1") in
  notifications (snd out)
  = [Notification.mk "usr-a" "ride_request" "unread" "ride-1" "sedan"]
  /\ DriverApi.drivers_found (fst out) = Some 2%nat
  /\ DriverApi.notifications_sent (fst out) = Some 1%nat.
Proof.
  assert (Hw : awaits_dispatch Fixture.tie Fixture2.usr_b_unreachable
                 "ride-1"
                 (Fixture.ride "ride-1" "requested" None "regular" "sedan"))
    by (split; [discriminate | split; reflexivity]).
  destruct (notify_delivers_to_reachable_drivers gridDistance Fixture.tie
              Fixture2.usr_b_unreachable Fixture.clock "ride-1"
              (Fixture.ride "ride-1" "requested" None "regular" "sedan") Hw)
    as [Hn [Hc _]].
  split; [exact Hn|].
  destruct Hc as [Hfound [Hsent _]]; [discriminate|].
  split; [exact Hfound | exact Hsent].
Defined.

(** A ride that nobody was told about is closed. For a ride that waits
    for a driver: when no notification was accepted by the store,
    whether no driver is near or every insert failed, and the rides
    table can be updated, [handleNotifyDrivers] sets the ride to
    'no_drivers_available' and touches no other ride; when at least one
    notification was accepted the rides table is left as it was. *)
Theorem unserved_ride_is_closed
        (calculateDistance : Q -> Q -> Q -> Q -> Q)
        (db : Db) (f : Faults) (clock : nat -> Z) (rid : string)
        (ride : Ride.t) :
  awaits_dispatch db f rid ride ->
  let nds :=
    DriverApi.findNearbyDrivers calculateDistance db f clock
      (Ride.pickup_latitude ride) (Ride.pickup_longitude ride)
      (Ride.vehicle_type ride) 15 in
  let out :=
    DriverApi.handleNotifyDrivers calculateDistance db f clock (Some rid) in
  (filter (reachable f) nds = [] -> update_error f "rides" = None ->
   rides (snd out) = closed_unserved rid (rides db))
  /\ (filter (reachable f) nds <> [] -> rides (snd out) = rides db).
Proof.
  intros Hw nds out. unfold out.
  rewrite (handleNotifyDrivers_requested calculateDistance db f clock rid
             ride Hw).
  destruct Hw as [_ [Hsingle _]].
  apply single_select_id in Hsingle. destruct Hsingle as [_ Hid].
  fold nds. destruct nds as [|nd rest] eqn:Hnds.
  - split; [|intros H; contradiction].
    intros _ Hupd. cbn [snd].
    unfold DriverApi.markNoDriversAvailable, update_rows, closed_unserved.
    rewrite Hupd, Hid. reflexivity.
  - cbv zeta. cbn [snd]. split.
    + intros Hnone Hupd. rewrite Hnone. cbn [List.length Nat.eqb].
      unfold DriverApi.markNoDriversAvailable, update_rows, closed_unserved.
      rewrite Hupd, Hid. reflexivity.
    + intros Hsome.
      destruct (filter (reachable f) (nd :: rest)) as [|x t];
        [contradiction|].
      reflexivity.
Qed.

Lemma unserved_ride_is_closed_witness :
  rides (snd (DriverApi.handleNotifyDrivers gridDistance Fixture.tie
                Fixture2.nobody_reachable Fixture.clock (Some "ride-1")))
  = [Fixture.ride "ride-1" "no_drivers_available" None "regular" "sedan"]
  /\ rides (snd (DriverApi.handleNotifyDrivers gridDistance Fixture.tie
                   Fixture2.usr_b_unreachable Fixture.clock (Some "ride-1")))
     = rides Fixture.tie.
Proof.
  assert (Hw : forall f, select_error f "rides" = None ->
                 awaits_dispatch Fixture.tie f "ride-1"
                   (Fixture.ride "ride-1" "requested" None "regular" "sedan")).
  { intros f Hf. split; [discriminate | split; [|reflexivity]].
    unfold select. rewrite Hf. reflexivity. }
  split.
  - apply (proj1 (unserved_ride_is_closed gridDistance Fixture.tie
                    Fixture2.nobody_reachable Fixture.clock "ride-1"
                    (Fixture.ride "ride-1" "requested" None "regular" "sedan")
                    (Hw Fixture2.nobody_reachable eq_refl)));
      reflexivity.
  - apply (proj2 (unserved_ride_is_closed gridDistance Fixture.tie
                    Fixture2.usr_b_unreachable Fixture.clock "ride-1"
                    (Fixture.ride "ride-1" "requested" None "regular" "sedan")
                    (Hw Fixture2.usr_b_unreachable eq_refl))).
    discriminate.
Defined.

(** ** The search of the driver-api *)

Lemma keepNewer_get (m : UserMap.t LiveLocation.t) (loc : LiveLocation.t)
      (k : string) :
  UserMap.get (keepNewer m loc) k
  = if String.eqb k (LiveLocation.user_id loc)
    then match UserMap.get m k with
         | None => Some loc
         | Some ex =>
             if Z.ltb (LiveLocation.updated_at ex)
                      (LiveLocation.updated_at loc)
             then Some loc else Some ex
         end
    else UserMap.get m k.
Proof.
  unfold keepNewer.
  destruct (String.eqb k (LiveLocation.user_id loc)) eqn:E.
  - apply String.eqb_eq in E. subst k.
    destruct (UserMap.get m (LiveLocation.user_id loc)) as [ex|] eqn:G.
    + destruct (Z.ltb _ _).
      * rewrite UserMap_get_set, String.eqb_refl. reflexivity.
      * exact G.
    + rewrite UserMap_get_set, String.eqb_refl. reflexivity.
  - destruct (UserMap.get m (LiveLocation.user_id loc)) as [ex|].
    + destruct (Z.ltb _ _); [|reflexivity].
      rewrite UserMap_get_set, E. reflexivity.
    + rewrite UserMap_get_set, E. reflexivity.
Qed.

Lemma keepNewer_keeps (rows : list LiveLocation.t)
      (m : UserMap.t LiveLocation.t) (k : string) (v0 : LiveLocation.t) :
  UserMap.get m k = Some v0 ->
  exists v, UserMap.get (fold_left keepNewer rows m) k = Some v
            /\ (LiveLocation.updated_at v0 <= LiveLocation.updated_at v)%Z.
Proof.
  revert m v0. induction rows as [|loc rest IH]; intros m v0 H; simpl.
  - exists v0. split; [exact H | apply Z.le_refl].
  - assert (Hstep : exists v1,
               UserMap.get (keepNewer m loc) k = Some v1
               /\ (LiveLocation.updated_at v0
                   <= LiveLocation.updated_at v1)%Z).
    { rewrite keepNewer_get, H.
      destruct (String.eqb k (LiveLocation.user_id loc)).
      - destruct (Z.ltb _ _) eqn:L.
        + exists loc. split; [reflexivity|]. apply Z.ltb_lt in L. lia.
        + exists v0. split; [reflexivity | apply Z.le_refl].
      - exists v0. split; [reflexivity | apply Z.le_refl]. }
    destruct Hstep as [v1 [H1 L1]].
    destruct (IH _ _ H1) as [v [Hv Lv]].
    exists v. split; [exact Hv | lia].
Qed.

(** After the loop, the entry of a user is at least as recent as every
    row of that user that the loop has seen. *)
Lemma keepNewer_sees (rows : list LiveLocation.t)
      (m : UserMap.t LiveLocation.t) (s : LiveLocation.t) :
  In s rows ->
  exists v, UserMap.get (fold_left keepNewer rows m)
                        (LiveLocation.user_id s) = Some v
            /\ (LiveLocation.updated_at s <= LiveLocation.updated_at v)%Z.
Proof.
  revert m. induction rows as [|loc rest IH]; intros m; simpl;
    [contradiction|].
  intros [->|Hin]; [|apply IH, Hin].
  assert (Hstep : exists v1,
             UserMap.get (keepNewer m s) (LiveLocation.user_id s) = Some v1
             /\ (LiveLocation.updated_at s <= LiveLocation.updated_at v1)%Z).
  { rewrite keepNewer_get, String.eqb_refl.
    destruct (UserMap.get m (LiveLocation.user_id s)) as [ex|].
    - destruct (Z.ltb _ _) eqn:L.
      + exists s. split; [reflexivity | apply Z.le_refl].
      + exists ex. split; [reflexivity|]. apply Z.ltb_ge in L. exact L.
    - exists s. split; [reflexivity | apply Z.le_refl]. }
  destruct Hstep as [v1 [H1 L1]].
  destruct (keepNewer_keeps rest _ _ _ H1) as [v [Hv Lv]].
  exists v. split; [exact Hv | lia].
Qed.

Lemma DriverApi_latest_newest (locations : list LiveLocation.t)
      (s : LiveLocation.t) :
  In s locations ->
  exists v, UserMap.get (DriverApi.latestLocations locations)
                        (LiveLocation.user_id s) = Some v
            /\ (LiveLocation.updated_at s <= LiveLocation.updated_at v)%Z.
Proof. apply (keepNewer_sees locations []). Qed.

Lemma skipn_In {A : Type} (n : nat) (l : list A) (x : A) :
  In x (skipn n l) -> In x l.
Proof.
  intros H. rewrite <- (firstn_skipn n l). apply in_or_app. right. exact H.
Qed.

(** In a sorted list every row of a prefix is related to every row
    after the prefix. *)
Lemma sorted_prefix {A : Type} (R : A -> A -> Prop) (l : list A) (n : nat)
      (a b : A) :
  StronglySorted R l -> In a (firstn n l) -> In b (skipn n l) -> R a b.
Proof.
  intros S. revert n. induction S as [|x t St IH Hall]; intros n.
  - destruct n; simpl; contradiction.
  - destruct n as [|n]; simpl; [contradiction|].
    intros [<-|Ha] Hb.
    + rewrite Forall_forall in Hall. apply Hall. eapply skipn_In, Hb.
    + apply (IH n); assumption.
Qed.

(** The search, when both tables can be read. *)
Lemma findNearbyDrivers_readable
      (calculateDistance : Q -> Q -> Q -> Q -> Q)
      (db : Db) (f : Faults) (clock : nat -> Z)
      (pickupLat pickupLng : Q) (vehicleType : string) (radiusKm : Q) :
  select_error f "drivers" = None ->
  select_error f "live_locations" = None ->
  let latest :=
    DriverApi.latestLocations
      (limit 100 (order_desc LiveLocation.updated_at
                    (filter (tracked db) (live_locations db)))) in
  DriverApi.findNearbyDrivers calculateDistance db f clock
    pickupLat pickupLng vehicleType radiusKm
  = map (fun d => DriverApi.mkNearby d (UserMap.get latest (Driver.user_id d)))
        (filterAt (fun i => DriverApi.withinReach calculateDistance (clock i)
                              latest pickupLat pickupLng radiusKm)
                  0 (filter on_duty (drivers db))).
Proof.
  intros Hd Hl latest. unfold DriverApi.findNearbyDrivers.
  rewrite (select_readable f "drivers" _ _ Hd). cbn [error data ok].
  fold on_duty.
  change (fun d : Driver.t =>
            String.eqb (Driver.status d) "online" && Driver.is_verified d)
    with on_duty.
  destruct (filter on_duty (drivers db)) as [|d0 ds] eqn:Hds; [reflexivity|].
  rewrite (select_readable f "live_locations" _ _ Hl). cbn [error data ok].
  unfold latest, tracked. rewrite Hds. reflexivity.
Qed.

(** The search finds nobody when a table cannot be read. *)
Lemma findNearbyDrivers_unreadable
      (calculateDistance : Q -> Q -> Q -> Q -> Q)
      (db : Db) (f : Faults) (clock : nat -> Z)
      (pickupLat pickupLng : Q) (vehicleType : string) (radiusKm : Q) :
  select_error f "drivers" <> None \/ select_error f "live_locations" <> None ->
  DriverApi.findNearbyDrivers calculateDistance db f clock
    pickupLat pickupLng vehicleType radiusKm = [].
Proof.
  intros H. unfold DriverApi.findNearbyDrivers, select.
  destruct (select_error f "drivers") as [e|]; [reflexivity|].
  cbn [error data ok].
  destruct (filter _ (drivers db)) as [|d0 ds]; [reflexivity|].
  destruct (select_error f "live_locations") as [e|]; [reflexivity|].
  destruct H as [H|H]; contradiction.
Qed.

Lemma filterAt_complete {A : Type} (p : nat -> A -> bool) (x : A)
      (l : list A) (i : nat) :
  (forall j, p j x = true) -> In x l -> In x (filterAt p i l).
Proof.
  intros Hp. revert i. induction l as [|y t IH]; intros i; simpl;
    [contradiction|].
  intros [->|H].
  - rewrite Hp. left. reflexivity.
  - destruct (p i y); [right|]; apply IH, H.
Qed.

Lemma insert_filter_length {A : Type} (leb : A -> A -> bool)
      (p : A -> bool) (a : A) (l : list A) :
  List.length (filter p (insert leb a l))
  = List.length (filter p (a :: l)).
Proof.
  induction l as [|y t IH]; [reflexivity|].
  simpl insert. destruct (leb a y); [reflexivity|].
  simpl in *. destruct (p y), (p a); simpl in *; rewrite IH; reflexivity.
Qed.

Lemma sort_filter_length {A : Type} (leb : A -> A -> bool) (p : A -> bool)
      (l : list A) :
  List.length (filter p (sort leb l)) = List.length (filter p l).
Proof.
  induction l as [|a t IH]; [reflexivity|].
  simpl sort. rewrite insert_filter_length. simpl.
  destruct (p a); simpl; rewrite IH; reflexivity.
Qed.

Lemma filter_all {A : Type} (l : list A) : filter (fun _ => true) l = l.
Proof. induction l as [|a t IH]; simpl; [|rewrite IH]; reflexivity. Qed.

Lemma sort_length {A : Type} (leb : A -> A -> bool) (l : list A) :
  List.length (sort leb l) = List.length l.
Proof.
  rewrite <- (filter_all (sort leb l)), <- (filter_all l) at 1.
  rewrite sort_filter_length, !filter_all. reflexivity.
Qed.

Lemma filter_misses_one {A : Type} (p : A -> bool) (x : A) (l : list A) :
  In x l -> p x = false ->
  (List.length (filter p l) < List.length l)%nat.
Proof.
  intros Hin Hp. induction l as [|y t IH]; [contradiction|].
  simpl. destruct Hin as [->|Hin].
  - rewrite Hp. pose proof (filter_length_le p t). lia.
  - specialize (IH Hin). destruct (p y); simpl; lia.
Qed.

Lemma tracked_of_driver (db : Db) (d : Driver.t) (s : LiveLocation.t) :
  In d (drivers db) -> on_duty d = true ->
  LiveLocation.user_id s = Driver.user_id d ->
  tracked db s = true.
Proof.
  intros Hd Hon Hu. unfold tracked. apply existsb_exists.
  exists (Driver.user_id d). split.
  - apply in_map. apply filter_In. split; assumption.
  - rewrite Hu. apply String.eqb_refl.
Qed.

(** The entry of an on-duty driver in the map of latest locations is
    the most recent sample of that driver in the store, although the
    map is filled from the hundred most recent rows only. *)
Lemma DriverApi_latest_is_most_recent (db : Db) (d : Driver.t)
      (loc : LiveLocation.t) :
  In d (drivers db) -> on_duty d = true ->
  UserMap.get
    (DriverApi.latestLocations
       (limit 100 (order_desc LiveLocation.updated_at
                     (filter (tracked db) (live_locations db)))))
    (Driver.user_id d) = Some loc ->
  most_recent_sample db (Driver.user_id d) loc.
Proof.
  intros Hd Hon Hget.
  destruct (DriverApi_latest_from_rows _ _ _ Hget) as [Hloc Hu].
  split; [|split; [exact Hu|]].
  - apply limit_In, order_desc_In, filter_In in Hloc. tauto.
  - intros s Hs Hsu.
    assert (Hsel : In s (order_desc LiveLocation.updated_at
                           (filter (tracked db) (live_locations db)))).
    { apply order_desc_In, filter_In. split; [exact Hs|].
      apply (tracked_of_driver db d); assumption. }
    rewrite <- (firstn_skipn 100) in Hsel. apply in_app_or in Hsel.
    destruct Hsel as [Hfirst|Hrest].
    + destruct (DriverApi_latest_newest _ s Hfirst) as [v [Hv Hle]].
      unfold limit in Hget. rewrite Hsu, Hget in Hv.
      injection Hv as <-. exact Hle.
    + apply Z.leb_le.
      apply (sorted_prefix
               (fun a b => Z.leb (LiveLocation.updated_at b)
                                 (LiveLocation.updated_at a) = true)
               (order_desc LiveLocation.updated_at
                  (filter (tracked db) (live_locations db)))
               100 loc s);
        [|exact Hloc | exact Hrest].
      apply (sort_sorted _ (desc_total LiveLocation.updated_at)
                         (desc_trans LiveLocation.updated_at)).
Qed.

(** Whom the search finds. Every driver that [findNearbyDrivers]
    returns is a driver of the store who is online and verified, and
    comes with a location that is the most recent sample of that driver
    in the store, was at most thirty minutes old at one reading of the
    clock, and lies within the radius of the pickup point. *)
Theorem found_driver_is_eligible
        (calculateDistance : Q -> Q -> Q -> Q -> Q)
        (db : Db) (f : Faults) (clock : nat -> Z)
        (pickupLat pickupLng : Q) (vehicleType : string) (radiusKm : Q) :
  Forall (fun nd =>
            In (DriverApi.driver nd) (drivers db)
            /\ on_duty (DriverApi.driver nd) = true
            /\ exists loc,
                 DriverApi.location nd = Some loc
                 /\ most_recent_sample db
                      (Driver.user_id (DriverApi.driver nd)) loc
                 /\ (exists i, (age_at (clock i) loc <= 30 * 60 * 1000)%Z)
                 /\ within calculateDistance pickupLat pickupLng radiusKm loc)
         (DriverApi.findNearbyDrivers calculateDistance db f clock
            pickupLat pickupLng vehicleType radiusKm).
Proof.
  destruct (select_error f "drivers") as [e|] eqn:Hd;
    [rewrite findNearbyDrivers_unreadable;
       [constructor | left; rewrite Hd; discriminate]|].
  destruct (select_error f "live_locations") as [e|] eqn:Hl;
    [rewrite findNearbyDrivers_unreadable;
       [constructor | right; rewrite Hl; discriminate]|].
  rewrite (findNearbyDrivers_readable calculateDistance db f clock
             pickupLat pickupLng vehicleType radiusKm Hd Hl).
  cbv zeta. apply Forall_forall. intros nd Hin.
  apply in_map_iff in Hin. destruct Hin as [d [<- Hin]].
  apply filterAt_In in Hin. destruct Hin as [j [Hin Hreach]].
  apply filter_In in Hin. destruct Hin as [Hstore Hon].
  cbn [DriverApi.driver DriverApi.location].
  split; [exact Hstore|]. split; [exact Hon|].
  unfold DriverApi.withinReach in Hreach.
  destruct (UserMap.get _ (Driver.user_id d)) as [loc|] eqn:Hget;
    [|discriminate].
  exists loc. split; [reflexivity|].
  split; [apply DriverApi_latest_is_most_recent; assumption|].
  destruct (Z.ltb (30 * 60 * 1000) _) eqn:Hage; [discriminate|].
  split.
  - exists j. unfold age_at. apply Z.ltb_ge in Hage. exact Hage.
  - unfold within. apply Qle_bool_iff. exact Hreach.
Qed.

(** Whom the search cannot miss. When both tables can be read and at
    most a hundred samples of on-duty drivers are stored, a driver who
    is online and verified, has a sample, and whose most recent sample
    is at most thirty minutes old throughout the search and within the
    radius, is among the drivers that [findNearbyDrivers] returns,
    whatever vehicle the driver has. *)
Theorem eligible_driver_is_found
        (calculateDistance : Q -> Q -> Q -> Q -> Q)
        (db : Db) (f : Faults) (clock : nat -> Z)
        (pickupLat pickupLng : Q) (vehicleType : string) (radiusKm : Q)
        (d : Driver.t) (s0 : LiveLocation.t) :
  select_error f "drivers" = None ->
  select_error f "live_locations" = None ->
  (List.length (filter (tracked db) (live_locations db)) <= 100)%nat ->
  In d (drivers db) -> on_duty d = true ->
  In s0 (live_locations db) -> LiveLocation.user_id s0 = Driver.user_id d ->
  (forall loc, most_recent_sample db (Driver.user_id d) loc ->
               fresh_throughout clock (30 * 60 * 1000) loc
               /\ within calculateDistance pickupLat pickupLng radiusKm loc) ->
  exists nd,
    In nd (DriverApi.findNearbyDrivers calculateDistance db f clock
             pickupLat pickupLng vehicleType radiusKm)
    /\ DriverApi.driver nd = d
    /\ exists loc, DriverApi.location nd = Some loc
                   /\ most_recent_sample db (Driver.user_id d) loc.
Proof.
  intros Hd Hl Hcount Hin Hon Hs0 Hu0 Hgood.
  rewrite (findNearbyDrivers_readable calculateDistance db f clock
             pickupLat pickupLng vehicleType radiusKm Hd Hl).
  cbv zeta.
  set (latest := DriverApi.latestLocations _).
  assert (Hget : exists loc, UserMap.get latest (Driver.user_id d) = Some loc).
  { destruct (DriverApi_latest_newest
                (limit 100 (order_desc LiveLocation.updated_at
                              (filter (tracked db) (live_locations db))))
                s0) as [v [Hv _]].
    - unfold limit. rewrite firstn_all2.
      + apply order_desc_In, filter_In. split; [exact Hs0|].
        apply (tracked_of_driver db d); assumption.
      + unfold order_desc. rewrite sort_length. exact Hcount.
    - exists v. rewrite <- Hu0. exact Hv. }
  destruct Hget as [loc Hget].
  assert (Hrecent : most_recent_sample db (Driver.user_id d) loc)
    by (apply DriverApi_latest_is_most_recent; assumption).
  destruct (Hgood loc Hrecent) as [Hfresh Hnear].
  exists (DriverApi.mkNearby d (UserMap.get latest (Driver.user_id d))).
  split; [|split; [reflexivity|]].
  - apply in_map_iff. exists d. split; [reflexivity|].
    apply filterAt_complete.
    + intros j. unfold DriverApi.withinReach. rewrite Hget.
      specialize (Hfresh j). unfold age_at in Hfresh.
      apply Z.ltb_ge in Hfresh. rewrite Hfresh.
      apply Qle_bool_iff. exact Hnear.
    + apply filter_In. split; assumption.
  - exists loc. split; [exact Hget | exact Hrecent].
Qed.

Lemma eligible_driver_is_found_witness :
  exists nd,
    In nd (DriverApi.findNearbyDrivers gridDistance Fixture.mismatch
             no_faults Fixture.clock Fixture.pickup_lat Fixture.pickup_lng
             "sedan" 15)
    /\ DriverApi.driver nd = Fixture.driver "drv-h" "usr-h" "hatchback".
Proof.
  destruct (eligible_driver_is_found gridDistance Fixture.mismatch no_faults
              Fixture.clock Fixture.pickup_lat Fixture.pickup_lng "sedan" 15
              (Fixture.driver "drv-h" "usr-h" "hatchback")
              (Fixture.sample_at_pickup "usr-h" 1))
    as [nd [Hin [Hd _]]].
  - reflexivity.
  - reflexivity.
  - simpl. lia.
  - left. reflexivity.
  - reflexivity.
  - left. reflexivity.
  - reflexivity.
  - intros loc [[<-|[]] _]. split.
    + intros i. vm_compute. discriminate.
    + vm_compute. discriminate.
  - exists nd. split; assumption.
Defined.

(** Whom the search loses. [findNearbyDrivers] reads only the hundred
    most recent samples of on-duty drivers: a driver is not found, however
    near and however recent the driver's samples are, when a hundred or
    more samples of on-duty drivers are newer than all of them. *)
Theorem hundred_newer_samples_hide_driver
        (calculateDistance : Q -> Q -> Q -> Q -> Q)
        (db : Db) (f : Faults) (clock : nat -> Z)
        (pickupLat pickupLng : Q) (vehicleType : string) (radiusKm : Q)
        (u : string) (t : Z) :
  (forall s, In s (live_locations db) -> LiveLocation.user_id s = u ->
             (LiveLocation.updated_at s <= t)%Z) ->
  (100 <= List.length (tracked_newer_than db t))%nat ->
  Forall (fun nd => Driver.user_id (DriverApi.driver nd) <> u)
         (DriverApi.findNearbyDrivers calculateDistance db f clock
            pickupLat pickupLng vehicleType radiusKm).
Proof.
  intros Hold Hmany.
  destruct (select_error f "drivers") as [e|] eqn:Hd;
    [rewrite findNearbyDrivers_unreadable;
       [constructor | left; rewrite Hd; discriminate]|].
  destruct (select_error f "live_locations") as [e|] eqn:Hl;
    [rewrite findNearbyDrivers_unreadable;
       [constructor | right; rewrite Hl; discriminate]|].
  rewrite (findNearbyDrivers_readable calculateDistance db f clock
             pickupLat pickupLng vehicleType radiusKm Hd Hl).
  cbv zeta. apply Forall_forall. intros nd Hin.
  apply in_map_iff in Hin. destruct Hin as [d [<- Hin]].
  apply filterAt_In in Hin. destruct Hin as [j [_ Hreach]].
  cbn [DriverApi.driver]. intros Hu.
  unfold DriverApi.withinReach in Hreach.
  destruct (UserMap.get _ (Driver.user_id d)) as [loc|] eqn:Hget;
    [|discriminate].
  clear Hreach.
  destruct (DriverApi_latest_from_rows _ _ _ Hget) as [Hloc Hlu].
  set (L := order_desc LiveLocation.updated_at
              (filter (tracked db) (live_locations db))) in *.
  set (newer := fun l : LiveLocation.t => Z.ltb t (LiveLocation.updated_at l)).
  assert (Hloc_old : newer loc = false).
  { apply Z.ltb_ge. apply Hold; [|congruence].
    apply limit_In, order_desc_In, filter_In in Hloc. tauto. }
  assert (Hcount : List.length (filter newer L)
                   = List.length (tracked_newer_than db t)).
  { unfold L, order_desc, tracked_newer_than.
    rewrite sort_filter_length, filter_andb. reflexivity. }
  assert (Hrest : filter newer (skipn 100 L) = []).
  { apply filter_none. intros b Hb. apply Z.ltb_ge.
    assert (Hle : Z.leb (LiveLocation.updated_at b)
                        (LiveLocation.updated_at loc) = true).
    { apply (sorted_prefix
               (fun a b => Z.leb (LiveLocation.updated_at b)
                                 (LiveLocation.updated_at a) = true)
               L 100 loc b);
        [|exact Hloc | exact Hb].
      apply (sort_sorted _ (desc_total LiveLocation.updated_at)
                         (desc_trans LiveLocation.updated_at)). }
    apply Z.leb_le in Hle. apply Z.ltb_ge in Hloc_old. lia. }
  assert (Hfirst : (List.length (filter newer (firstn 100 L)) < 100)%nat).
  { pose proof (filter_misses_one newer loc (firstn 100 L) Hloc Hloc_old).
    pose proof (firstn_le_length 100 L). lia. }
  rewrite <- (firstn_skipn 100 L), filter_app, Hrest, app_nil_r in Hcount.
  lia.
Qed.

Lemma hundred_newer_samples_hide_driver_witness :
  Forall (fun nd => Driver.user_id (DriverApi.driver nd) <> "usr-b")
         (DriverApi.findNearbyDrivers gridDistance Fixture2.crowded
            no_faults Fixture.clock Fixture.pickup_lat Fixture.pickup_lng
            "sedan" 15).
Proof.
  apply (hundred_newer_samples_hide_driver gridDistance Fixture2.crowded
           no_faults Fixture.clock Fixture.pickup_lat Fixture.pickup_lng
           "sedan" 15 "usr-b" (Fixture.now - Fixture.minutes 5)%Z).
  - assert (H : forallb
                  (fun s => negb (String.eqb (LiveLocation.user_id s) "usr-b")
                            || Z.leb (LiveLocation.updated_at s)
                                     (Fixture.now - Fixture.minutes 5))
                  (live_locations Fixture2.crowded) = true)
      by (vm_compute; reflexivity).
    intros s Hs Hu. rewrite forallb_forall in H. specialize (H s Hs).
    rewrite Hu in H. simpl in H. apply Z.leb_le. exact H.
  - apply Nat.leb_le. vm_compute. reflexivity.
Defined.

(** A failed read looks like an empty street. For a ride that waits
    for a driver, when the drivers or their locations cannot be read,
    [handleNotifyDrivers] still answers 200 with the message 'No
    drivers available', and closes the ride as 'no_drivers_available'
    when the rides table can be updated. *)
Theorem unreadable_tables_close_ride
        (calculateDistance : Q -> Q -> Q -> Q -> Q)
        (db : Db) (f : Faults) (clock : nat -> Z) (rid : string)
        (ride : Ride.t) :
  awaits_dispatch db f rid ride ->
  select_error f "drivers" <> None \/ select_error f "live_locations" <> None ->
  let out :=
    DriverApi.handleNotifyDrivers calculateDistance db f clock (Some rid) in
  fst out
  = DriverApi.mkResponse 200 (Some true) (Some "No drivers available")
      None None None None
  /\ (update_error f "rides" = None ->
      rides (snd out) = closed_unserved rid (rides db)).
Proof.
  intros Hw Hread out. unfold out.
  rewrite (handleNotifyDrivers_requested calculateDistance db f clock rid
             ride Hw).
  rewrite (findNearbyDrivers_unreadable calculateDistance db f clock _ _ _ _
             Hread).
  destruct Hw as [_ [Hsingle _]].
  apply single_select_id in Hsingle. destruct Hsingle as [_ Hid].
  split; [reflexivity|]. intros Hupd. cbn [snd].
  unfold DriverApi.markNoDriversAvailable, update_rows, closed_unserved.
  rewrite Hupd, Hid. reflexivity.
Qed.

Lemma unreadable_tables_close_ride_witness :
  rides (snd (DriverApi.handleNotifyDrivers gridDistance Fixture.tie
                Fixture2.locations_unreadable Fixture.clock (Some "ride-1")))
  = [Fixture.ride "ride-1" "no_drivers_available" None "regular" "sedan"].
Proof.
  assert (Hw : awaits_dispatch Fixture.tie Fixture2.locations_unreadable
                 "ride-1"
                 (Fixture.ride "ride-1" "requested" None "regular" "sedan"))
    by (split; [discriminate | split; reflexivity]).
  assert (Hread : select_error Fixture2.locations_unreadable "drivers" <> None
                  \/ select_error Fixture2.locations_unreadable
                                  "live_locations" <> None)
    by (right; discriminate).
  apply (proj2 (unreadable_tables_close_ride gridDistance Fixture.tie
                  Fixture2.locations_unreadable Fixture.clock "ride-1"
                  (Fixture.ride "ride-1" "requested" None "regular" "sedan")
                  Hw Hread)).
  reflexivity.
Defined.

(** ** Accepting and finishing a ride *)

(** A 200 answer of [handleAcceptRide], spelled out. *)
Lemma handleAcceptRide_accepted_inv (db : Db) (f : Faults)
      (rid did : option string) :
  DriverApi.http_status (fst (DriverApi.handleAcceptRide db f rid did)) = 200%Z ->
  exists rid' did' r,
    rid = Some rid' /\ did = Some did'
    /\ nonEmpty rid' = true /\ nonEmpty did' = true
    /\ update_error f "rides" = None
    /\ filter (DriverApi.claimable rid') (rides db) = [r]
    /\ DriverApi.handleAcceptRide db f rid did
       = (DriverApi.accepted (assign_driver did' r),
          DriverApi.markDriverBusy
            (with_rides db (claimedBy rid' did' (rides db))) f did').
Proof.
  unfold DriverApi.handleAcceptRide.
  destruct rid as [rid'|]; [|simpl; discriminate].
  destruct did as [did'|]; [|simpl; discriminate].
  destruct (nonEmpty rid') eqn:Hr; [|simpl; discriminate].
  destruct (nonEmpty did') eqn:Hd; [|simpl; discriminate].
  cbn [andb].
  unfold DriverApi.acceptRideUpdate, update_single.
  destruct (update_error f "rides") as [e|] eqn:Hf; [simpl; discriminate|].
  destruct (filter (DriverApi.claimable rid') (rides db)) as [|r [|r' t]]
    eqn:Hrows; simpl; try discriminate.
  intros _. exists rid', did', r.
  repeat split; try assumption; reflexivity.
Qed.

Lemma claimedBy_keeps_id (rid d : string) (p : string) (rows : list Ride.t) :
  filter (fun x => String.eqb (Ride.id x) p) (claimedBy rid d rows)
  = claimedBy rid d (filter (fun x => String.eqb (Ride.id x) p) rows).
Proof.
  unfold claimedBy. induction rows as [|x t IH]; simpl; [reflexivity|].
  assert (Hid : Ride.id (if DriverApi.claimable rid x
                         then assign_driver d x else x) = Ride.id x)
    by (destruct (DriverApi.claimable rid x); reflexivity).
  rewrite Hid. destruct (String.eqb (Ride.id x) p); simpl; rewrite IH;
    reflexivity.
Qed.

Lemma claimable_id (rid : string) (r : Ride.t) :
  DriverApi.claimable rid r = true ->
  Ride.id r = rid /\ Ride.status r = "requested" /\ Ride.driver_id r = None.
Proof.
  unfold DriverApi.claimable. intros H.
  apply andb_prop in H. destruct H as [H Hd].
  apply andb_prop in H. destruct H as [Hi Hs].
  apply String.eqb_eq in Hi. apply String.eqb_eq in Hs.
  destruct (Ride.driver_id r); [discriminate|]. repeat split; assumption.
Qed.

(** A ride of id [rid] in the table that an accept has left, of which
    the request for a single row finds one, is the accepted ride. *)
Lemma claimedBy_single (rid d : string) (rows : list Ride.t) (r x : Ride.t) :
  filter (DriverApi.claimable rid) rows = [r] ->
  filter (fun y => String.eqb (Ride.id y) rid) (claimedBy rid d rows) = [x] ->
  x = assign_driver d r.
Proof.
  intros Hr Hx.
  assert (Hin : In (assign_driver d r)
                   (filter (fun y => String.eqb (Ride.id y) rid)
                           (claimedBy rid d rows))).
  { assert (Hrin : In r (filter (DriverApi.claimable rid) rows))
      by (rewrite Hr; left; reflexivity).
    apply filter_In in Hrin. destruct Hrin as [Hrin Hc].
    apply filter_In. split.
    - unfold claimedBy. apply in_map_iff. exists r. rewrite Hc.
      split; [reflexivity | exact Hrin].
    - simpl. apply String.eqb_eq. apply (claimable_id rid r Hc). }
  rewrite Hx in Hin. destruct Hin as [<-|[]]. reflexivity.
Qed.

Lemma driver_status_set_twice (did s s' : string) (rows : list Driver.t) :
  driver_status_set did s' (driver_status_set did s rows)
  = driver_status_set did s' rows.
Proof.
  unfold driver_status_set. rewrite map_map. apply map_ext. intros d.
  destruct (String.eqb (Driver.id d) did) eqn:E; simpl; rewrite E;
    reflexivity.
Qed.

Lemma driver_status_set_same (did s : string) (rows : list Driver.t) :
  (forall d, In d rows -> Driver.id d = did -> Driver.status d = s) ->
  driver_status_set did s rows = rows.
Proof.
  unfold driver_status_set. intros H.
  induction rows as [|d t IH]; simpl; [reflexivity|].
  rewrite IH by (intros d' Hd'; apply H; right; exact Hd').
  destruct (String.eqb (Driver.id d) did) eqn:E; [|reflexivity].
  apply String.eqb_eq in E.
  rewrite <- (H d (or_introl eq_refl) E). destruct d; reflexivity.
Qed.

(** From request to completion. A ride of unique id that waits for a
    driver is given to the driver who accepts it, and that driver
    becomes 'busy'; when the ride is then reported 'completed' with the
    driver's id, it is stored as completed, still assigned to that
    driver, and the driver is 'online' again: the drivers table is back
    to what it was when the driver was online before. *)
Theorem accept_then_complete_frees_driver
        (db : Db) (f : Faults) (rid did : string) (r : Ride.t) :
  nonEmpty rid = true -> nonEmpty did = true ->
  update_error f "rides" = None -> update_error f "drivers" = None ->
  only_ride db rid r ->
  Ride.status r = "requested" -> Ride.driver_id r = None ->
  let a := DriverApi.handleAcceptRide db f (Some rid) (Some did) in
  let c :=
    DriverApi.handleUpdateRideStatus (snd a) f (Some rid) (Some "completed")
      (Some did) in
  fst a = DriverApi.accepted (assign_driver did r)
  /\ drivers (snd a) = driver_status_set did "busy" (drivers db)
  /\ DriverApi.http_status (fst c) = 200%Z
  /\ DriverApi.ride (fst c)
     = Some (set_ride_status "completed" (assign_driver did r))
  /\ only_ride (snd c) rid
       (set_ride_status "completed" (assign_driver did r))
  /\ drivers (snd c) = driver_status_set did "online" (drivers db)
  /\ ((forall d, In d (drivers db) -> Driver.id d = did ->
                 Driver.status d = "online") ->
      drivers (snd c) = drivers db).
Proof.
  intros Hr Hd Hfr Hfd Hone Hst Hdr a c.
  assert (Hid : Ride.id r = rid).
  { assert (Hin : In r (filter (fun x => String.eqb (Ride.id x) rid)
                          (rides db)))
      by (rewrite Hone; left; reflexivity).
    apply filter_In in Hin. apply String.eqb_eq. tauto. }
  assert (Hclaim : filter (DriverApi.claimable rid) (rides db) = [r]).
  { rewrite <- Hid. apply claimable_only; [rewrite Hid; exact Hone | | ];
      assumption. }
  assert (Ha : a = (DriverApi.accepted (assign_driver did r),
                    DriverApi.markDriverBusy
                      (with_rides db (claimedBy rid did (rides db))) f did)).
  { unfold a, DriverApi.handleAcceptRide. rewrite Hr, Hd. cbn [andb].
    rewrite (acceptRideUpdate_claims db f rid did r Hfr Hclaim).
    reflexivity. }
  assert (Hda : drivers (snd a) = driver_status_set did "busy" (drivers db)).
  { rewrite Ha. cbn [snd]. unfold DriverApi.markDriverBusy, update_rows.
    rewrite Hfd. reflexivity. }
  assert (Hra : filter (fun x => String.eqb (Ride.id x) rid) (rides (snd a))
                = [assign_driver did r]).
  { rewrite Ha. cbn [snd]. unfold DriverApi.markDriverBusy.
    cbn [rides with_drivers with_rides].
    rewrite claimedBy_keeps_id. unfold only_ride in Hone. rewrite Hone.
    unfold claimedBy. simpl.
    assert (Hc : DriverApi.claimable rid r = true).
    { unfold DriverApi.claimable. rewrite Hid, Hst, Hdr, String.eqb_refl.
      reflexivity. }
    rewrite Hc. reflexivity. }
  assert (Hc : c = (DriverApi.mkResponse 200 (Some true) None None None None
                      (Some (set_ride_status "completed"
                               (assign_driver did r))),
                    with_drivers
                      (with_rides (snd a)
                         (map (fun x => if String.eqb (Ride.id x) rid
                                        then set_ride_status "completed" x
                                        else x)
                              (rides (snd a))))
                      (driver_status_set did "online" (drivers (snd a))))).
  { unfold c, DriverApi.handleUpdateRideStatus, DriverApi.is_truthy.
    rewrite Hr. cbn [nonEmpty andb].
    unfold update_single. rewrite Hfr, Hra. simpl.
    rewrite Hd. unfold update_rows. rewrite Hfd. reflexivity. }
  split; [rewrite Ha; reflexivity|].
  split; [exact Hda|].
  rewrite Hc. cbn [fst snd DriverApi.http_status DriverApi.ride].
  split; [reflexivity|]. split; [reflexivity|].
  assert (Hfinal : drivers
                     (with_drivers
                        (with_rides (snd a)
                           (map (fun x => if String.eqb (Ride.id x) rid
                                          then set_ride_status "completed" x
                                          else x)
                                (rides (snd a))))
                        (driver_status_set did "online" (drivers (snd a))))
                   = driver_status_set did "online" (drivers db)).
  { cbn [drivers with_drivers]. rewrite Hda.
    apply driver_status_set_twice. }
  split; [|split; [exact Hfinal|]].
  - unfold only_ride. cbn [rides with_drivers with_rides].
    assert (G : forall rows,
               filter (fun x => String.eqb (Ride.id x) rid)
                      (map (fun x => if String.eqb (Ride.id x) rid
                                     then set_ride_status "completed" x
                                     else x) rows)
               = map (set_ride_status "completed")
                     (filter (fun x => String.eqb (Ride.id x) rid) rows)).
    { induction rows as [|x t IH]; simpl; [reflexivity|].
      destruct (String.eqb (Ride.id x) rid) eqn:E; simpl; rewrite E, IH;
        reflexivity. }
    rewrite G, Hra. reflexivity.
  - intros Hon. rewrite Hfinal. apply driver_status_set_same. exact Hon.
Qed.

Lemma accept_then_complete_frees_driver_witness :
  let a :=
    DriverApi.handleAcceptRide Fixture.contested no_faults
      (Some "ride-1") (Some "drv-a") in
  let c :=
    DriverApi.handleUpdateRideStatus (snd a) no_faults (Some "ride-1")
      (Some "completed") (Some "drv-a") in
  drivers (snd a)
  = [Driver.mk "drv-a" "usr-a" "busy" true (Some (Vehicle.mk "sedan"));
     Fixture.driver "drv-b" "usr-b" "sedan"]
  /\ drivers (snd c) = drivers Fixture.contested.
Proof.
  destruct (accept_then_complete_frees_driver Fixture.contested no_faults
              "ride-1" "drv-a"
              (Fixture.ride "ride-1" "requested" None "regular" "sedan")
              eq_refl eq_refl eq_refl eq_refl eq_refl eq_refl eq_refl)
    as [_ [Hbusy [_ [_ [_ [_ Hback]]]]]].
  split; [exact Hbusy|].
  apply Hback. intros d [<-|[<-|[]]]; intros Hid; [reflexivity|].
  discriminate.
Defined.

(** A status report needs its ride. With a ride id and a status in the
    request, [handleUpdateRideStatus] answers 200 exactly when the
    rides table can be updated and holds exactly one ride of that id;
    otherwise it answers 500 'Failed to update ride status' and writes
    nothing: no ride changes, and the driver named in the request is
    not set 'online'. *)
Theorem update_status_needs_one_ride
        (db : Db) (f : Faults) (rid st : string) (did : option string) :
  nonEmpty rid = true -> nonEmpty st = true ->
  let out :=
    DriverApi.handleUpdateRideStatus db f (Some rid) (Some st) did in
  (DriverApi.http_status (fst out) = 200%Z
   <-> update_error f "rides" = None /\ exists r, only_ride db rid r)
  /\ (DriverApi.http_status (fst out) <> 200%Z ->
      out = (DriverApi.mkResponse 500 None None
               (Some "Failed to update ride status") None None None,
             db)).
Proof.
  intros Hr Hs out. unfold out, DriverApi.handleUpdateRideStatus,
    DriverApi.is_truthy, only_ride.
  rewrite Hr, Hs. cbn [andb]. unfold update_single.
  destruct (update_error f "rides") as [e|]; simpl.
  - rewrite with_rides_same. split; [|intros _; reflexivity].
    split; [discriminate | intros [H _]; discriminate].
  - destruct (filter (fun r => String.eqb (Ride.id r) rid) (rides db))
      as [|r [|r' t]]; simpl.
    + rewrite with_rides_same. split; [|intros _; reflexivity].
      split; [discriminate | intros [_ [x H]]; discriminate].
    + split; [|intros H; exfalso; apply H; reflexivity].
      split; [intros _; split; [reflexivity | exists r; reflexivity]
             | intros _; reflexivity].
    + rewrite with_rides_same. split; [|intros _; reflexivity].
      split; [discriminate | intros [_ [x H]]; discriminate].
Qed.

Lemma update_status_needs_one_ride_witness :
  DriverApi.handleUpdateRideStatus Fixture.claimed no_faults
    (Some "ride-9") (Some "completed") (Some "drv-b")
  = (DriverApi.mkResponse 500 None None
       (Some "Failed to update ride status") None None None,
     Fixture.claimed).
Proof.
  apply (proj2 (update_status_needs_one_ride Fixture.claimed no_faults
                  "ride-9" "completed" (Some "drv-b") eq_refl eq_refl)).
  vm_compute. discriminate.
Defined.

Lemma claimedBy_not_pending (rid d : string) (rows : list Ride.t)
      (x : Ride.t) :
  In x (claimedBy rid d rows) -> Ride.id x = rid ->
  DriverApi.pendingRide x = false.
Proof.
  unfold claimedBy. intros Hin Hid.
  apply in_map_iff in Hin. destruct Hin as [y [Hx Hy]].
  destruct (DriverApi.claimable rid y) eqn:Hc.
  - subst x. reflexivity.
  - subst x. unfold DriverApi.claimable in Hc. rewrite Hid in Hc.
    rewrite String.eqb_refl in Hc. simpl in Hc.
    unfold DriverApi.pendingRide.
    destruct (String.eqb (Ride.status y) "requested"); [|reflexivity].
    simpl in *. rewrite Hc. apply andb_false_r.
Qed.

Lemma StronglySorted_filter {A : Type} (R : A -> A -> Prop) (p : A -> bool)
      (l : list A) :
  StronglySorted R l -> StronglySorted R (filter p l).
Proof.
  induction 1 as [|x t St IH Hall]; simpl; [constructor|].
  destruct (p x); [|exact IH].
  constructor; [exact IH|].
  rewrite Forall_forall in *. intros y Hy. apply filter_In in Hy.
  apply Hall. tauto.
Qed.

Lemma asc_total {A : Type} (key : A -> Z) (a b : A) :
  Z.leb (key a) (key b) = true \/ Z.leb (key b) (key a) = true.
Proof.
  destruct (Z.le_ge_cases (key a) (key b)); [left | right];
    apply Z.leb_le; lia.
Qed.

Lemma asc_trans {A : Type} (key : A -> Z) (a b c : A) :
  Z.leb (key a) (key b) = true -> Z.leb (key b) (key c) = true ->
  Z.leb (key a) (key c) = true.
Proof. rewrite !Z.leb_le. lia. Qed.

(** A 200 answer of [handleGetNearbyRides], spelled out. *)
Lemma handleGetNearbyRides_inv
      (calculateDistance : Q -> Q -> Q -> Q -> Q) (created_at : Ride.t -> Z)
      (db : Db) (f : Faults) (u : option string) (lat lng : option Q) :
  RidesReply_status
    (DriverApi.handleGetNearbyRides calculateDistance created_at db f u
       lat lng) = 200%Z ->
  exists la lo,
    DriverApi.queryNumber lat = Some la
    /\ DriverApi.queryNumber lng = Some lo
    /\ DriverApi.is_truthy u = true
    /\ select_error f "rides" = None
    /\ DriverApi.handleGetNearbyRides calculateDistance created_at db f u
         lat lng
       = nearby_rides_answer
           (filter (fun ride =>
                      Qle_bool (calculateDistance la lo
                                  (Ride.pickup_latitude ride)
                                  (Ride.pickup_longitude ride)) 10)
                   (order_asc created_at
                      (filter DriverApi.pendingRide (rides db)))).
Proof.
  unfold DriverApi.handleGetNearbyRides, RidesReply_status,
    nearby_rides_answer.
  destruct (DriverApi.is_truthy u); [|simpl; discriminate].
  destruct (DriverApi.queryNumber lat) as [la|]; [|simpl; discriminate].
  destruct (DriverApi.queryNumber lng) as [lo|]; [|simpl; discriminate].
  unfold select.
  destruct (select_error f "rides") as [e|]; simpl; [discriminate|].
  intros _. exists la, lo. repeat split; reflexivity.
Qed.

Lemma pendingRide_iff (r : Ride.t) :
  DriverApi.pendingRide r = true
  <-> Ride.status r = "requested" /\ Ride.booking_type r = "regular"
      /\ Ride.driver_id r = None.
Proof.
  unfold DriverApi.pendingRide. rewrite !andb_true_iff, !String.eqb_eq.
  destruct (Ride.driver_id r); split; intros H; try tauto.
  - destruct H as [_ H]; discriminate.
  - destruct H as [_ [_ H]]; discriminate.
Qed.

(** Which rides a driver is offered. A 200 answer of
    [handleGetNearbyRides] lists exactly the rides of the store that
    are 'requested', of booking type 'regular', without a driver, and
    whose pickup point is within ten kilometres of the position in the
    request; it lists them by [created_at], oldest first, and [count]
    is their number. *)
Theorem nearby_rides_characterised
        (calculateDistance : Q -> Q -> Q -> Q -> Q) (created_at : Ride.t -> Z)
        (db : Db) (f : Faults) (u : option string) (lat lng : option Q) :
  let out :=
    DriverApi.handleGetNearbyRides calculateDistance created_at db f u
      lat lng in
  RidesReply_status out = 200%Z ->
  exists la lo,
    DriverApi.queryNumber lat = Some la
    /\ DriverApi.queryNumber lng = Some lo
    /\ DriverApi.RidesReply.rides out = Some (offered out)
    /\ DriverApi.RidesReply.count out = Some (List.length (offered out))
    /\ (forall r, In r (offered out)
                  <-> pending_near calculateDistance la lo db r)
    /\ StronglySorted (fun a b => (created_at a <= created_at b)%Z)
                      (offered out).
Proof.
  intros out H200.
  destruct (handleGetNearbyRides_inv calculateDistance created_at db f u
              lat lng H200) as [la [lo [Hla [Hlo [_ [_ Hout]]]]]].
  exists la, lo. unfold out. rewrite Hout.
  unfold offered, nearby_rides_answer. cbn.
  split; [exact Hla|]. split; [exact Hlo|].
  split; [reflexivity|]. split; [reflexivity|]. split.
  - intros r. unfold pending_near, order_asc.
    rewrite filter_In, sort_In, filter_In, pendingRide_iff, Qle_bool_iff.
    tauto.
  - apply StronglySorted_filter.
    pose proof (sort_sorted (fun a b => Z.leb (created_at a) (created_at b))
                  (asc_total created_at) (asc_trans created_at)
                  (filter DriverApi.pendingRide (rides db))) as S.
    unfold order_asc.
    induction S as [|x t St IH Hall]; constructor; [exact IH|].
    rewrite Forall_forall in *. intros y Hy. apply Z.leb_le, Hall, Hy.
Qed.

Lemma nearby_rides_characterised_witness :
  offered (DriverApi.handleGetNearbyRides gridDistance Fixture2.created_at
             Fixture.tie no_faults (Some "usr-a")
             (Some Fixture.pickup_lat) (Some Fixture.pickup_lng))
  = [Fixture.ride "ride-1" "requested" None "regular" "sedan"]
  /\ exists la lo,
       forall r,
         In r (offered
                 (DriverApi.handleGetNearbyRides gridDistance
                    Fixture2.created_at Fixture.tie no_faults (Some "usr-a")
                    (Some Fixture.pickup_lat) (Some Fixture.pickup_lng)))
         <-> pending_near gridDistance la lo Fixture.tie r.
Proof.
  split; [reflexivity|].
  destruct (nearby_rides_characterised gridDistance Fixture2.created_at
              Fixture.tie no_faults (Some "usr-a")
              (Some Fixture.pickup_lat) (Some Fixture.pickup_lng) eq_refl)
    as [la [lo [_ [_ [_ [_ [H _]]]]]]].
  exists la, lo. exact H.
Defined.

(** An accepted ride leaves the pool. After [handleAcceptRide] has
    answered 200 for a ride, [handleGetNearbyRides] no longer offers
    that ride to any driver, and [handleNotifyDrivers] for that ride
    notifies nobody and leaves the store as it is. *)
Theorem accepted_ride_leaves_the_pool
        (calculateDistance : Q -> Q -> Q -> Q -> Q) (created_at : Ride.t -> Z)
        (db : Db) (f : Faults) (rid did : option string)
        (clock : nat -> Z) (u : option string) (lat lng : option Q) :
  let a := DriverApi.handleAcceptRide db f rid did in
  DriverApi.http_status (fst a) = 200%Z ->
  Forall (fun x => Some (Ride.id x) <> rid)
         (offered (DriverApi.handleGetNearbyRides calculateDistance
                     created_at (snd a) f u lat lng))
  /\ snd (DriverApi.handleNotifyDrivers calculateDistance (snd a) f clock rid)
     = snd a
  /\ DriverApi.notifications_sent
       (fst (DriverApi.handleNotifyDrivers calculateDistance (snd a) f clock
               rid)) = None.
Proof.
  intros a H200.
  destruct (handleAcceptRide_accepted_inv db f rid did H200)
    as [rid' [did' [r [-> [-> [Hr [Hd [Hf [Hrows Ha]]]]]]]]].
  unfold a. rewrite Ha. cbn [snd].
  set (db1 := DriverApi.markDriverBusy _ f did').
  assert (Hrides : rides db1 = claimedBy rid' did' (rides db)) by reflexivity.
  split.
  - apply Forall_forall. intros x Hx [= Hid].
    unfold offered, DriverApi.handleGetNearbyRides in Hx.
    destruct (DriverApi.is_truthy u); [|contradiction].
    destruct (DriverApi.queryNumber lat); [|contradiction].
    destruct (DriverApi.queryNumber lng); [|contradiction].
    unfold select in Hx.
    destruct (select_error f "rides"); [contradiction|].
    cbn in Hx. apply filter_In in Hx. destruct Hx as [Hx _].
    unfold order_asc in Hx. apply sort_In, filter_In in Hx.
    destruct Hx as [Hx Hp].
    rewrite (claimedBy_not_pending rid' did' (rides db) x Hx Hid) in Hp.
    discriminate.
  - unfold DriverApi.handleNotifyDrivers.
    destruct rid' as [|c s]; [discriminate|].
    destruct (single (select f "rides" (rides db1) _)) as [[x|] [e|]]
      eqn:Hsingle; cbn [error data]; try (split; reflexivity).
    assert (Hx : x = assign_driver did' r).
    { apply (claimedBy_single (String c s) did' (rides db) r x Hrows).
      rewrite <- Hrides.
      apply (single_select_inv f "rides" (rides db1) _ x);
        rewrite Hsingle; reflexivity. }
    rewrite Hx. split; reflexivity.
Qed.

Lemma accepted_ride_leaves_the_pool_witness :
  let a :=
    DriverApi.handleAcceptRide Fixture.tie no_faults
      (Some "ride-1") (Some "drv-a") in
  offered (DriverApi.handleGetNearbyRides gridDistance Fixture2.created_at
             (snd a) no_faults (Some "usr-b")
             (Some Fixture.pickup_lat) (Some Fixture.pickup_lng)) = []
  /\ Forall (fun x => Some (Ride.id x) <> Some "ride-1")
            (offered (DriverApi.handleGetNearbyRides gridDistance
                        Fixture2.created_at (snd a) no_faults (Some "usr-b")
                        (Some Fixture.pickup_lat) (Some Fixture.pickup_lng)))
  /\ snd (DriverApi.handleNotifyDrivers gridDistance (snd a) no_faults
            Fixture.clock (Some "ride-1")) = snd a.
Proof.
  split; [reflexivity|].
  destruct (accepted_ride_leaves_the_pool gridDistance Fixture2.created_at
              Fixture.tie no_faults (Some "ride-1") (Some "drv-a")
              Fixture.clock (Some "usr-b")
              (Some Fixture.pickup_lat) (Some Fixture.pickup_lng) eq_refl)
    as [Hoffer [Hstore _]].
  split; [exact Hoffer | exact Hstore].
Defined.

(** A position on the equator or on the prime meridian counts as
    missing. Both [handleGetNearbyRides] and [handleFindNearbyDrivers]
    test their coordinates for truthiness, so a request whose latitude
    or longitude is the number zero is answered 400, as if the
    coordinate were absent. *)
Theorem zero_coordinate_is_rejected
        (calculateDistance : Q -> Q -> Q -> Q -> Q) (created_at : Ride.t -> Z)
        (db : Db) (f : Faults) (now : Z) (u : option string)
        (lat lng : Q) (vehicle : option string) (radius : option Q) :
  lat == 0 \/ lng == 0 ->
  RidesReply_status
    (DriverApi.handleGetNearbyRides calculateDistance created_at db f u
       (Some lat) (Some lng)) = 400%Z
  /\ FindNearbyDrivers.http_status
       (FindNearbyDrivers.handleFindNearbyDrivers calculateDistance db f now
          (FindNearbyDrivers.mkBody (Some lat) (Some lng) vehicle radius))
     = 400%Z.
Proof.
  intros H.
  unfold RidesReply_status, DriverApi.handleGetNearbyRides,
    FindNearbyDrivers.handleFindNearbyDrivers, DriverApi.queryNumber,
    FindNearbyDrivers.coordinate.
  cbn [FindNearbyDrivers.pickup_latitude FindNearbyDrivers.pickup_longitude].
  destruct H as [H|H]; apply Qeq_bool_iff in H; rewrite H.
  - split; [destruct (DriverApi.is_truthy u)|]; reflexivity.
  - split.
    + destruct (DriverApi.is_truthy u); [|reflexivity].
      destruct (Qeq_bool lat 0); reflexivity.
    + destruct (Qeq_bool lat 0); reflexivity.
Qed.

Lemma zero_coordinate_is_rejected_witness :
  RidesReply_status
    (DriverApi.handleGetNearbyRides gridDistance Fixture2.created_at
       Fixture.tie no_faults (Some "usr-a") (Some 0) (Some Fixture.pickup_lng))
  = 400%Z
  /\ FindNearbyDrivers.http_status
       (FindNearbyDrivers.handleFindNearbyDrivers gridDistance Fixture.tie
          no_faults Fixture.now
          (FindNearbyDrivers.mkBody (Some 0) (Some Fixture.pickup_lng)
             (Some "sedan") (Some 10)))
     = 400%Z.
Proof.
  apply (zero_coordinate_is_rejected gridDistance Fixture2.created_at
           Fixture.tie no_faults Fixture.now (Some "usr-a")
           0 Fixture.pickup_lng (Some "sedan") (Some 10)).
  left. reflexivity.
Defined.

(** * Further properties of the search endpoint *)

Lemma keepFirst_get (m : UserMap.t LiveLocation.t) (loc : LiveLocation.t)
      (k : string) :
  UserMap.get (keepFirst m loc) k
  = match UserMap.get m k with
    | Some v => Some v
    | None => if String.eqb (LiveLocation.user_id loc) k
              then Some loc else None
    end.
Proof.
  unfold keepFirst, UserMap.has.
  destruct (UserMap.get m (LiveLocation.user_id loc)) as [ex|] eqn:G;
    cbn [negb].
  - destruct (UserMap.get m k) as [v|] eqn:Gk; [reflexivity|].
    destruct (String.eqb (LiveLocation.user_id loc) k) eqn:E; [|reflexivity].
    apply String.eqb_eq in E. congruence.
  - rewrite UserMap_get_set.
    destruct (String.eqb k (LiveLocation.user_id loc)) eqn:E.
    + apply String.eqb_eq in E. subst k. rewrite G, String.eqb_refl.
      reflexivity.
    + rewrite String.eqb_sym, E. destruct (UserMap.get m k); reflexivity.
Qed.

(** The entry of a user in the map of the search endpoint is the first
    row of that user. *)
Lemma keepFirst_find (rows : list LiveLocation.t)
      (m : UserMap.t LiveLocation.t) (k : string) :
  UserMap.get (fold_left keepFirst rows m) k
  = match UserMap.get m k with
    | Some v => Some v
    | None => find (fun l => String.eqb (LiveLocation.user_id l) k) rows
    end.
Proof.
  revert m. induction rows as [|loc rest IH]; intros m; simpl.
  - destruct (UserMap.get m k); reflexivity.
  - rewrite IH, keepFirst_get.
    destruct (UserMap.get m k); [reflexivity|].
    destruct (String.eqb (LiveLocation.user_id loc) k); reflexivity.
Qed.

Lemma FindNearby_latest_find (rows : list LiveLocation.t) (k : string) :
  UserMap.get (FindNearbyDrivers.latestLocations rows) k
  = find (fun l => String.eqb (LiveLocation.user_id l) k) rows.
Proof. apply (keepFirst_find rows []). Qed.

Lemma find_sorted_first {A : Type} (R : A -> A -> Prop) (p : A -> bool)
      (l : list A) (v : A) :
  (forall x, R x x) -> StronglySorted R l -> find p l = Some v ->
  forall s, In s l -> p s = true -> R v s.
Proof.
  intros Hrefl S. induction S as [|x t St IH Hall]; simpl; [discriminate|].
  destruct (p x) eqn:E.
  - intros [= <-] s [<-|Hs] _; [apply Hrefl|].
    rewrite Forall_forall in Hall. apply Hall, Hs.
  - intros Hf s [<-|Hs] Hp; [congruence|]. apply IH; assumption.
Qed.

Lemma find_some_if {A : Type} (p : A -> bool) (l : list A) (s : A) :
  In s l -> p s = true -> exists v, find p l = Some v.
Proof.
  induction l as [|x t IH]; simpl; [contradiction|].
  intros [<-|Hs] Hp.
  - rewrite Hp. exists x. reflexivity.
  - destruct (p x); [exists x; reflexivity | apply IH; assumption].
Qed.

(** The entry of an on-duty driver in the map of the search endpoint is
    the most recent sample of that driver in the store. *)
Lemma FindNearby_latest_is_most_recent (db : Db) (d : Driver.t)
      (loc : LiveLocation.t) :
  In d (drivers db) -> on_duty d = true ->
  UserMap.get
    (FindNearbyDrivers.latestLocations
       (order_desc LiveLocation.updated_at
                   (filter (tracked db) (live_locations db))))
    (Driver.user_id d) = Some loc ->
  most_recent_sample db (Driver.user_id d) loc.
Proof.
  intros Hd Hon Hget. rewrite FindNearby_latest_find in Hget.
  pose proof (find_some _ _ Hget) as [Hloc Hu].
  apply String.eqb_eq in Hu.
  split; [|split; [exact Hu|]].
  - apply order_desc_In, filter_In in Hloc. tauto.
  - intros s Hs Hsu. apply Z.leb_le.
    apply (find_sorted_first
             (fun a b => Z.leb (LiveLocation.updated_at b)
                               (LiveLocation.updated_at a) = true)
             (fun l => String.eqb (LiveLocation.user_id l) (Driver.user_id d))
             (order_desc LiveLocation.updated_at
                (filter (tracked db) (live_locations db))) loc).
    + intros x. apply Z.leb_refl.
    + apply (sort_sorted _ (desc_total LiveLocation.updated_at)
                         (desc_trans LiveLocation.updated_at)).
    + exact Hget.
    + apply order_desc_In, filter_In. split; [exact Hs|].
      apply (tracked_of_driver db d); assumption.
    + apply String.eqb_eq. exact Hsu.
Qed.

Lemma collect_nothing (calculateDistance : Q -> Q -> Q -> Q -> Q) (now : Z)
      (plat plng : Q) (vt : string) (radius : Q) (ds : list Driver.t) :
  FindNearbyDrivers.collect calculateDistance now [] plat plng vt radius ds
  = [].
Proof. induction ds as [|d t IH]; simpl; [reflexivity | exact IH]. Qed.

(** The answer of the search endpoint, when the coordinates are given
    and both tables can be read. *)
Lemma handleFindNearbyDrivers_readable
      (calculateDistance : Q -> Q -> Q -> Q -> Q)
      (db : Db) (f : Faults) (now : Z) (body : FindNearbyDrivers.Body)
      (plat plng : Q) :
  pickup_of body = Some (plat, plng) ->
  select_error f "drivers" = None ->
  select_error f "live_locations" = None ->
  FindNearbyDrivers.handleFindNearbyDrivers calculateDistance db f now body
  = FindNearbyDrivers.found
      (FindNearbyDrivers.byDistance
         (FindNearbyDrivers.collect calculateDistance now
            (FindNearbyDrivers.latestLocations
               (order_desc LiveLocation.updated_at
                           (filter (tracked db) (live_locations db))))
            plat plng (vehicle_of body) (radius_of body)
            (filter on_duty (drivers db)))).
Proof.
  unfold pickup_of. intros Hp Hd Hl.
  unfold FindNearbyDrivers.handleFindNearbyDrivers.
  destruct (FindNearbyDrivers.coordinate _) as [la|]; [|discriminate].
  destruct (FindNearbyDrivers.coordinate _) as [lo|]; [|discriminate].
  injection Hp as -> ->.
  unfold FindNearbyDrivers.driver_rows.
  rewrite (select_readable f "drivers" _ _ Hd). cbn [error data ok].
  change (fun d : Driver.t =>
            String.eqb (Driver.status d) "online" && Driver.is_verified d)
    with on_duty.
  unfold tracked.
  destruct (filter on_duty (drivers db)) as [|d0 ds] eqn:Hds; [reflexivity|].
  rewrite (select_readable f "live_locations" _ _ Hl). cbn [error data ok].
  destruct (filter _ (live_locations db)) as [|r0 rs] eqn:Hrows;
    [|reflexivity].
  change (FindNearbyDrivers.latestLocations
            (order_desc LiveLocation.updated_at []))
    with (@nil (string * LiveLocation.t)).
  rewrite collect_nothing. reflexivity.
Qed.

(** The status of the answer of the search endpoint. *)
Lemma handleFindNearbyDrivers_status
      (calculateDistance : Q -> Q -> Q -> Q -> Q)
      (db : Db) (f : Faults) (now : Z) (body : FindNearbyDrivers.Body) :
  let out :=
    FindNearbyDrivers.handleFindNearbyDrivers calculateDistance db f now
      body in
  match pickup_of body with
  | None => FindNearbyDrivers.http_status out = 400%Z
  | Some _ =>
      match select_error f "drivers" with
      | Some _ => FindNearbyDrivers.http_status out = 500%Z
      | None =>
          match filter on_duty (drivers db),
                select_error f "live_locations" with
          | _ :: _, Some _ => FindNearbyDrivers.http_status out = 500%Z
          | _, _ => FindNearbyDrivers.http_status out = 200%Z
          end
      end
  end.
Proof.
  unfold pickup_of, FindNearbyDrivers.handleFindNearbyDrivers,
    FindNearbyDrivers.driver_rows, select.
  destruct (FindNearbyDrivers.coordinate _) as [la|]; [|reflexivity].
  destruct (FindNearbyDrivers.coordinate _) as [lo|]; [|reflexivity].
  destruct (select_error f "drivers"); [reflexivity|]. cbn [error data ok].
  change (fun d : Driver.t =>
            String.eqb (Driver.status d) "online" && Driver.is_verified d)
    with on_duty.
  destruct (filter on_duty (drivers db)) as [|d0 ds]; [reflexivity|].
  destruct (select_error f "live_locations"); [reflexivity|].
  cbn [error data ok].
  destruct (filter _ (live_locations db)); reflexivity.
Qed.

Lemma handleFindNearbyDrivers_unanswered
      (calculateDistance : Q -> Q -> Q -> Q -> Q)
      (db : Db) (f : Faults) (now : Z) (body : FindNearbyDrivers.Body) :
  pickup_of body = None
  \/ select_error f "drivers" <> None
  \/ select_error f "live_locations" <> None ->
  FindNearbyDrivers.listed
    (FindNearbyDrivers.handleFindNearbyDrivers calculateDistance db f now body)
  = [].
Proof.
  unfold pickup_of, FindNearbyDrivers.handleFindNearbyDrivers,
    FindNearbyDrivers.driver_rows, select.
  intros H.
  destruct (FindNearbyDrivers.coordinate _) as [la|]; [|reflexivity].
  destruct (FindNearbyDrivers.coordinate _) as [lo|]; [|reflexivity].
  destruct (select_error f "drivers"); [reflexivity|]. cbn [error data ok].
  destruct (filter _ (drivers db)) as [|d0 ds]; [reflexivity|].
  destruct (select_error f "live_locations"); [reflexivity|].
  destruct H as [H|[H|H]]; [discriminate | contradiction | contradiction].
Qed.

Lemma collect_complete (calculateDistance : Q -> Q -> Q -> Q -> Q)
      (now : Z) (latest : UserMap.t LiveLocation.t) (plat plng : Q)
      (vt : string) (radius : Q) (ds : list Driver.t) (d : Driver.t)
      (n : FindNearbyDrivers.NearbyDriver) :
  In d ds ->
  FindNearbyDrivers.candidate calculateDistance now latest plat plng vt
    radius d = Some n ->
  In n (FindNearbyDrivers.collect calculateDistance now latest plat plng vt
          radius ds).
Proof.
  intros Hd Hc. induction ds as [|x t IH]; simpl; [contradiction|].
  destruct Hd as [->|Hd].
  - rewrite Hc. left. reflexivity.
  - destruct (FindNearbyDrivers.candidate _ _ _ _ _ _ _ x);
      [right|]; apply IH, Hd.
Qed.

Lemma vehicle_accepted_iff (vt : string) (d : Driver.t) :
  negb (String.eqb vt "any") && FindNearbyDrivers.vehicleMismatch d vt = false
  <-> vehicle_accepted vt d.
Proof.
  unfold vehicle_accepted, FindNearbyDrivers.vehicleMismatch.
  destruct (String.eqb vt "any") eqn:E; cbn [negb andb].
  - apply String.eqb_eq in E. tauto.
  - assert (Hne : vt <> "any") by (intros ->; discriminate).
    destruct (Driver.vehicles d) as [v|].
    + destruct (String.eqb (Vehicle.vehicle_type v) vt) eqn:Ev; cbn [negb].
      * apply String.eqb_eq in Ev. split; [|reflexivity].
        intros _. right. exists v. split; [reflexivity | exact Ev].
      * split; [discriminate|].
        intros [H|[v' [[= <-] Hv]]]; [contradiction|].
        rewrite Hv, String.eqb_refl in Ev. discriminate.
    + split; [discriminate|].
      intros [H|[v' [Hv _]]]; [contradiction | discriminate].
Qed.

(** Whom the search endpoint lists. Every element of the answer of
    [handleFindNearbyDrivers] describes a driver of the store who is
    online and verified and whose vehicle is of the type asked for,
    unless the type asked for is 'any'. Its location is the most recent
    sample of that driver, at most fifteen minutes old at the time of
    the request and within the radius; [distance_km] is the distance to
    it rounded to one decimal, and [eta_minutes] is three minutes per
    kilometre, rounded. *)
Theorem listed_driver_is_eligible
        (calculateDistance : Q -> Q -> Q -> Q -> Q)
        (db : Db) (f : Faults) (now : Z) (body : FindNearbyDrivers.Body) :
  Forall (fun n =>
            exists d dist,
              In d (drivers db) /\ on_duty d = true /\ describes n d
              /\ vehicle_accepted (vehicle_of body) d
              /\ most_recent_sample db (Driver.user_id d)
                   (FindNearbyDrivers.location n)
              /\ (age_at now (FindNearbyDrivers.location n)
                  <= 15 * 60 * 1000)%Z
              /\ distance_from calculateDistance body
                   (FindNearbyDrivers.location n) dist
              /\ dist <= radius_of body
              /\ FindNearbyDrivers.distance_km n
                 = FindNearbyDrivers.round1 dist
              /\ FindNearbyDrivers.eta_minutes n = Math_round (dist * 3))
         (FindNearbyDrivers.listed
            (FindNearbyDrivers.handleFindNearbyDrivers calculateDistance
               db f now body)).
Proof.
  destruct (pickup_of body) as [[plat plng]|] eqn:Hp;
    [|rewrite handleFindNearbyDrivers_unanswered;
        [constructor | left; exact Hp]].
  destruct (select_error f "drivers") as [e|] eqn:Hd;
    [rewrite handleFindNearbyDrivers_unanswered;
       [constructor | right; left; rewrite Hd; discriminate]|].
  destruct (select_error f "live_locations") as [e|] eqn:Hl;
    [rewrite handleFindNearbyDrivers_unanswered;
       [constructor | right; right; rewrite Hl; discriminate]|].
  rewrite (handleFindNearbyDrivers_readable calculateDistance db f now body
             plat plng Hp Hd Hl).
  rewrite FindNearby_listed_found.
  apply Forall_forall. intros n Hin.
  unfold FindNearbyDrivers.byDistance in Hin. apply sort_In in Hin.
  apply FindNearby_collect_from in Hin. destruct Hin as [d [Hin Hc]].
  apply filter_In in Hin. destruct Hin as [Hstore Hon].
  unfold FindNearbyDrivers.candidate in Hc.
  destruct (UserMap.get _ (Driver.user_id d)) as [loc|] eqn:Hget;
    [|discriminate].
  destruct (Z.ltb (15 * 60 * 1000) _) eqn:Hage; [discriminate|].
  destruct (negb _ && _) eqn:Hv; [discriminate|].
  destruct (Qle_bool _ _) eqn:Hq; [|discriminate].
  injection Hc as <-.
  exists d, (calculateDistance plat plng (LiveLocation.latitude loc)
                               (LiveLocation.longitude loc)).
  cbn [FindNearbyDrivers.location FindNearbyDrivers.distance_km
       FindNearbyDrivers.eta_minutes].
  split; [exact Hstore|]. split; [exact Hon|].
  split; [repeat split|].
  split; [apply vehicle_accepted_iff; exact Hv|].
  split; [apply FindNearby_latest_is_most_recent; assumption|].
  split; [unfold age_at; apply Z.ltb_ge; exact Hage|].
  split; [exists plat, plng; split; [exact Hp | reflexivity]|].
  split; [apply Qle_bool_iff; exact Hq|].
  split; reflexivity.
Qed.

(** Whom the search endpoint cannot miss. With the coordinates given
    and both tables readable, a driver who is online and verified, has
    a vehicle of the type asked for (or the type asked for is 'any'),
    has a sample, and whose most recent sample is at most fifteen
    minutes old at the time of the request and within the radius, is
    described by an element of the answer. *)
Theorem eligible_driver_is_listed
        (calculateDistance : Q -> Q -> Q -> Q -> Q)
        (db : Db) (f : Faults) (now : Z) (body : FindNearbyDrivers.Body)
        (plat plng : Q) (d : Driver.t) (s0 : LiveLocation.t) :
  pickup_of body = Some (plat, plng) ->
  select_error f "drivers" = None ->
  select_error f "live_locations" = None ->
  In d (drivers db) -> on_duty d = true ->
  vehicle_accepted (vehicle_of body) d ->
  In s0 (live_locations db) -> LiveLocation.user_id s0 = Driver.user_id d ->
  (forall loc, most_recent_sample db (Driver.user_id d) loc ->
               (age_at now loc <= 15 * 60 * 1000)%Z
               /\ within calculateDistance plat plng (radius_of body) loc) ->
  exists n,
    In n (FindNearbyDrivers.listed
            (FindNearbyDrivers.handleFindNearbyDrivers calculateDistance
               db f now body))
    /\ describes n d
    /\ most_recent_sample db (Driver.user_id d)
         (FindNearbyDrivers.location n).
Proof.
  intros Hp Hd Hl Hin Hon Hveh Hs0 Hu0 Hgood.
  rewrite (handleFindNearbyDrivers_readable calculateDistance db f now body
             plat plng Hp Hd Hl).
  rewrite FindNearby_listed_found.
  set (latest := FindNearbyDrivers.latestLocations _).
  assert (Hget : exists loc, UserMap.get latest (Driver.user_id d) = Some loc).
  { unfold latest. rewrite FindNearby_latest_find.
    apply (find_some_if _ _ s0).
    - apply order_desc_In, filter_In. split; [exact Hs0|].
      apply (tracked_of_driver db d); assumption.
    - apply String.eqb_eq. exact Hu0. }
  destruct Hget as [loc Hget].
  assert (Hrecent : most_recent_sample db (Driver.user_id d) loc)
    by (apply FindNearby_latest_is_most_recent; assumption).
  destruct (Hgood loc Hrecent) as [Hfresh Hnear].
  set (dist := calculateDistance plat plng (LiveLocation.latitude loc)
                                 (LiveLocation.longitude loc)).
  exists (FindNearbyDrivers.mkNearby (Driver.id d) (Driver.user_id d)
            (Driver.vehicles d) loc (FindNearbyDrivers.round1 dist)
            (Math_round (dist * 3))).
  split; [|split; [repeat split | exact Hrecent]].
  unfold FindNearbyDrivers.byDistance. apply sort_In.
  apply (collect_complete calculateDistance now latest plat plng _ _ _ d).
  - apply filter_In. split; assumption.
  - unfold FindNearbyDrivers.candidate. rewrite Hget.
    unfold age_at in Hfresh. apply Z.ltb_ge in Hfresh. rewrite Hfresh.
    apply vehicle_accepted_iff in Hveh. rewrite Hveh.
    unfold within in Hnear. apply Qle_bool_iff in Hnear.
    fold dist. unfold dist at 1. rewrite Hnear. reflexivity.
Qed.

Lemma eligible_driver_is_listed_witness :
  exists n,
    In n (FindNearbyDrivers.listed
            (FindNearbyDrivers.handleFindNearbyDrivers gridDistance
               Fixture.mismatch no_faults Fixture.now (Fixture.search "any")))
    /\ describes n (Fixture.driver "drv-h" "usr-h" "hatchback").
Proof.
  destruct (eligible_driver_is_listed gridDistance Fixture.mismatch no_faults
              Fixture.now (Fixture.search "any")
              Fixture.pickup_lat Fixture.pickup_lng
              (Fixture.driver "drv-h" "usr-h" "hatchback")
              (Fixture.sample_at_pickup "usr-h" 1))
    as [n [Hin [Hd _]]].
  - reflexivity.
  - reflexivity.
  - reflexivity.
  - left. reflexivity.
  - reflexivity.
  - left. reflexivity.
  - left. reflexivity.
  - reflexivity.
  - intros loc [[<-|[]] _]. split.
    + vm_compute. discriminate.
    + vm_compute. discriminate.
  - exists n. split; assumption.
Defined.

(** The answers of [handleFindNearbyDrivers] once the body has been
    read. *)
Lemma parsed_search_answers
        (calculateDistance : Q -> Q -> Q -> Q -> Q)
        (db : Db) (f : Faults) (now : Z) (body : FindNearbyDrivers.Body) :
  let out :=
    FindNearbyDrivers.handleFindNearbyDrivers calculateDistance db f now
      body in
  (FindNearbyDrivers.http_status out = 400%Z <-> pickup_of body = None)
  /\ (FindNearbyDrivers.http_status out = 500%Z
      <-> pickup_of body <> None
          /\ (select_error f "drivers" <> None
              \/ (exists d, In d (drivers db) /\ on_duty d = true)
                 /\ select_error f "live_locations" <> None))
  /\ (FindNearbyDrivers.http_status out <> 400%Z ->
      FindNearbyDrivers.http_status out <> 500%Z ->
      FindNearbyDrivers.http_status out = 200%Z
      /\ FindNearbyDrivers.total_found out
         = Some (List.length (FindNearbyDrivers.listed out))).
Proof.
  intros out.
  pose proof (handleFindNearbyDrivers_status calculateDistance db f now body)
    as Hst.
  cbv zeta in Hst. fold out in Hst.
  assert (Hon : forall d0 ds, filter on_duty (drivers db) = d0 :: ds ->
                  exists d, In d (drivers db) /\ on_duty d = true).
  { intros d0 ds E. exists d0. apply filter_In. rewrite E. left. reflexivity. }
  assert (Hoff : filter on_duty (drivers db) = [] ->
                 ~ exists d, In d (drivers db) /\ on_duty d = true).
  { intros E [d Hd]. apply filter_In in Hd. rewrite E in Hd. exact Hd. }
  assert (Hfound : FindNearbyDrivers.http_status out = 200%Z ->
                   FindNearbyDrivers.total_found out
                   = Some (List.length (FindNearbyDrivers.listed out))).
  { unfold out, FindNearbyDrivers.handleFindNearbyDrivers,
      FindNearbyDrivers.listed.
    destruct (FindNearbyDrivers.coordinate _); [|simpl; discriminate].
    destruct (FindNearbyDrivers.coordinate _); [|simpl; discriminate].
    destruct (error (select f "drivers" _ _)); [simpl; discriminate|].
    destruct (data (select f "drivers" _ _)) as [[|d0 ds]|];
      try (intros _; reflexivity).
    destruct (error (select f "live_locations" _ _)); [simpl; discriminate|].
    destruct (data (select f "live_locations" _ _)) as [[|r0 rs]|];
      intros _; reflexivity. }
  destruct (pickup_of body) as [p|].
  - destruct (select_error f "drivers") as [e|].
    + rewrite Hst. split; [split; discriminate|].
      split; [|intros _ H; exfalso; apply H; reflexivity].
      split; [intros _|reflexivity].
      split; [discriminate | left; discriminate].
    + destruct (filter on_duty (drivers db)) as [|d0 ds] eqn:Hds.
      * rewrite Hst in *. split; [split; discriminate|].
        split; [|intros _ _; split; [reflexivity | apply Hfound; reflexivity]].
        split; [discriminate|].
        intros [_ [H|[H _]]]; [exfalso; apply H; reflexivity|].
        exfalso. apply (Hoff eq_refl). exact H.
      * destruct (select_error f "live_locations") as [e|].
        -- rewrite Hst. split; [split; discriminate|].
           split; [|intros _ H; exfalso; apply H; reflexivity].
           split; [intros _|reflexivity].
           split; [discriminate|]. right.
           split; [apply (Hon d0 ds eq_refl) | discriminate].
        -- rewrite Hst in *. split; [split; discriminate|].
           split; [|intros _ _; split;
                     [reflexivity | apply Hfound; reflexivity]].
           split; [discriminate|].
           intros [_ [H|[_ H]]]; exfalso; apply H; reflexivity.
  - rewrite Hst. split; [split; reflexivity|].
    split; [|intros H; exfalso; apply H; reflexivity].
    split; [discriminate|]. intros [H _]. exfalso. apply H. reflexivity.
Qed.

(** * Further properties of the request router and of the client *)

(** Only POST requests write. A request to the driver-api whose method
    is not POST leaves the store as it is, whatever its path and its
    parameters are; when its method is neither OPTIONS nor GET it is
    answered 404. *)
Theorem only_post_requests_write
        (calculateDistance : Q -> Q -> Q -> Q -> Q) (created_at : Ride.t -> Z)
        (db : Db) (f : Faults) (clock : nat -> Z)
        (req : DriverApi.Request.t) :
  DriverApi.Request.method req <> "POST" ->
  snd (DriverApi.serve calculateDistance created_at db f clock req) = db
  /\ (DriverApi.Request.method req <> "OPTIONS" ->
      DriverApi.Request.method req <> "GET" ->
      fst (DriverApi.serve calculateDistance created_at db f clock req)
      = 404%Z).
Proof.
  intros Hpost. unfold DriverApi.serve.
  assert (Hp : String.eqb (DriverApi.Request.method req) "POST" = false)
    by (apply String.eqb_neq; exact Hpost).
  rewrite Hp, !andb_false_r.
  destruct (String.eqb (DriverApi.Request.method req) "OPTIONS") eqn:Ho.
  - apply String.eqb_eq in Ho. split; [reflexivity|].
    intros H; contradiction.
  - destruct (String.eqb (DriverApi.Request.method req) "GET") eqn:Hg.
    + apply String.eqb_eq in Hg.
      destruct (includes _ "/get-nearby-rides"); cbn [andb snd];
        (split; [reflexivity | intros _ H; contradiction]).
    + rewrite andb_false_r. split; [reflexivity | intros _ _; reflexivity].
Qed.

Lemma only_post_requests_write_witness :
  snd (DriverApi.serve gridDistance Fixture2.created_at Fixture.tie no_faults
         Fixture.clock
         (DriverApi.Request.mk "GET" "/driver-api/accept-ride"
            (Some "ride-1") None (Some "drv-a") None None None))
  = Fixture.tie.
Proof.
  assert (Hm : "GET" <> "POST") by discriminate.
  exact (proj1 (only_post_requests_write gridDistance Fixture2.created_at
                  Fixture.tie no_faults Fixture.clock
                  (DriverApi.Request.mk "GET" "/driver-api/accept-ride"
                     (Some "ride-1") None (Some "drv-a") None None None)
                  Hm)).
Defined.

(** Going online verifies. When [updateDriverStatus] returns for the
    status 'online' and the driver of the session was not online, the
    store holds exactly one driver of that id, and that row is now
    'online' and verified, whether the driver was verified before or
    not; no other driver changes. When the driver of the session was
    online already, nothing is written. *)
Theorem going_online_verifies
        (db db' : Db) (f : Faults) (d : Driver.t) (st : option Driver.t) :
  AuthContext.updateDriverStatus db f (Some d) "online" = Normal (st, db') ->
  st = Some (AuthContext.statusUpdate "online" d)
  /\ (Driver.status d = "online" -> db' = db)
  /\ (Driver.status d <> "online" ->
      (exists x,
         filter (fun y => String.eqb (Driver.id y) (Driver.id d)) (drivers db)
         = [x])
      /\ drivers db'
         = map (fun y => if String.eqb (Driver.id y) (Driver.id d)
                         then AuthContext.statusUpdate "online" y else y)
               (drivers db)
      /\ (forall y, In y (drivers db') -> Driver.id y = Driver.id d ->
                    on_duty y = true)).
Proof.
  unfold AuthContext.updateDriverStatus.
  destruct (String.eqb (Driver.status d) "online") eqn:E; cbn [negb].
  - intros [= <- <-]. apply String.eqb_eq in E.
    split; [reflexivity|]. split; [reflexivity | intros H; contradiction].
  - apply String.eqb_neq in E. unfold update_single.
    destruct (update_error f "drivers"); [discriminate|].
    destruct (filter _ (drivers db)) as [|x [|x' t]] eqn:Hrows; simpl;
      try discriminate.
    intros [= <- <-]. split; [reflexivity|].
    split; [intros H; contradiction|]. intros _.
    split; [exists x; reflexivity|]. split; [reflexivity|].
    cbn [drivers with_drivers]. intros y Hy Hid.
    apply in_map_iff in Hy. destruct Hy as [z [Hz _]].
    destruct (String.eqb (Driver.id z) (Driver.id d)) eqn:Ez.
    + subst y. reflexivity.
    + subst y. apply String.eqb_neq in Ez. contradiction.
Qed.

Lemma going_online_verifies_witness :
  exists st db',
    AuthContext.updateDriverStatus Fixture2.unverified no_faults
      (Some Fixture2.newcomer) "online" = Normal (st, db')
    /\ drivers db'
       = [Driver.mk "drv-n" "usr-n" "online" true (Some (Vehicle.mk "sedan"))].
Proof.
  eexists. eexists. split; [reflexivity|].
  assert (Hoff : Driver.status Fixture2.newcomer <> "online") by discriminate.
  exact (proj1 (proj2 (proj2 (proj2
           (going_online_verifies Fixture2.unverified _ no_faults
              Fixture2.newcomer _ eq_refl))
           Hoff))).
Defined.

(** ** Completing a ride from the app *)

Lemma found_ride_only (db : Db) (f : Faults) (rideId : string)
      (ride : Ride.t) :
  found_ride db f rideId ride ->
  select_error f "rides" = None /\ only_ride db rideId ride.
Proof.
  unfold found_ride, only_ride, single, select.
  destruct (select_error f "rides"); simpl; [discriminate|].
  destruct (filter _ (rides db)) as [|x [|y t]]; simpl; try discriminate.
  intros [= ->]. split; reflexivity.
Qed.

Lemma filter_map_id (g : Ride.t -> Ride.t) (rideId : string)
      (rows : list Ride.t) :
  (forall r, Ride.id (g r) = Ride.id r) ->
  filter (fun r => String.eqb (Ride.id r) rideId)
         (map (fun r => if String.eqb (Ride.id r) rideId then g r else r) rows)
  = map g (filter (fun r => String.eqb (Ride.id r) rideId) rows).
Proof.
  intros Hg. induction rows as [|x t IH]; simpl; [reflexivity|].
  destruct (String.eqb (Ride.id x) rideId) eqn:E; simpl.
  - rewrite Hg, E, IH. reflexivity.
  - rewrite E, IH. reflexivity.
Qed.

Lemma updateDriverStatus_tables (db db' : Db) (f : Faults)
      (driver st : option Driver.t) (status : string) :
  AuthContext.updateDriverStatus db f driver status = Normal (st, db') ->
  rides db' = rides db /\ trip_completions db' = trip_completions db.
Proof.
  unfold AuthContext.updateDriverStatus.
  destruct driver as [d|]; [|intros [= <- <-]; split; reflexivity].
  destruct (negb _); [|intros [= <- <-]; split; reflexivity].
  destruct (update_single f "drivers" _ _ _) as [reply rows].
  destruct (error reply); [discriminate|].
  intros [= <- <-]. split; reflexivity.
Qed.

Section CompleteRideFacts.

Variable calculateDistance : Q -> Q -> Q -> Q -> Q.
Variable destination_latitude : Ride.t -> option Q.
Variable destination_longitude : Ride.t -> option Q.
Variable m : FareCalculationService.Scoping.
Variable db : Db.
Variable f : Faults.
Variables startNow endNow : Z.
Variable driver : option Driver.t.
Variable rideId : string.

Let out : option FareBreakdown.t * Db :=
  RideContext.completeRide calculateDistance destination_latitude
    destination_longitude m db f startNow endNow driver rideId.


(** What a completed ride records. When [completeRide] reports
    success, the store held exactly one ride of that id; that ride is
    now 'completed' with the total of the returned breakdown as its
    fare (null for a total that is not a number), and no other ride has
    changed; one completion record has been added for it. The distance
    and the duration on the ride and on the record are 5.2 km and 45
    minutes, whatever the trip was. *)
Theorem completed_ride_record (fb : FareBreakdown.t) (db' : Db) :
  out = (Some fb, db') ->
  exists ride,
    only_ride db rideId ride
    /\ rides db' = completed_at (FareBreakdown.total_fare fb) rideId (rides db)
    /\ only_ride db' rideId
         (RideContext.completed (FareBreakdown.total_fare fb) ride)
    /\ exists c,
         trip_completions db' = (trip_completions db ++ [c])%list
         /\ TripCompletion.ride_id c = rideId
         /\ TripCompletion.actual_distance_km c = 52 # 10
         /\ TripCompletion.actual_duration_minutes c = 45
         /\ TripCompletion.fare_breakdown c = fb.
Proof.
  subst out. unfold RideContext.completeRide.
  destruct driver as [d|] eqn:Hd; [|discriminate].
  destruct (single (select f "rides" (rides db) _)) as [[ride|] [e|]]
    eqn:Hsingle; cbn [error data]; try discriminate.
  destruct (destination_latitude ride) as [dropLat|]; [|discriminate].
  destruct (destination_longitude ride) as [dropLng|]; [|discriminate].
  pose proof (trip_fare_success_inv calculateDistance m db f startNow endNow
                rideId RideContext.actualDistanceKm
                RideContext.actualDurationMinutes
                (Ride.pickup_latitude ride) (Ride.pickup_longitude ride)
                dropLat dropLng) as Hinv.
  cbv zeta in Hinv.
  destruct (FareCalculationService.calculateAndStoreTripFare _ _ _ _ _ _ _ _ _
              _ _ _ _) as [res db1].
  cbn [fst snd] in Hinv.
  destruct (FareCalculationService.success res) eqn:Hs; cbn [negb];
    [|discriminate].
  destruct (Hinv eq_refl) as [ride' [zs [fb' [Hride' [_ [_ [_ Hout]]]]]]].
  injection Hout as -> ->. cbn [FareCalculationService.fareBreakdown].
  assert (Hsame : ride' = ride).
  { assert (E : single (select f "rides" (rides db)
                          (fun r => String.eqb (Ride.id r) rideId))
                = mkReply (Some ride) None).
    { destruct (single _) as [dd ee]. simpl in Hsingle.
      injection Hsingle as -> ->. reflexivity. }
    rewrite E in Hride'. unfold ok in Hride'. congruence. }
  subst ride'.
  destruct (found_ride_only db f rideId ride Hride') as [_ Hone].
  unfold update_single, FareCalculationService.updateRideFare.
  destruct (update_error f "rides") as [e|]; cbn [error failed];
    [discriminate|].
  cbn [rides with_rides with_trip_completions].
  rewrite (filter_map_id _ rideId (rides db)) by reflexivity.
  unfold only_ride in Hone. rewrite Hone. cbn [map single ok error data].
  destruct (AuthContext.updateDriverStatus _ f (Some d) "online")
    as [[st db3]|msg] eqn:Hupd; [|discriminate].
  intros [= <- <-].
  apply updateDriverStatus_tables in Hupd. destruct Hupd as [Hr Htc].
  cbn [rides trip_completions with_rides with_trip_completions] in Hr, Htc.
  exists ride.
  assert (Hrides : rides db3
                   = completed_at (FareBreakdown.total_fare fb') rideId
                                  (rides db)).
  { rewrite Hr. unfold completed_at. rewrite map_map. apply map_ext.
    intros r. destruct (String.eqb (Ride.id r) rideId) eqn:E; simpl;
      rewrite E; reflexivity. }
  split; [exact Hone|]. split; [exact Hrides|]. split.
  - unfold only_ride. rewrite Hrides. unfold completed_at.
    rewrite (filter_map_id _ rideId (rides db)) by reflexivity.
    rewrite Hone. reflexivity.
  - eexists. split; [exact Htc|]. repeat split.
Qed.

End CompleteRideFacts.

(** A regular ride cannot be completed. With [calculateRegularFare]
    read as the language defines it, [completeRide] reports failure
    for every ride of booking type 'regular' and leaves the store as it
    found it: the ride never becomes 'completed' through the app. *)
Theorem regular_ride_cannot_be_completed
        (calculateDistance : Q -> Q -> Q -> Q -> Q)
        (destination_latitude destination_longitude : Ride.t -> option Q)
        (db : Db) (f : Faults) (startNow endNow : Z)
        (driver : option Driver.t) (rideId : string) :
  (forall r, In r (rides db) -> Ride.id r = rideId ->
             Ride.booking_type r = "regular") ->
  RideContext.completeRide calculateDistance destination_latitude
    destination_longitude FareCalculationService.BlockScoped
    db f startNow endNow driver rideId
  = (None, db).
Proof.
  intros Hreg. unfold RideContext.completeRide.
  destruct driver as [d|]; [|reflexivity].
  destruct (single (select f "rides" (rides db) _)) as [[ride|] [e|]]
    eqn:Hsingle; cbn [error data]; try reflexivity.
  destruct (destination_latitude ride) as [dropLat|]; [|reflexivity].
  destruct (destination_longitude ride) as [dropLng|]; [|reflexivity].
  pose proof (trip_fare_success_inv calculateDistance
                FareCalculationService.BlockScoped db f startNow endNow
                rideId RideContext.actualDistanceKm
                RideContext.actualDurationMinutes
                (Ride.pickup_latitude ride) (Ride.pickup_longitude ride)
                dropLat dropLng) as Hinv.
  pose proof (trip_fare_failure_inv calculateDistance
                FareCalculationService.BlockScoped db f startNow endNow
                rideId RideContext.actualDistanceKm
                RideContext.actualDurationMinutes
                (Ride.pickup_latitude ride) (Ride.pickup_longitude ride)
                dropLat dropLng) as Hfail.
  cbv zeta in Hinv, Hfail.
  destruct (FareCalculationService.calculateAndStoreTripFare _ _ _ _ _ _ _ _ _
              _ _ _ _) as [res db1].
  cbn [fst snd] in Hinv, Hfail.
  destruct (FareCalculationService.success res) eqn:Hs; cbn [negb].
  - exfalso.
    destruct (Hinv eq_refl) as [ride' [zs [fb [Hride' [_ [Hfare _]]]]]].
    apply single_select_id in Hride'. destruct Hride' as [Hin Hid].
    unfold FareCalculationService.fareForBookingType in Hfare.
    rewrite (Hreg ride' Hin Hid) in Hfare. cbn [String.eqb] in Hfare.
    simpl in Hfare.
    destruct (calculateRegularFare_block_scoped calculateDistance db f
                (Ride.vehicle_type ride') RideContext.actualDistanceKm
                RideContext.actualDurationMinutes
                (Ride.pickup_latitude ride) (Ride.pickup_longitude ride)
                dropLat dropLng zs) as [msg Hmsg].
    rewrite Hmsg in Hfare. discriminate.
  - destruct (Hfail eq_refl) as [-> _]. reflexivity.
Qed.

Lemma regular_ride_cannot_be_completed_witness :
  RideContext.completeRide gridDistance Fixture2.destination_latitude
    Fixture2.destination_longitude FareCalculationService.BlockScoped
    Fixture.regular_example no_faults Fixture.now Fixture.now
    (Some Fixture2.busy_driver) "ride-1"
  = (None, Fixture.regular_example).
Proof.
  apply (regular_ride_cannot_be_completed gridDistance
           Fixture2.destination_latitude Fixture2.destination_longitude
           Fixture.regular_example no_faults Fixture.now Fixture.now
           (Some Fixture2.busy_driver) "ride-1").
  intros r [<-|[]] _. reflexivity.
Defined.

Lemma completed_ride_record_witness :
  exists fb db',
    RideContext.completeRide gridDistance Fixture2.destination_latitude
      Fixture2.destination_longitude FareCalculationService.BlockScoped
      Fixture2.outstation_trip no_faults Fixture.now Fixture.now
      (Some Fixture2.busy_driver) "ride-2"
    = (Some fb, db')
    /\ rides db'
       = completed_at (FareBreakdown.total_fare fb) "ride-2"
                      (rides Fixture2.outstation_trip)
    /\ drivers db'
       = [Driver.mk "drv-a" "usr-a" "online" true (Some (Vehicle.mk "sedan"))].
Proof.
  eexists. eexists. split; [reflexivity|]. split; [|reflexivity].
  destruct (completed_ride_record gridDistance Fixture2.destination_latitude
              Fixture2.destination_longitude
              FareCalculationService.BlockScoped Fixture2.outstation_trip
              no_faults Fixture.now Fixture.now (Some Fixture2.busy_driver)
              "ride-2" _ _ eq_refl)
    as [ride [_ [Hrides _]]].
  exact Hrides.
Defined.


(** * The status of a ride, operation by operation *)

Section StatusWrites.

Variable allowed : Ride.t -> string -> Prop.







End StatusWrites.


(** *** accept-ride *)


(** *** The clean-up of expired requests *)


(** *** notify-drivers *)





Lemma run_answered (calculateDistance : Q -> Q -> Q -> Q -> Q)
      (f : Faults) (clock : nat -> Z) (n : nat) (db : Db)
      (r : DriverApi.Response) :
  NotifyRun.run calculateDistance f clock n db (NotifyRun.Answered r)
  = (NotifyRun.Answered r, db).
Proof. induction n as [|n IH]; [reflexivity | exact IH]. Qed.



(** An accept that lands between the read and the write of a dispatch
    is overwritten: the dispatch has read the ride as 'requested', the
    ride is then accepted by driver drv-a, and the last operation of
    the dispatch sets the accepted ride to 'no_drivers_available'. *)
Example notify_overwrites_accept :
  let read :=
    NotifyRun.step gridDistance Fixture.stale no_faults Fixture.clock
      (NotifyRun.Pending (Some "ride-1")) in
  let accept :=
    DriverApi.handleAcceptRide (snd read) no_faults
      (Some "ride-1") (Some "drv-a") in
  let finish :=
    NotifyRun.run gridDistance no_faults Fixture.clock 3 (snd accept)
      (fst read) in
  DriverApi.http_status (fst accept) = 200%Z
  /\ rides (snd accept)
     = [Fixture.ride "ride-1" "accepted" (Some "drv-a") "regular" "sedan"]
  /\ fst finish = NotifyRun.Answered NotifyRun.noDrivers
  /\ rides (snd finish)
     = [Fixture.ride "ride-1" "no_drivers_available" (Some "drv-a")
                     "regular" "sedan"].
Proof. vm_compute. repeat split; reflexivity. Qed.

(** *** The operations of the app *)





Lemma completeRide_across
      (calculateDistance : Q -> Q -> Q -> Q -> Q)
      (destination_latitude destination_longitude : Ride.t -> option Q)
      (m : FareCalculationService.Scoping) (db : Db) (f : Faults)
      (startNow endNow : Z) (driver : option Driver.t) (rideId : string) :
  RideContext.completeRide calculateDistance destination_latitude
    destination_longitude m db f startNow endNow driver rideId
  = RideContext.completeRideAcross calculateDistance destination_latitude
      destination_longitude m db f f startNow endNow driver rideId.
Proof. reflexivity. Qed.


(** *** update-ride-status *)





(** * The search endpoint, from the request on *)

(** How the search endpoint answers. [handleFindNearbyDrivers] answers
    400 exactly when the body can be read and a coordinate in it is
    absent or zero. It answers 500 exactly when the body cannot be read
    (no body, not JSON, or null: what is thrown is caught and
    answered), or, with both coordinates given, the drivers cannot be
    read, or there is an online verified driver and the locations
    cannot be read. Every other request is answered 200 with
    [total_found] equal to the number of listed drivers. *)
Theorem search_reports_read_failures
        (calculateDistance : Q -> Q -> Q -> Q -> Q)
        (db : Db) (f : Faults) (now : Z)
        (payload : Payload FindNearbyDrivers.Body) :
  let out :=
    FindNearbyDrivers.handleRequest calculateDistance db f now payload in
  (FindNearbyDrivers.http_status out = 400%Z
   <-> exists body, payload = Fields body /\ pickup_of body = None)
  /\ (FindNearbyDrivers.http_status out = 500%Z
      <-> (exists message, payload = Unreadable message)
          \/ exists body,
               payload = Fields body
               /\ pickup_of body <> None
               /\ (select_error f "drivers" <> None
                   \/ (exists d, In d (drivers db) /\ on_duty d = true)
                      /\ select_error f "live_locations" <> None))
  /\ (FindNearbyDrivers.http_status out <> 400%Z ->
      FindNearbyDrivers.http_status out <> 500%Z ->
      FindNearbyDrivers.http_status out = 200%Z
      /\ FindNearbyDrivers.total_found out
         = Some (List.length (FindNearbyDrivers.listed out))).
Proof.
  destruct payload as [message|body]; cbn [FindNearbyDrivers.handleRequest].
  - cbv zeta. cbn [FindNearbyDrivers.http_status].
    split; [split; [discriminate | intros [b [H _]]; discriminate]|].
    split; [|intros _ H; exfalso; apply H; reflexivity].
    split; [intros _; left; exists message; reflexivity | reflexivity].
  - destruct (parsed_search_answers calculateDistance db f now body)
      as [H400 [H500 H200]].
    cbv zeta in *.
    split; [|split; [|exact H200]].
    + rewrite H400. split.
      * intros H. exists body. split; [reflexivity | exact H].
      * intros [b [[= <-] H]]. exact H.
    + rewrite H500. split.
      * intros H. right. exists body. split; [reflexivity | exact H].
      * intros [[msg H]|[b [[= <-] H]]]; [discriminate | exact H].
Qed.

Lemma search_reports_read_failures_witness :
  FindNearbyDrivers.http_status
    (FindNearbyDrivers.handleRequest gridDistance Fixture.tie no_faults
       Fixture.now (Unreadable "Unexpected end of JSON input"))
  = 500%Z
  /\ FindNearbyDrivers.http_status
       (FindNearbyDrivers.handleRequest gridDistance Fixture.tie no_faults
          Fixture.now
          (Fields (FindNearbyDrivers.mkBody None (Some Fixture.pickup_lng)
                     None None)))
     = 400%Z
  /\ FindNearbyDrivers.http_status
       (FindNearbyDrivers.handleRequest gridDistance Fixture.tie no_faults
          Fixture.now (Fields (Fixture.search "sedan")))
     = 200%Z.
Proof.
  split; [|split].
  - apply (proj1 (proj2 (search_reports_read_failures gridDistance
                           Fixture.tie no_faults Fixture.now
                           (Unreadable "Unexpected end of JSON input")))).
    left. eexists. reflexivity.
  - apply (proj1 (search_reports_read_failures gridDistance Fixture.tie
                    no_faults Fixture.now
                    (Fields (FindNearbyDrivers.mkBody None
                               (Some Fixture.pickup_lng) None None)))).
    eexists. split; reflexivity.
  - apply (proj2 (proj2 (search_reports_read_failures gridDistance
                           Fixture.tie no_faults Fixture.now
                           (Fields (Fixture.search "sedan")))));
      vm_compute; discriminate.
Defined.


(** * Completing a ride on a store whose answers change *)

(** Not atomic. [completeRide] sends two updates to the rides table:
    one inside the fare service, whose reply is not inspected, and one
    of its own, which marks the ride. When the fare has been computed
    and stored and the update that marks the ride is refused, the call
    reports failure and leaves the store as the fare service left it:
    the new completion record stays, no ride has changed its status,
    and the ride carries the fare, the distance and the duration when
    the first update was accepted, and is as it was when that one was
    refused as well. *)
Theorem failed_completion_leaves_record
        (calculateDistance : Q -> Q -> Q -> Q -> Q)
        (destination_latitude destination_longitude : Ride.t -> option Q)
        (m : FareCalculationService.Scoping) (db : Db) (f g : Faults)
        (startNow endNow : Z) (driver : option Driver.t) (rideId : string)
        (d : Driver.t) (ride : Ride.t) (dropLat dropLng : Q) :
  driver = Some d ->
  found_ride db g rideId ride ->
  destination_latitude ride = Some dropLat ->
  destination_longitude ride = Some dropLng ->
  update_error g "rides" <> None ->
  let fare :=
    FareCalculationService.calculateAndStoreTripFare calculateDistance m
      db f startNow endNow rideId
      RideContext.actualDistanceKm RideContext.actualDurationMinutes
      (Ride.pickup_latitude ride) (Ride.pickup_longitude ride)
      dropLat dropLng in
  FareCalculationService.success (fst fare) = true ->
  let out :=
    RideContext.completeRideAcross calculateDistance destination_latitude
      destination_longitude m db f g startNow endNow driver rideId in
  fst out = None
  /\ snd out = snd fare
  /\ changes_only (fun _ _ => False) db (snd out)
  /\ (exists c,
        completions_of (snd out) rideId
        = (completions_of db rideId ++ [c])%list)
  /\ exists fb,
       FareCalculationService.fareBreakdown (fst fare) = Some fb
       /\ (update_error f "rides" = None ->
           rides (snd out)
           = map (fun x => if String.eqb (Ride.id x) rideId
                           then with_fare (FareBreakdown.total_fare fb)
                                  RideContext.actualDistanceKm
                                  RideContext.actualDurationMinutes x
                           else x)
                 (rides db))
       /\ (update_error f "rides" <> None -> rides (snd out) = rides db).
Proof.
  intros Hd Hride Hlat Hlng Hupd fare Hs out.
  destruct (trip_fare_success_inv calculateDistance m db f startNow endNow
              rideId RideContext.actualDistanceKm
              RideContext.actualDurationMinutes
              (Ride.pickup_latitude ride) (Ride.pickup_longitude ride)
              dropLat dropLng Hs)
    as [ride' [zs [fb [_ [_ [_ [_ E]]]]]]].
  fold fare in E.
  assert (Hout : out = (None, snd fare)).
  { unfold out, RideContext.completeRideAcross. rewrite Hd.
    unfold found_ride in Hride. rewrite Hride. cbn [error data ok].
    rewrite Hlat, Hlng. fold fare. rewrite E.
    cbn [fst snd FareCalculationService.success
           FareCalculationService.fareBreakdown negb].
    unfold update_single.
    destruct (update_error g "rides") as [e|]; [|contradiction].
    cbn [error failed]. rewrite with_rides_same. reflexivity. }
  rewrite Hout. cbn [fst snd].
  split; [reflexivity|]. split; [reflexivity|].
  split; [exact (trip_fare_keeps_status calculateDistance m db f startNow
                   endNow rideId RideContext.actualDistanceKm
                   RideContext.actualDurationMinutes
                   (Ride.pickup_latitude ride) (Ride.pickup_longitude ride)
                   dropLat dropLng)|].
  rewrite E. cbn [fst snd FareCalculationService.fareBreakdown].
  split.
  - exists (FareCalculationService.completionRow rideId ride'
              RideContext.actualDistanceKm RideContext.actualDurationMinutes
              fb).
    unfold completions_of.
    rewrite (proj1 (updateRideFare_tables f rideId _ _ _ _)).
    cbn [trip_completions with_trip_completions].
    rewrite filter_app. simpl. rewrite String.eqb_refl. reflexivity.
  - exists fb. split; [reflexivity|].
    unfold FareCalculationService.updateRideFare.
    destruct (update_error f "rides") as [e|].
    + split; [discriminate | intros _; reflexivity].
    + split; [intros _; reflexivity | intros H; contradiction].
Qed.

Lemma failed_completion_leaves_record_witness :
  let out :=
    RideContext.completeRideAcross gridDistance
      Fixture2.destination_latitude Fixture2.destination_longitude
      FareCalculationService.BlockScoped Fixture2.outstation_trip
      no_faults Fixture2.rides_read_only Fixture.now Fixture.now
      (Some Fixture2.busy_driver) "ride-2" in
  fst out = None
  /\ List.length (completions_of (snd out) "ride-2") = 1%nat
  /\ map Ride.status (rides (snd out)) = ["in_progress"]
  /\ map Ride.distance_km (rides (snd out)) = [Some (52 # 10)].
Proof.
  assert (Hupd : update_error Fixture2.rides_read_only "rides" <> None)
    by discriminate.
  destruct (failed_completion_leaves_record gridDistance
              Fixture2.destination_latitude Fixture2.destination_longitude
              FareCalculationService.BlockScoped Fixture2.outstation_trip
              no_faults Fixture2.rides_read_only Fixture.now Fixture.now
              (Some Fixture2.busy_driver) "ride-2"
              Fixture2.busy_driver
              (Fixture.ride "ride-2" "in_progress" (Some "drv-a")
                            "outstation" "sedan")
              Fixture.pickup_lat Fixture.pickup_lng
              eq_refl eq_refl eq_refl eq_refl Hupd eq_refl)
    as [Hnone [_ [_ [[c Hc] _]]]].
  cbv zeta. split; [exact Hnone|]. split; [rewrite Hc; reflexivity|].
  split; vm_compute; reflexivity.
Defined.

